(** * Cart and product services: a shallow embedding

    The backend keeps four SQLite tables ([products], [product_images],
    [carts], [cart_items]).  [cart.ts] holds the cart service (prepared
    statements run against the shared connection), [index.ts] the cart routes
    of the HTTP facade and [products.ts] the product router.

    Tables are lists of rows in insertion (rowid) order.  Every service
    function takes the database explicitly and returns the new one; values
    the source draws from its environment ([randomUUID()],
    [new Date().toISOString()], [Date.now()], [Math.random()]) are extra
    arguments.  A statement that violates a schema constraint throws, which
    the model renders as [Throw]; the database is then the one before the
    statement. *)

From Stdlib Require Import List String Ascii ZArith Bool Lia.
Import ListNotations.

Open Scope string_scope.
Open Scope Z_scope.

(** ** JavaScript numbers

    Prices are SQLite [REAL]s and JavaScript doubles.  The development is
    parametric in the number type and its operations, so nothing below relies
    on an algebraic law that floating point lacks. *)

Class JsNum (num : Type) : Type := {
  jzero : num;
  jadd : num -> num -> num;
  jmul : num -> num -> num;
  jofZ : Z -> num;
  jpositive : num -> bool
}.

#[export] Instance JsNum_Z : JsNum Z := {
  jzero := 0;
  jadd := Z.add;
  jmul := Z.mul;
  jofZ := fun z => z;
  jpositive := fun z => 0 <? z
}.

(** [ToNumber(null)] is [+0]: a [NULL] column read into an arithmetic
    expression counts as zero. *)
Definition js_to_number {num} `{JsNum num} (v : option num) : num :=
  match v with
  | Some x => x
  | None => jzero
  end.

(** JavaScript truthiness of a string-or-null value: [null] and the empty
    string are falsy. *)
Definition truthy_string (v : option string) : bool :=
  match v with
  | Some s => negb (s =? "")%string
  | None => false
  end.

(** ** Rows

    Column names follow the schema.  [ci_quantity] is an [INTEGER] column;
    the model keeps it in [Z], which is what SQLite stores as long as the
    value stays inside the signed 64-bit range. *)

Record Product {num : Type} : Type := mkProduct {
  p_id : string;
  p_name : string;
  p_description : string;
  p_price : num;
  p_sku : string;
  p_createdAt : string
}.
Arguments Product : clear implicits.
Arguments mkProduct {num}.

Record ProductImage : Type := mkProductImage {
  pi_id : string;
  pi_productId : string;
  pi_url : string;
  pi_position : Z;
  pi_createdAt : string
}.

Record CartRow : Type := mkCartRow {
  c_id : string;
  c_session_id : string;
  c_created_at : string;
  c_updated_at : string
}.

Record CartItemRow : Type := mkCartItemRow {
  ci_id : string;
  ci_cart_id : string;
  ci_product_id : string;
  ci_quantity : Z;
  ci_created_at : string;
  ci_updated_at : string
}.

(** The database.  The tables are created by [db.ts], which is not among the
    sources; the cart tables follow the schema the cart task document lists
    for [initDatabase] ([id] is the primary key of both, [cart_items.cart_id]
    references [carts(id)] and [cart_items.product_id] references
    [products(id)], no uniqueness on [(cart_id, product_id)] or on
    [session_id]), the product tables the schema the product tests mirror
    ([sku] is [UNIQUE]).  [foreign_keys] is the connection's
    [PRAGMA foreign_keys] setting: SQLite enforces the references only when
    it is on. *)
Record Db {num : Type} : Type := mkDb {
  products : list (Product num);
  product_images : list ProductImage;
  carts : list CartRow;
  cart_items : list CartItemRow;
  foreign_keys : bool
}.
Arguments Db : clear implicits.
Arguments mkDb {num}.

Inductive SqlError : Type :=
| PrimaryKeyViolation
| ForeignKeyViolation
| UniqueViolation.

Inductive result (A : Type) : Type :=
| Ok (a : A)
| Throw (e : SqlError).
Arguments Ok {A}.
Arguments Throw {A}.

(** ** Objects returned by the cart service *)

Record ProductView {num : Type} : Type := mkProductView {
  pv_id : option string;
  pv_name : option string;
  pv_description : option string;
  pv_price : option num;
  pv_sku : option string;
  pv_imageUrl : option string
}.
Arguments ProductView : clear implicits.
Arguments mkProductView {num}.

Record CartItemView {num : Type} : Type := mkCartItemView {
  iv_id : string;
  iv_cartId : string;
  iv_productId : option string;
  iv_quantity : Z;
  iv_createdAt : string;
  iv_updatedAt : string;
  iv_product : ProductView num
}.
Arguments CartItemView : clear implicits.
Arguments mkCartItemView {num}.

Record CartView {num : Type} : Type := mkCartView {
  cv_id : string;
  cv_sessionId : string;
  cv_createdAt : string;
  cv_updatedAt : string;
  cv_items : list (CartItemView num);
  cv_totalItems : Z;
  cv_totalPrice : num
}.
Arguments CartView : clear implicits.
Arguments mkCartView {num}.

(** [addToCart] returns the selected row with its quantity replaced (snake
    case columns, the old [updated_at]) when the item existed, and a fresh
    camel case object otherwise. *)
Inductive AddedItem : Type :=
| ExistingItem (row : CartItemRow)
| NewItem (row : CartItemRow).

Inductive SuccessMarker : Type := success_true.

(** ** Table access *)

Section Tables.
Context {num : Type}.

Definition with_carts (db : Db num) (cs : list CartRow) : Db num :=
  mkDb (products db) (product_images db) cs (cart_items db) (foreign_keys db).

Definition with_cart_items (db : Db num) (its : list CartItemRow) : Db num :=
  mkDb (products db) (product_images db) (carts db) its (foreign_keys db).

Definition with_products (db : Db num) (ps : list (Product num)) : Db num :=
  mkDb ps (product_images db) (carts db) (cart_items db) (foreign_keys db).

Definition with_product_images (db : Db num) (ims : list ProductImage) : Db num :=
  mkDb (products db) ims (carts db) (cart_items db) (foreign_keys db).

Definition cart_exists (db : Db num) (cartId : string) : bool :=
  existsb (fun c => (c_id c =? cartId)%string) (carts db).

Definition product_exists (db : Db num) (productId : string) : bool :=
  existsb (fun p => (p_id p =? productId)%string) (products db).

Definition cart_item_id_used (db : Db num) (id : string) : bool :=
  existsb (fun r => (ci_id r =? id)%string) (cart_items db).

(** [INSERT INTO carts]: [id] is the primary key. *)
Definition insert_cart (db : Db num) (row : CartRow) : result (Db num) :=
  if cart_exists db (c_id row) then Throw PrimaryKeyViolation
  else Ok (with_carts db (carts db ++ [row])).

(** [INSERT INTO cart_items]: [id] is the primary key, [cart_id] and
    [product_id] are foreign keys. *)
Definition insert_cart_item (db : Db num) (row : CartItemRow) : result (Db num) :=
  if cart_item_id_used db (ci_id row) then Throw PrimaryKeyViolation
  else if foreign_keys db
          && negb (cart_exists db (ci_cart_id row) && product_exists db (ci_product_id row))
  then Throw ForeignKeyViolation
  else Ok (with_cart_items db (cart_items db ++ [row])).

(** [SELECT * FROM cart_items WHERE cart_id = ? AND product_id = ?], [.get]:
    the first matching row. *)
Definition select_cart_item (db : Db num) (cartId productId : string) : option CartItemRow :=
  find (fun r => (ci_cart_id r =? cartId)%string && (ci_product_id r =? productId)%string)
       (cart_items db).

(** [SELECT * FROM cart_items WHERE id = ?], [.get]. *)
Definition select_cart_item_by_id (db : Db num) (itemId : string) : option CartItemRow :=
  find (fun r => (ci_id r =? itemId)%string) (cart_items db).

(** [UPDATE cart_items SET quantity = quantity + ?, updated_at = ? WHERE id = ?] *)
Definition increment_quantity (quantity : Z) (now itemId : string) (r : CartItemRow) : CartItemRow :=
  if (ci_id r =? itemId)%string
  then mkCartItemRow (ci_id r) (ci_cart_id r) (ci_product_id r)
                     (ci_quantity r + quantity) (ci_created_at r) now
  else r.

(** [UPDATE cart_items SET quantity = ?, updated_at = ? WHERE id = ?] *)
Definition set_quantity (quantity : Z) (now itemId : string) (r : CartItemRow) : CartItemRow :=
  if (ci_id r =? itemId)%string
  then mkCartItemRow (ci_id r) (ci_cart_id r) (ci_product_id r)
                     quantity (ci_created_at r) now
  else r.

End Tables.

(** ** Cart service ([cart.ts]) *)

Section CartService.
Context {num : Type} `{JsNum num}.

(** [createCart]: [id] is the [randomUUID()] drawn, [now] the clock. *)
Definition createCart (db : Db num) (sessionId id now : string)
  : result (Db num * CartView num) :=
  match insert_cart db (mkCartRow id sessionId now now) with
  | Ok db' => Ok (db', mkCartView id sessionId now now [] 0 jzero)
  | Throw e => Throw e
  end.

(** [ORDER BY created_at DESC LIMIT 1]: the first row whose timestamp no
    other row exceeds. *)
Fixpoint latest_cart (best : CartRow) (l : list CartRow) : CartRow :=
  match l with
  | [] => best
  | c :: l' =>
      latest_cart (if (c_created_at best <? c_created_at c)%string then c else best) l'
  end.

Definition findCartBySessionId (db : Db num) (sessionId : string) : option CartRow :=
  match filter (fun c => (c_session_id c =? sessionId)%string) (carts db) with
  | [] => None
  | c :: l => Some (latest_cart c l)
  end.

(** A row of [carts c LEFT JOIN cart_items ci LEFT JOIN products p]: the
    [ci] columns are [NULL] together, and so are the [p] columns. *)
Record JoinRow : Type := mkJoinRow {
  jr_cart : CartRow;
  jr_item : option CartItemRow;
  jr_product : option (Product num)
}.

Definition item_id (r : JoinRow) : option string := option_map ci_id (jr_item r).
Definition item_created_at (r : JoinRow) : option string :=
  option_map ci_created_at (jr_item r).
Definition product_id (r : JoinRow) : option string := option_map p_id (jr_product r).

(** The correlated subquery
    [SELECT url FROM product_images WHERE productId = p.id
     ORDER BY position ASC, createdAt ASC LIMIT 1]. *)
Definition image_before (a b : ProductImage) : bool :=
  (pi_position a <? pi_position b)
  || ((pi_position a =? pi_position b) && (pi_createdAt a <=? pi_createdAt b)%string).

Fixpoint first_image (best : ProductImage) (l : list ProductImage) : ProductImage :=
  match l with
  | [] => best
  | x :: l' => first_image (if image_before best x then best else x) l'
  end.

Definition image_url (db : Db num) (r : JoinRow) : option string :=
  match jr_product r with
  | None => None
  | Some p =>
      match filter (fun im => (pi_productId im =? p_id p)%string) (product_images db) with
      | [] => None
      | im :: l => Some (pi_url (first_image im l))
      end
  end.

Definition join_products (db : Db num) (c : CartRow) (ci : CartItemRow) : list JoinRow :=
  match filter (fun p => (ci_product_id ci =? p_id p)%string) (products db) with
  | [] => [mkJoinRow c (Some ci) None]
  | ps => map (fun p => mkJoinRow c (Some ci) (Some p)) ps
  end.

Definition join_items (db : Db num) (c : CartRow) : list JoinRow :=
  match filter (fun ci => (c_id c =? ci_cart_id ci)%string) (cart_items db) with
  | [] => [mkJoinRow c None None]
  | its => flat_map (join_products db c) its
  end.

(** [FROM carts c LEFT JOIN ... WHERE c.session_id = ?] *)
Definition join_rows (db : Db num) (sessionId : string) : list JoinRow :=
  flat_map (join_items db)
           (filter (fun c => (c_session_id c =? sessionId)%string) (carts db)).

(** [ORDER BY c.created_at DESC, ci.created_at ASC]; [NULL] sorts first in
    ascending order.  Rows that tie keep their join order. *)
Definition row_before (r1 r2 : JoinRow) : bool :=
  match String.compare (c_created_at (jr_cart r1)) (c_created_at (jr_cart r2)) with
  | Gt => true
  | Lt => false
  | Eq =>
      match item_created_at r1, item_created_at r2 with
      | None, _ => true
      | Some _, None => false
      | Some a, Some b => (a <=? b)%string
      end
  end.

Fixpoint insert_row (r : JoinRow) (l : list JoinRow) : list JoinRow :=
  match l with
  | [] => [r]
  | r' :: l' => if row_before r r' then r :: l else r' :: insert_row r l'
  end.

Fixpoint order_rows (l : list JoinRow) : list JoinRow :=
  match l with
  | [] => []
  | r :: l' => insert_row r (order_rows l')
  end.

Definition select_cart_rows (db : Db num) (sessionId : string) : list JoinRow :=
  order_rows (join_rows db sessionId).

(** [rows.filter((r) => r.item_id).map(...)] on one row: a row passes the
    filter when its [item_id] is truthy. *)
Definition item_of_row (db : Db num) (r : JoinRow) : option (CartItemView num) :=
  match jr_item r with
  | Some ci =>
      if truthy_string (item_id r)
      then Some (mkCartItemView (ci_id ci) (c_id (jr_cart r)) (product_id r)
                   (ci_quantity ci) (ci_created_at ci) (ci_updated_at ci)
                   (mkProductView (product_id r)
                      (option_map p_name (jr_product r))
                      (option_map p_description (jr_product r))
                      (option_map p_price (jr_product r))
                      (option_map p_sku (jr_product r))
                      (image_url db r)))
      else None
  | None => None
  end.

Fixpoint filter_map {A B : Type} (f : A -> option B) (l : list A) : list B :=
  match l with
  | [] => []
  | a :: l' =>
      match f a with
      | Some b => b :: filter_map f l'
      | None => filter_map f l'
      end
  end.

Definition totalItems (items : list (CartItemView num)) : Z :=
  fold_left (fun sum it => sum + iv_quantity it) items 0.

Definition totalPrice (items : list (CartItemView num)) : num :=
  fold_left
    (fun sum it => jadd sum (jmul (js_to_number (pv_price (iv_product it)))
                                  (jofZ (iv_quantity it))))
    items jzero.

Definition getCartWithItems (db : Db num) (sessionId : string) : option (CartView num) :=
  match select_cart_rows db sessionId with
  | [] => None
  | (base :: _) as rows =>
      let items := filter_map (item_of_row db) rows in
      Some (mkCartView (c_id (jr_cart base)) (c_session_id (jr_cart base))
              (c_created_at (jr_cart base)) (c_updated_at (jr_cart base))
              items (totalItems items) (totalPrice items))
  end.

(** [addToCart]: [now] is the clock, [id] the [randomUUID()] drawn when a row
    is inserted. *)
Definition addToCart (db : Db num) (cartId productId : string) (quantity : Z)
  (id now : string) : result (Db num * AddedItem) :=
  match select_cart_item db cartId productId with
  | Some existingItem =>
      Ok (with_cart_items db
            (map (increment_quantity quantity now (ci_id existingItem)) (cart_items db)),
          ExistingItem
            (mkCartItemRow (ci_id existingItem) (ci_cart_id existingItem)
               (ci_product_id existingItem) (ci_quantity existingItem + quantity)
               (ci_created_at existingItem) (ci_updated_at existingItem)))
  | None =>
      match insert_cart_item db (mkCartItemRow id cartId productId quantity now now) with
      | Ok db' => Ok (db', NewItem (mkCartItemRow id cartId productId quantity now now))
      | Throw e => Throw e
      end
  end.

Definition updateCartItem (db : Db num) (itemId : string) (quantity : Z) (now : string)
  : Db num * option CartItemRow :=
  let db' := with_cart_items db (map (set_quantity quantity now itemId) (cart_items db)) in
  (db', select_cart_item_by_id db' itemId).

Definition removeFromCart (db : Db num) (itemId : string) : Db num * SuccessMarker :=
  (with_cart_items db (filter (fun r => negb (ci_id r =? itemId)%string) (cart_items db)),
   success_true).

Definition clearCart (db : Db num) (cartId : string) : Db num * SuccessMarker :=
  (with_cart_items db (filter (fun r => negb (ci_cart_id r =? cartId)%string) (cart_items db)),
   success_true).

End CartService.

(** ** HTTP responses *)

Section Responses.
Context {num : Type}.

(** The JSON documents the handlers send.  [JError e] is [{ error: e }],
    [JInvalid e details] is [{ error: e, details }] with the validation
    messages, [JUndefined] is [c.json(undefined)] and [NoContent] an empty
    body. *)
Inductive Body : Type :=
| JCart (cart : CartView num)
| JItem (item : AddedItem)
| JRow (row : CartItemRow)
| JSuccess (marker : SuccessMarker)
| JProduct (product : Product num)
| JImage (image : ProductImage)
| JImages (images : list ProductImage)
| JError (error : string)
| JInvalid (error : string) (details : list string)
| JUndefined
| NoContent.

Record Response : Type := mkResponse {
  status : Z;
  body : Body
}.

End Responses.
Arguments Body : clear implicits.
Arguments Response : clear implicits.

(** ** Cart routes ([index.ts]) *)

(** Request bodies after [c.req.json()], at the types the schemas demand; a
    body of another shape fails the same [parse] with a [ZodError].  The
    schemas on the JSON document itself, with the type and [int()] checks,
    are [addToCartSchema_json] and [updateCartItemSchema_json] further down,
    and the routes that read the body [post_cart_items_request] and
    [put_cart_item_request]. *)
Record CreateCartBody : Type := mkCreateCartBody {
  cb_sessionId : string
}.

Record AddToCartBody : Type := mkAddToCartBody {
  ab_productId : string;
  ab_quantity : Z
}.

Record UpdateCartItemBody : Type := mkUpdateCartItemBody {
  ub_quantity : Z
}.

Definition min_length_1 (msg s : string) : list string :=
  if (s =? "")%string then [msg] else [].

(** [z.number().int().min(1, ...).max(100, ...)] *)
Definition quantity_issues (q : Z) : list string :=
  (if q <? 1 then ["Quantidade deve ser maior que 0"] else [])
  ++ (if 100 <? q then ["Quantidade máxima é 100"] else []).

Definition createCartSchema (b : CreateCartBody) : list string :=
  min_length_1 "Session ID é obrigatório" (cb_sessionId b).

Definition addToCartSchema (b : AddToCartBody) : list string :=
  min_length_1 "Product ID é obrigatório" (ab_productId b)
  ++ quantity_issues (ab_quantity b).

Definition updateCartItemSchema (b : UpdateCartItemBody) : list string :=
  quantity_issues (ub_quantity b).

Section CartRoutes.
Context {num : Type} `{JsNum num}.

Definition internal_error : Response num :=
  mkResponse 500 (JError "Erro interno do servidor").

Definition invalid_data (details : list string) : Response num :=
  mkResponse 400 (JInvalid "Dados inválidos" details).

(** [app.post('/api/cart')] *)
Definition post_cart (db : Db num) (b : CreateCartBody) (id now : string)
  : Db num * Response num :=
  match createCartSchema b with
  | [] =>
      match getCartWithItems db (cb_sessionId b) with
      | Some cart => (db, mkResponse 201 (JCart cart))
      | None =>
          match createCart db (cb_sessionId b) id now with
          | Ok (db', cart) => (db', mkResponse 201 (JCart cart))
          | Throw _ => (db, internal_error)
          end
      end
  | details => (db, invalid_data details)
  end.

(** [app.get('/api/cart/:sessionId')] *)
Definition get_cart (db : Db num) (sessionId id now : string) : Db num * Response num :=
  match getCartWithItems db sessionId with
  | Some cart => (db, mkResponse 200 (JCart cart))
  | None =>
      match createCart db sessionId id now with
      | Ok (db', created) => (db', mkResponse 200 (JCart created))
      | Throw _ => (db, internal_error)
      end
  end.

(** [app.post('/api/cart/:cartId/items')] *)
Definition post_cart_items (db : Db num) (cartId : string) (b : AddToCartBody)
  (id now : string) : Db num * Response num :=
  match addToCartSchema b with
  | [] =>
      match addToCart db cartId (ab_productId b) (ab_quantity b) id now with
      | Ok (db', item) => (db', mkResponse 201 (JItem item))
      | Throw _ => (db, internal_error)
      end
  | details => (db, invalid_data details)
  end.

(** [app.put('/api/cart/items/:itemId')] *)
Definition put_cart_item (db : Db num) (itemId : string) (b : UpdateCartItemBody)
  (now : string) : Db num * Response num :=
  match updateCartItemSchema b with
  | [] =>
      match updateCartItem db itemId (ub_quantity b) now with
      | (db', Some item) => (db', mkResponse 200 (JRow item))
      | (db', None) => (db', mkResponse 404 (JError "Item não encontrado"))
      end
  | details => (db, invalid_data details)
  end.

(** [app.delete('/api/cart/items/:itemId')] *)
Definition delete_cart_item (db : Db num) (itemId : string) : Db num * Response num :=
  let (db', result) := removeFromCart db itemId in
  (db', mkResponse 200 (JSuccess result)).

(** [app.delete('/api/cart/:cartId')] *)
Definition delete_cart (db : Db num) (cartId : string) : Db num * Response num :=
  let (db', result) := clearCart db cartId in
  (db', mkResponse 200 (JSuccess result)).

(** A request to the cart routes, with the values the environment supplied
    while it was served. *)
Inductive CartRequest : Type :=
| PostCart (b : CreateCartBody) (id now : string)
| GetCart (sessionId id now : string)
| PostCartItems (cartId : string) (b : AddToCartBody) (id now : string)
| PutCartItem (itemId : string) (b : UpdateCartItemBody) (now : string)
| DeleteCartItem (itemId : string)
| DeleteCart (cartId : string).

Definition serve (db : Db num) (r : CartRequest) : Db num * Response num :=
  match r with
  | PostCart b id now => post_cart db b id now
  | GetCart sessionId id now => get_cart db sessionId id now
  | PostCartItems cartId b id now => post_cart_items db cartId b id now
  | PutCartItem itemId b now => put_cart_item db itemId b now
  | DeleteCartItem itemId => delete_cart_item db itemId
  | DeleteCart cartId => delete_cart db cartId
  end.

(** Requests are served one after the other, each to completion. *)
Definition serve_all (db : Db num) (rs : list CartRequest) : Db num :=
  fold_left (fun d r => fst (serve d r)) rs db.

(** Sequential [addToCart] calls on one (cart, product) pair; each call comes
    with its quantity and the identifier and time drawn for it.  [None] when a
    call throws. *)
Fixpoint addToCart_all (db : Db num) (cartId productId : string)
  (calls : list (Z * string * string)) : option (Db num) :=
  match calls with
  | [] => Some db
  | (quantity, id, now) :: calls' =>
      match addToCart db cartId productId quantity id now with
      | Ok (db', _) => addToCart_all db' cartId productId calls'
      | Throw _ => None
      end
  end.

End CartRoutes.

(** ** Product router ([products.ts]) *)

Record ProductInput {num : Type} : Type := mkProductInput {
  in_name : string;
  in_description : string;
  in_price : num;
  in_sku : string
}.
Arguments ProductInput : clear implicits.
Arguments mkProductInput {num}.

(** One value of [formData.getAll('images')]: an uploaded [File] with its
    name and bytes, or a plain text field. *)
Inductive FormEntry : Type :=
| FormFile (name content : string)
| FormString (value : string).

(** What the request carries: a JSON document [{ url, position? }], a
    multipart form with its [images] entries, or a body that neither
    [c.req.json()] nor [c.req.formData()] can read. *)
Inductive Payload : Type :=
| JsonPayload (url : string) (position : option Z)
| FormPayload (images : list FormEntry)
| Unreadable.

Record ImageRequest : Type := mkImageRequest {
  content_type : string;
  payload : Payload
}.

(** The upload directory tree: directories made and files written (path and
    bytes). *)
Record Disk : Type := mkDisk {
  dirs : list string;
  files : list (string * string)
}.

(** [String.prototype.includes] *)
Fixpoint includes (s sub : string) : bool :=
  String.prefix sub s
  || match s with
     | EmptyString => false
     | String _ s' => includes s' sub
     end.

(** [origName.replace(/[^a-zA-Z0-9_.-]/g, '_')] on a name made of ASCII
    characters. *)
Definition safe_char (c : ascii) : bool :=
  let n := nat_of_ascii c in
  ((97 <=? n) && (n <=? 122))%nat
  || ((65 <=? n) && (n <=? 90))%nat
  || ((48 <=? n) && (n <=? 57))%nat
  || (n =? 95)%nat || (n =? 46)%nat || (n =? 45)%nat.

Fixpoint safe_name (s : string) : string :=
  match s with
  | EmptyString => EmptyString
  | String c s' => String (if safe_char c then c else "_"%char) (safe_name s')
  end.

(** The message [No files provided. Use field name "images".], with its
    quotation marks. *)
Definition no_files_provided : string :=
  let quote := String (ascii_of_nat 34) EmptyString in
  "No files provided. Use field name " ++ quote ++ "images" ++ quote ++ ".".

Section ProductRouter.
Context {num : Type} `{JsNum num}.

(** [z.string().url()]: whether the string parses as a URL. *)
Variable is_url : string -> bool.

Definition updateProductSchema (b : ProductInput num) : list string :=
  min_length_1 "Name is required" (in_name b)
  ++ min_length_1 "Description is required" (in_description b)
  ++ (if jpositive (in_price b) then [] else ["Price must be positive"])
  ++ min_length_1 "SKU is required" (in_sku b).

(** [z.object({ url: z.string().url(...), position: z.number().int().min(0).optional() })] *)
Definition addImageByUrlSchema (url : string) (position : option Z) : list string :=
  (if is_url url then [] else ["Invalid image URL"])
  ++ match position with
     | Some p => if p <? 0 then ["Number must be greater than or equal to 0"] else []
     | None => []
     end.

(** Modelled from the spec: the prepared statement [getProductById] of
    [db.ts], which is not among the sources; products are looked up by their
    unique identifier. *)
Definition getProductById (db : Db num) (id : string) : option (Product num) :=
  find (fun p => (p_id p =? id)%string) (products db).

(** Modelled from the spec: the prepared statement [getProductBySku] of
    [db.ts], which is not among the sources; the SKU is a unique catalog
    code. *)
Definition getProductBySku (db : Db num) (sku : string) : option (Product num) :=
  find (fun p => (p_sku p =? sku)%string) (products db).

Definition replace_product (id name description : string) (price : num) (sku : string)
  (p : Product num) : Product num :=
  if (p_id p =? id)%string
  then mkProduct (p_id p) name description price sku (p_createdAt p)
  else p.

(** Modelled from the spec: the prepared statement [updateProduct] of
    [db.ts], which is not among the sources; it replaces name, description,
    price and SKU of the product with the given identifier, which with its
    creation time is immutable.  The [sku] column is [UNIQUE]. *)
Definition updateProduct (db : Db num) (id name description : string) (price : num)
  (sku : string) : result (Db num) :=
  if product_exists db id
     && existsb (fun p => negb (p_id p =? id)%string && (p_sku p =? sku)%string) (products db)
  then Throw UniqueViolation
  else Ok (with_products db (map (replace_product id name description price sku) (products db))).

(** Modelled from the spec: the prepared statement [insertProductImage] of
    [db.ts], which is not among the sources; each accepted URL or file
    produces one image row.  [id] is the primary key and [productId]
    references [products(id)]. *)
Definition insertProductImage (db : Db num) (image : ProductImage) : result (Db num) :=
  if existsb (fun im => (pi_id im =? pi_id image)%string) (product_images db)
  then Throw PrimaryKeyViolation
  else if foreign_keys db && negb (product_exists db (pi_productId image))
  then Throw ForeignKeyViolation
  else Ok (with_product_images db (product_images db ++ [image])).

Definition server_error : Response num :=
  mkResponse 500 (JError "Internal server error").

(** [productsRouter.put('/:id')] on a body that was read and has the types
    of the schema; [put_product_request] further down starts from the
    request body. *)
Definition put_product (db : Db num) (id : string) (b : ProductInput num)
  : Db num * Response num :=
  match updateProductSchema b with
  | [] =>
      match getProductById db id with
      | None => (db, mkResponse 404 (JError "Product not found"))
      | Some existingProduct =>
          if negb (in_sku b =? p_sku existingProduct)%string
             && match getProductBySku db (in_sku b) with
                | Some _ => true
                | None => false
                end
          then (db, mkResponse 400 (JError "SKU already exists"))
          else
            match updateProduct db id (in_name b) (in_description b) (in_price b) (in_sku b) with
            | Ok db' =>
                (db', mkResponse 200
                        match getProductById db' id with
                        | Some updatedProduct => JProduct updatedProduct
                        | None => JUndefined
                        end)
            | Throw _ => (db, server_error)
            end
      end
  | details => (db, mkResponse 400 (JInvalid "Validation failed" details))
  end.

(** The helper [insertImage] of the upload handler; [uuid] is the
    [crypto.randomUUID()] drawn. *)
Definition insertImage (db : Db num) (id createdAt uuid url : string) (position : Z)
  : result (Db num * ProductImage) :=
  let image := mkProductImage uuid id url position createdAt in
  match insertProductImage db image with
  | Ok db' => Ok (db', image)
  | Throw e => Throw e
  end.

(** The loop over the form entries.  [draws k] gives what the environment
    supplies for the entry at position [k]: the text of
    [Date.now() + '_' + Math.random().toString(36).slice(2)] and the UUID of
    the row.  [None] when an insert throws; rows and files of earlier entries
    stay. *)
Fixpoint save_files (db : Db num) (disk : Disk) (id createdAt : string)
  (draws : nat -> string * string) (k : nat) (entries : list FormEntry)
  (savedImages : list ProductImage) : Db num * Disk * option (list ProductImage) :=
  match entries with
  | [] => (db, disk, Some savedImages)
  | FormString _ :: entries' =>
      save_files db disk id createdAt draws (S k) entries' savedImages
  | FormFile name content :: entries' =>
      let origName := if (name =? "")%string then "image" else name in
      let uniqueName := (fst (draws k) ++ "_" ++ safe_name origName)%string in
      let filepath := ("uploads/products/" ++ id ++ "/" ++ uniqueName)%string in
      let disk' := mkDisk (dirs disk) (files disk ++ [(filepath, content)]) in
      let publicUrl := ("/uploads/products/" ++ id ++ "/" ++ uniqueName)%string in
      match insertImage db id createdAt (snd (draws k)) publicUrl 0 with
      | Ok (db', image) =>
          save_files db' disk' id createdAt draws (S k) entries' (savedImages ++ [image])
      | Throw _ => (db, disk', None)
      end
  end.

(** [productsRouter.post('/:id/images')]; [createdAt] is the clock and [uuid]
    the identifier drawn on the JSON path. *)
Definition post_product_images (db : Db num) (disk : Disk) (id : string)
  (req : ImageRequest) (createdAt uuid : string) (draws : nat -> string * string)
  : Db num * Disk * Response num :=
  match getProductById db id with
  | None => (db, disk, mkResponse 404 (JError "Product not found"))
  | Some _ =>
      if includes (content_type req) "application/json" then
        match payload req with
        | JsonPayload url position =>
            match addImageByUrlSchema url position with
            | [] =>
                match insertImage db id createdAt uuid url
                        match position with Some p => p | None => 0 end with
                | Ok (db', image) => (db', disk, mkResponse 201 (JImage image))
                | Throw _ => (db, disk, server_error)
                end
            | details => (db, disk, mkResponse 400 (JInvalid "Validation failed" details))
            end
        | _ => (db, disk, server_error)
        end
      else if includes (content_type req) "multipart/form-data" then
        match payload req with
        | FormPayload [] => (db, disk, mkResponse 400 (JError no_files_provided))
        | FormPayload entries =>
            let productDir := ("uploads/products/" ++ id)%string in
            let disk1 :=
              if existsb (String.eqb productDir) (dirs disk) then disk
              else mkDisk (dirs disk ++ [productDir]) (files disk) in
            match save_files db disk1 id createdAt draws 0 entries [] with
            | (db', disk', Some savedImages) => (db', disk', mkResponse 201 (JImages savedImages))
            | (db', disk', None) => (db', disk', server_error)
            end
        | _ => (db, disk, server_error)
        end
      else (db, disk, mkResponse 415 (JError "Unsupported Content-Type"))
  end.

End ProductRouter.

(** ** Properties of a database *)

Section Properties.
Context {num : Type}.

Definition pair_of (r : CartItemRow) : string * string :=
  (ci_cart_id r, ci_product_id r).

(** At most one cart item per (cart, product) pair. *)
Definition one_row_per_pair (db : Db num) : Prop :=
  NoDup (map pair_of (cart_items db)).

(** The quantity stored for a (cart, product) pair. *)
Definition stored_quantity (db : Db num) (cartId productId : string) : option Z :=
  option_map ci_quantity (select_cart_item db cartId productId).

(** Every stored quantity lies between [lo] and [hi]. *)
Definition quantities_within (lo hi : Z) (db : Db num) : Prop :=
  Forall (fun r => lo <= ci_quantity r <= hi) (cart_items db).

(** The [UNIQUE] constraint of the [sku] column. *)
Definition unique_skus (db : Db num) : Prop :=
  NoDup (map p_sku (products db)).

(** What [INSERT INTO cart_items] needs in order not to throw. *)
Definition insertable (db : Db num) (cartId productId id : string) : Prop :=
  cart_item_id_used db id = false
  /\ (foreign_keys db = false
      \/ (cart_exists db cartId = true /\ product_exists db productId = true)).

Definition sum_quantities (calls : list (Z * string * string)) : Z :=
  fold_right (fun call acc => fst (fst call) + acc) 0 calls.

(** A returned item shows a stored [cart_items] row together with the price
    the referenced product has in the database now. *)
Definition reflects_store (db : Db num) (it : CartItemView num) : Prop :=
  exists ci,
    In ci (cart_items db)
    /\ iv_id it = ci_id ci
    /\ iv_quantity it = ci_quantity ci
    /\ ((exists p, In p (products db) /\ p_id p = ci_product_id ci
                   /\ pv_price (iv_product it) = Some (p_price p))
        \/ ((forall p, In p (products db) -> p_id p <> ci_product_id ci)
            /\ pv_price (iv_product it) = None)).

(** [UPDATE ... WHERE id = itemId] as seen on one row: the key columns and
    the creation time stay, a row with another identifier stays whole. *)
Definition quantity_update (itemId : string) (quantity : Z) (now : string)
  (r r' : CartItemRow) : Prop :=
  ci_id r' = ci_id r
  /\ ci_cart_id r' = ci_cart_id r
  /\ ci_product_id r' = ci_product_id r
  /\ ci_created_at r' = ci_created_at r
  /\ (ci_id r = itemId -> ci_quantity r' = quantity /\ ci_updated_at r' = now)
  /\ (ci_id r <> itemId -> r' = r).

End Properties.

(** What one returned item adds to the total price. *)
Definition line_total {num : Type} `{JsNum num} (it : CartItemView num) : num :=
  jmul (js_to_number (pv_price (iv_product it))) (jofZ (iv_quantity it)).

(** A join row is sound when its item is a stored row and its product, if
    any, is a stored product with the identifier the item refers to; a row
    without product means no stored product has that identifier. *)
Definition row_sound {num : Type} (db : Db num) (r : @JoinRow num) : Prop :=
  match jr_item r with
  | None => True
  | Some ci =>
      In ci (cart_items db)
      /\ match jr_product r with
         | Some p => In p (products db) /\ p_id p = ci_product_id ci
         | None => forall p, In p (products db) -> p_id p <> ci_product_id ci
         end
  end.

(** The cart of [r1] was created no earlier than the cart of [r2]. *)
Definition newer_or_same {num : Type} (r1 r2 : @JoinRow num) : Prop :=
  (c_created_at (jr_cart r2) <=? c_created_at (jr_cart r1))%string = true.

Definition is_add (r : CartRequest) : bool :=
  match r with
  | PostCartItems _ _ _ _ => true
  | _ => false
  end.

Definition count_adds (rs : list CartRequest) : Z :=
  Z.of_nat (List.length (filter is_add rs)).

Definition passes_validation (r : CartRequest) : bool :=
  match r with
  | PostCart b _ _ => match createCartSchema b with [] => true | _ => false end
  | PostCartItems _ b _ _ => match addToCartSchema b with [] => true | _ => false end
  | PutCartItem _ b _ => match updateCartItemSchema b with [] => true | _ => false end
  | _ => true
  end.

(** ** Sample data *)

Module Sample.

Definition empty : Db Z := mkDb [] [] [] [] false.

Definition notebook : Product Z :=
  mkProduct "prod-1" "Notebook" "Ultrabook" 10 "A1" "2025-01-01T10:00:00.000Z".

Definition mouse : Product Z :=
  mkProduct "prod-2" "Mouse" "Wireless" 7 "B2" "2025-01-01T11:00:00.000Z".

Definition cart_c : CartRow :=
  mkCartRow "cart-c" "session-1" "2025-01-02T09:00:00.000Z" "2025-01-02T09:00:00.000Z".

(** One session, one cart, two products, foreign keys enforced. *)
Definition shop : Db Z := mkDb [notebook; mouse] [] [cart_c] [] true.

(** [shop] after two units of the notebook went into the cart. *)
Definition shop_with_item : Db Z :=
  mkDb [notebook; mouse] [] [cart_c]
       [mkCartItemRow "item-1" "cart-c" "prod-1" 2
          "2025-01-02T09:05:00.000Z" "2025-01-02T09:05:00.000Z"]
       true.

(** Two valid add-item requests of 60 units each for the same pair. *)
Definition two_adds : list CartRequest :=
  [PostCartItems "cart-c" (mkAddToCartBody "prod-1" 60) "item-1" "2025-01-02T09:05:00.000Z";
   PostCartItems "cart-c" (mkAddToCartBody "prod-1" 60) "item-2" "2025-01-02T09:06:00.000Z"].

(** A cart and no products; foreign keys are not enforced. *)
Definition no_products : Db Z := mkDb [] [] [cart_c] [] false.

Definition cart_old : CartRow :=
  mkCartRow "cart-old" "session-2" "2025-01-01T08:00:00.000Z" "2025-01-01T08:00:00.000Z".

Definition cart_new : CartRow :=
  mkCartRow "cart-new" "session-2" "2025-01-03T08:00:00.000Z" "2025-01-03T08:00:00.000Z".

(** A session that owns two carts; the item sits in the older one. *)
Definition two_carts : Db Z :=
  mkDb [notebook] [] [cart_old; cart_new]
       [mkCartItemRow "item-9" "cart-old" "prod-1" 3
          "2025-01-01T08:30:00.000Z" "2025-01-01T08:30:00.000Z"]
       true.

Definition no_disk : Disk := mkDisk [] [].

(** A multipart request whose only [images] entry is a text field. *)
Definition text_only_upload : ImageRequest :=
  mkImageRequest "multipart/form-data; boundary=x" (FormPayload [FormString "hello"]).

Definition draws (k : nat) : string * string :=
  ("1700000000000_abc", "image-" ++ String (ascii_of_nat (48 + k)) "").

Definition http_url (s : string) : bool := String.prefix "http" s.

End Sample.

(** ** Further properties of a database *)

Section MoreProperties.
Context {num : Type}.

(** No two carts share a session identifier. *)
Definition one_cart_per_session (db : Db num) : Prop :=
  NoDup (map c_session_id (carts db)).

(** The primary key of [cart_items]. *)
Definition unique_item_ids (db : Db num) : Prop :=
  NoDup (map ci_id (cart_items db)).

(** A join row comes from a cart of the session, and its item, if any, is a
    stored item of that cart. *)
Definition row_of_session (db : Db num) (sessionId : string) (r : @JoinRow num) : Prop :=
  In (jr_cart r) (carts db)
  /\ c_session_id (jr_cart r) = sessionId
  /\ match jr_item r with
     | Some ci => In ci (cart_items db) /\ ci_cart_id ci = c_id (jr_cart r)
     | None => True
     end.

(** A stored item shown by a returned item, under the cart it belongs to. *)
Definition shows_item (sessionId : string) (db : Db num) (it : CartItemView num)
  (c : CartRow) (ci : CartItemRow) : Prop :=
  In c (carts db) /\ c_session_id c = sessionId
  /\ In ci (cart_items db) /\ ci_cart_id ci = c_id c
  /\ iv_id it = ci_id ci /\ iv_cartId it = c_id c /\ iv_quantity it = ci_quantity ci.

End MoreProperties.

(** The row an [addToCart] result describes. *)
Definition added_row (a : AddedItem) : CartItemRow :=
  match a with
  | ExistingItem r => r
  | NewItem r => r
  end.

(** ** The other routes of the product router ([products.ts]) *)

Section MoreProductRouter.
Context {num : Type} `{JsNum num}.

(** [path.join(process.cwd(), 'backend', image.url)], relative to the working
    directory. *)
Variable backend_path : string -> string.

Definition createProductSchema (b : ProductInput num) : list string :=
  min_length_1 "Name is required" (in_name b)
  ++ min_length_1 "Description is required" (in_description b)
  ++ (if jpositive (in_price b) then [] else ["Price must be positive"])
  ++ min_length_1 "SKU is required" (in_sku b).

(** Modelled from the spec: the prepared statement [insertProduct] of
    [db.ts], which is not among the sources; it persists a new product row.
    [id] is the primary key and [sku] is [UNIQUE]. *)
Definition insertProduct (db : Db num) (p : Product num) : result (Db num) :=
  if product_exists db (p_id p) then Throw PrimaryKeyViolation
  else if existsb (fun p' => (p_sku p' =? p_sku p)%string) (products db)
  then Throw UniqueViolation
  else Ok (with_products db (products db ++ [p])).

(** Modelled from the spec: the prepared statement [deleteProduct] of
    [db.ts], which is not among the sources; it removes the product, and
    where foreign keys are enforced the delete cascades to the rows that
    reference it (its images and the cart items naming it). *)
Definition deleteProduct (db : Db num) (id : string) : Db num :=
  let kept := filter (fun p => negb (p_id p =? id)%string) (products db) in
  if foreign_keys db && product_exists db id
  then mkDb kept
            (filter (fun im => negb (pi_productId im =? id)%string) (product_images db))
            (carts db)
            (filter (fun ci => negb (ci_product_id ci =? id)%string) (cart_items db))
            (foreign_keys db)
  else with_products db kept.

Fixpoint insert_image (im : ProductImage) (l : list ProductImage) : list ProductImage :=
  match l with
  | [] => [im]
  | im' :: l' => if image_before im im' then im :: l else im' :: insert_image im l'
  end.

Fixpoint order_images (l : list ProductImage) : list ProductImage :=
  match l with
  | [] => []
  | im :: l' => insert_image im (order_images l')
  end.

(** Modelled from the spec: the prepared statement [getImagesByProductId] of
    [db.ts], which is not among the sources; it returns all images of a
    product ordered by position, then creation time (images that tie keep
    their table order). *)
Definition getImagesByProductId (db : Db num) (productId : string) : list ProductImage :=
  order_images (filter (fun im => (pi_productId im =? productId)%string) (product_images db)).

(** Modelled from the spec: the prepared statement [getImageById] of [db.ts],
    which is not among the sources; an image is looked up by its
    identifier. *)
Definition getImageById (db : Db num) (imageId : string) : option ProductImage :=
  find (fun im => (pi_id im =? imageId)%string) (product_images db).

(** Modelled from the spec: the prepared statement [deleteImageById] of
    [db.ts], which is not among the sources; it removes the image row. *)
Definition deleteImageById (db : Db num) (imageId : string) : Db num :=
  with_product_images db
    (filter (fun im => negb (pi_id im =? imageId)%string) (product_images db)).

Definition product_not_found : Response num :=
  mkResponse 404 (JError "Product not found").

(** [productsRouter.post('/')]; [id] is the UUID drawn, [now] the clock. *)
Definition post_product (db : Db num) (b : ProductInput num) (id now : string)
  : Db num * Response num :=
  match createProductSchema b with
  | [] =>
      match getProductBySku db (in_sku b) with
      | Some _ => (db, mkResponse 400 (JError "SKU already exists"))
      | None =>
          let newProduct :=
            mkProduct id (in_name b) (in_description b) (in_price b) (in_sku b) now in
          match insertProduct db newProduct with
          | Ok db' => (db', mkResponse 201 (JProduct newProduct))
          | Throw _ => (db, server_error)
          end
      end
  | details => (db, mkResponse 400 (JInvalid "Validation failed" details))
  end.

(** [productsRouter.get('/:id')] *)
Definition get_product (db : Db num) (id : string) : Response num :=
  match getProductById db id with
  | None => product_not_found
  | Some product => mkResponse 200 (JProduct product)
  end.

(** [productsRouter.delete('/:id')] *)
Definition delete_product (db : Db num) (id : string) : Db num * Response num :=
  match getProductById db id with
  | None => (db, product_not_found)
  | Some _ => (deleteProduct db id, mkResponse 204 NoContent)
  end.

(** [productsRouter.get('/:id/images')] *)
Definition get_product_images (db : Db num) (id : string) : Response num :=
  match getProductById db id with
  | None => product_not_found
  | Some _ => mkResponse 200 (JImages (getImagesByProductId db id))
  end.

(** [productsRouter.delete('/:id/images/:imageId')].  The file of a locally
    stored image is removed on a best effort: [unlink_ok] tells whether
    [fs.unlinkSync] goes through, and its failure is swallowed. *)
Definition delete_product_image (db : Db num) (disk : Disk) (id imageId : string)
  (unlink_ok : bool) : Db num * Disk * Response num :=
  match getProductById db id with
  | None => (db, disk, product_not_found)
  | Some _ =>
      match getImageById db imageId with
      | None => (db, disk, mkResponse 404 (JError "Image not found"))
      | Some image =>
          if negb (pi_productId image =? id)%string
          then (db, disk, mkResponse 404 (JError "Image not found"))
          else
            let localPath := backend_path (pi_url image) in
            let disk' :=
              if String.prefix "/uploads/" (pi_url image)
                 && existsb (fun f => (fst f =? localPath)%string) (files disk)
                 && unlink_ok
              then mkDisk (dirs disk)
                          (filter (fun f => negb (fst f =? localPath)%string) (files disk))
              else disk in
            (deleteImageById db imageId, disk', mkResponse 204 NoContent)
      end
  end.

End MoreProductRouter.

(** The database constraints of the product tables. *)
Definition unique_product_ids {num : Type} (db : Db num) : Prop :=
  NoDup (map p_id (products db)).

Definition unique_image_ids {num : Type} (db : Db num) : Prop :=
  NoDup (map pi_id (product_images db)).

(** The number of [File] entries of a form. *)
Definition count_files (entries : list FormEntry) : nat :=
  List.length (filter (fun e => match e with FormFile _ _ => true | FormString _ => false end)
                      entries).

(** ** The client ([use-cart.ts], [session.ts]) *)

Section Client.
Context {num : Type} `{JsNum num}.

(** [item.id === itemId ? { ...item, quantity } : item] *)
Definition optimistic_item (itemId : string) (quantity : Z) (item : CartItemView num)
  : CartItemView num :=
  if (iv_id item =? itemId)%string
  then mkCartItemView (iv_id item) (iv_cartId item) (iv_productId item) quantity
                      (iv_createdAt item) (iv_updatedAt item) (iv_product item)
  else item.

(** The optimistic cart of [useUpdateCartItem]: the items with the quantity
    replaced and the totals recalculated from them.  A cart in the query
    cache went through [cartSchema.parse], so its prices are numbers. *)
Definition optimistic_cart (previousCart : CartView num) (itemId : string) (quantity : Z)
  : CartView num :=
  let items := map (optimistic_item itemId quantity) (cv_items previousCart) in
  mkCartView (cv_id previousCart) (cv_sessionId previousCart)
             (cv_createdAt previousCart) (cv_updatedAt previousCart)
             items
             (fold_left (fun sum it => sum + iv_quantity it) items 0)
             (fold_left
                (fun sum it => jadd sum (jmul (js_to_number (pv_price (iv_product it)))
                                              (jofZ (iv_quantity it))))
                items jzero).

(** [onMutate]: the query cache after the optimistic update and the context
    [{ previousCart }] handed to [onError]. *)
Definition onMutate (cache : option (CartView num)) (itemId : string) (quantity : Z)
  : option (CartView num) * option (CartView num) :=
  match cache with
  | Some previousCart => (Some (optimistic_cart previousCart itemId quantity), cache)
  | None => (cache, cache)
  end.

(** [onError]: roll back to the snapshot when there is one. *)
Definition onError (cache context : option (CartView num)) : option (CartView num) :=
  match context with
  | Some previousCart => Some previousCart
  | None => cache
  end.




End Client.

Definition SESSION_KEY : string := "cart_session_id".

(** [localStorage] as the list of its key/value pairs. *)
Definition getItem (key : string) (storage : list (string * string)) : option string :=
  option_map snd (find (fun kv => (fst kv =? key)%string) storage).

Definition removeItem (key : string) (storage : list (string * string))
  : list (string * string) :=
  filter (fun kv => negb (fst kv =? key)%string) storage.

Definition setItem (key value : string) (storage : list (string * string))
  : list (string * string) :=
  (key, value) :: removeItem key storage.

(** [getSessionId]; [window] tells whether [typeof window] is defined and
    [uuid] is the [crypto.randomUUID()] drawn when an identifier is made. *)
Definition getSessionId (window : bool) (storage : list (string * string)) (uuid : string)
  : list (string * string) * string :=
  if negb window then (storage, "")
  else if truthy_string (getItem SESSION_KEY storage)
       then (storage, match getItem SESSION_KEY storage with Some s => s | None => "" end)
       else (setItem SESSION_KEY uuid storage, uuid).

Definition clearSession (window : bool) (storage : list (string * string))
  : list (string * string) :=
  if negb window then storage else removeItem SESSION_KEY storage.

(** What the upload handler stores for a file of product [id]: a row of that
    product at position 0, stamped with the request time, whose URL lies
    under the product's public upload path. *)
Definition uploaded_image (id createdAt : string) (im : ProductImage) : Prop :=
  pi_productId im = id
  /\ pi_position im = 0
  /\ pi_createdAt im = createdAt
  /\ String.prefix ("/uploads/products/" ++ id ++ "/") (pi_url im) = true.

(** More sample data. *)
Module Fixtures.

Definition browse : list CartRequest :=
  [GetCart "session-1" "cart-x" "2025-01-02T10:00:00.000Z";
   GetCart "session-7" "cart-7" "2025-01-02T10:01:00.000Z";
   PostCart (mkCreateCartBody "session-7") "cart-8" "2025-01-02T10:02:00.000Z";
   PostCartItems "cart-7" (mkAddToCartBody "prod-2" 4) "item-7" "2025-01-02T10:03:00.000Z"].

Definition front : ProductImage :=
  mkProductImage "img-1" "prod-1" "https://example.com/front.jpg" 1 "2025-01-01T10:10:00.000Z".

Definition cover : ProductImage :=
  mkProductImage "img-2" "prod-1" "/uploads/products/prod-1/17_ab_cover.png" 0
                 "2025-01-01T10:20:00.000Z".

Definition pad : ProductImage :=
  mkProductImage "img-3" "prod-2" "https://example.com/pad.jpg" 0 "2025-01-01T11:10:00.000Z".

(** Two products with images, one cart with a notebook in it. *)
Definition gallery : Db Z :=
  mkDb [Sample.notebook; Sample.mouse] [front; cover; pad] [Sample.cart_c]
       [mkCartItemRow "item-1" "cart-c" "prod-1" 2
          "2025-01-02T09:05:00.000Z" "2025-01-02T09:05:00.000Z"]
       true.

Definition backend (url : string) : string := "backend" ++ url.

Definition disk_with_cover : Disk :=
  mkDisk ["uploads/products/prod-1"]
         [("uploads/products/prod-1/17_ab_cover.png", "bytes")].

(** A form with a file, a text field and a second file. *)
Definition two_files : ImageRequest :=
  mkImageRequest "multipart/form-data; boundary=x"
    (FormPayload [FormFile "a b.png" "xx"; FormString "note"; FormFile "" "yy"]).

Definition notebook_row : JoinRow :=
  mkJoinRow Sample.cart_c
            (Some (mkCartItemRow "item-1" "cart-c" "prod-1" 2
                     "2025-01-02T09:05:00.000Z" "2025-01-02T09:05:00.000Z"))
            (Some Sample.notebook).

End Fixtures.

(** ** Request bodies as JSON

    The typed bodies above are what a body looks like once it has the types
    its schema demands.  Here the body is the document [c.req.json()]
    returns, if it returns one, and the schemas are the zod schemas at full
    width: they check the type of every field before its range. *)

(** How a JavaScript number sits among the whole numbers: it is one, it lies
    strictly between [floor] and [floor + 1], or it is an infinity
    ([JSON.parse] reads [1e999] as [Infinity]). *)
Inductive NumberShape : Type :=
| Whole (z : Z)
| Between (floor : Z)
| Infinite (positive : bool).

Class JsShape (num : Type) : Type := {
  jshape : num -> NumberShape
}.

#[export] Instance JsShape_Z : JsShape Z := {
  jshape := fun z => Whole z
}.

#[warnings="-register-all"] Inductive Json {num : Type} : Type :=
| JsNull
| JsBool (b : bool)
| JsNumber (n : num)
| JsString (s : string)
| JsArray (items : list Json)
| JsObject (fields : list (string * Json)).
Arguments Json : clear implicits.

(** What [await c.req.json()] gives: it throws on a body that is not JSON,
    and returns the document otherwise. *)
Inductive RequestBody {num : Type} : Type :=
| NoJson
| Document (v : Json num).
Arguments RequestBody : clear implicits.

(** The outcome of a zod parse: the data, or the messages of the issues. *)
Inductive Parsed (A : Type) : Type :=
| Valid (data : A)
| Invalid (issues : list string).
Arguments Valid {A}.
Arguments Invalid {A}.

Definition issues_of {A : Type} (r : Parsed A) : list string :=
  match r with
  | Valid _ => []
  | Invalid issues => issues
  end.

Section JsonSchemas.
Context {num : Type} `{JsNum num} `{JsShape num}.

Definition type_name (v : Json num) : string :=
  match v with
  | JsNull => "null"
  | JsBool _ => "boolean"
  | JsNumber _ => "number"
  | JsString _ => "string"
  | JsArray _ => "array"
  | JsObject _ => "object"
  end.

(** The value of a key of an object; of a key written twice [JSON.parse]
    keeps the last. *)
Definition field (key : string) (fields : list (string * Json num)) : option (Json num) :=
  option_map snd (find (fun kv => (fst kv =? key)%string) (rev fields)).

(** [z.string().min(1, msg)] on the value of a key. *)
Definition z_string_min1 (msg : string) (v : option (Json num)) : Parsed string :=
  match v with
  | None => Invalid ["Required"]
  | Some (JsString s) =>
      match min_length_1 msg s with
      | [] => Valid s
      | issues => Invalid issues
      end
  | Some other => Invalid ["Expected string, received " ++ type_name other]
  end.

(** [z.number().int().min(1, ...).max(100, ...)] on the value of a key: the
    three checks all run on a number. *)
Definition z_quantity (v : option (Json num)) : Parsed Z :=
  match v with
  | None => Invalid ["Required"]
  | Some (JsNumber n) =>
      match jshape n with
      | Whole z =>
          match quantity_issues z with
          | [] => Valid z
          | issues => Invalid issues
          end
      | Between floor =>
          Invalid (["Expected integer, received float"]
                   ++ (if floor <? 1 then ["Quantidade deve ser maior que 0"] else [])
                   ++ (if 100 <=? floor then ["Quantidade máxima é 100"] else []))
      | Infinite true =>
          Invalid ["Expected integer, received float"; "Quantidade máxima é 100"]
      | Infinite false =>
          Invalid ["Expected integer, received float"; "Quantidade deve ser maior que 0"]
      end
  | Some other => Invalid ["Expected number, received " ++ type_name other]
  end.

(** [z.number().positive(msg)] on the value of a key. *)
Definition z_positive (msg : string) (v : option (Json num)) : Parsed num :=
  match v with
  | None => Invalid ["Required"]
  | Some (JsNumber n) => if jpositive n then Valid n else Invalid [msg]
  | Some other => Invalid ["Expected number, received " ++ type_name other]
  end.

Definition not_an_object {A : Type} (v : Json num) : Parsed A :=
  Invalid ["Expected object, received " ++ type_name v].

(** [addToCartSchema.parse(body)] *)
Definition addToCartSchema_json (v : Json num) : Parsed AddToCartBody :=
  match v with
  | JsObject fields =>
      match z_string_min1 "Product ID é obrigatório" (field "productId" fields),
            z_quantity (field "quantity" fields) with
      | Valid productId, Valid quantity => Valid (mkAddToCartBody productId quantity)
      | r1, r2 => Invalid (issues_of r1 ++ issues_of r2)
      end
  | other => not_an_object other
  end.

(** [updateCartItemSchema.parse(body)] *)
Definition updateCartItemSchema_json (v : Json num) : Parsed UpdateCartItemBody :=
  match v with
  | JsObject fields =>
      match z_quantity (field "quantity" fields) with
      | Valid quantity => Valid (mkUpdateCartItemBody quantity)
      | Invalid issues => Invalid issues
      end
  | other => not_an_object other
  end.

(** [updateProductSchema.safeParse(body)] *)
Definition updateProductSchema_json (v : Json num) : Parsed (ProductInput num) :=
  match v with
  | JsObject fields =>
      match z_string_min1 "Name is required" (field "name" fields),
            z_string_min1 "Description is required" (field "description" fields),
            z_positive "Price must be positive" (field "price" fields),
            z_string_min1 "SKU is required" (field "sku" fields) with
      | Valid name, Valid description, Valid price, Valid sku =>
          Valid (mkProductInput name description price sku)
      | r1, r2, r3, r4 =>
          Invalid (issues_of r1 ++ issues_of r2 ++ issues_of r3 ++ issues_of r4)
      end
  | other => not_an_object other
  end.

(** [app.post('/api/cart/:cartId/items')] on the request body: a body that
    is not JSON makes [c.req.json()] throw, which is no [ZodError] and is
    answered 500. *)
Definition post_cart_items_request (db : Db num) (cartId : string) (body : RequestBody num)
  (id now : string) : Db num * Response num :=
  match body with
  | NoJson => (db, internal_error)
  | Document v =>
      match addToCartSchema_json v with
      | Valid b =>
          match addToCart db cartId (ab_productId b) (ab_quantity b) id now with
          | Ok (db', item) => (db', mkResponse 201 (JItem item))
          | Throw _ => (db, internal_error)
          end
      | Invalid details => (db, invalid_data details)
      end
  end.

(** [app.put('/api/cart/items/:itemId')] on the request body. *)
Definition put_cart_item_request (db : Db num) (itemId : string) (body : RequestBody num)
  (now : string) : Db num * Response num :=
  match body with
  | NoJson => (db, internal_error)
  | Document v =>
      match updateCartItemSchema_json v with
      | Valid b =>
          match updateCartItem db itemId (ub_quantity b) now with
          | (db', Some item) => (db', mkResponse 200 (JRow item))
          | (db', None) => (db', mkResponse 404 (JError "Item não encontrado"))
          end
      | Invalid details => (db, invalid_data details)
      end
  end.

(** [productsRouter.put('/:id')] on the request body: [c.req.json()] is
    inside the [try], so a body that is not JSON ends in the 500 of the
    [catch] block. *)
Definition put_product_request (db : Db num) (id : string) (body : RequestBody num)
  : Db num * Response num :=
  match body with
  | NoJson => (db, server_error)
  | Document v =>
      match updateProductSchema_json v with
      | Invalid details => (db, mkResponse 400 (JInvalid "Validation failed" details))
      | Valid data =>
          match getProductById db id with
          | None => (db, mkResponse 404 (JError "Product not found"))
          | Some existingProduct =>
              if negb (in_sku data =? p_sku existingProduct)%string
                 && match getProductBySku db (in_sku data) with
                    | Some _ => true
                    | None => false
                    end
              then (db, mkResponse 400 (JError "SKU already exists"))
              else
                match updateProduct db id (in_name data) (in_description data)
                        (in_price data) (in_sku data) with
                | Ok db' =>
                    (db', mkResponse 200
                            match getProductById db' id with
                            | Some updatedProduct => JProduct updatedProduct
                            | None => JUndefined
                            end)
                | Throw _ => (db, server_error)
                end
          end
      end
  end.

(** The documents the add-item schema accepts: an object whose [productId]
    is a non-empty string and whose [quantity] is a whole number in
    1..100. *)
Definition accepted_add (v : Json num) : Prop :=
  exists fields s n z,
    v = JsObject fields
    /\ field "productId" fields = Some (JsString s) /\ s <> ""
    /\ field "quantity" fields = Some (JsNumber n)
    /\ jshape n = Whole z /\ 1 <= z <= 100.

(** The documents the update-item schema accepts. *)
Definition accepted_update (v : Json num) : Prop :=
  exists fields n z,
    v = JsObject fields
    /\ field "quantity" fields = Some (JsNumber n)
    /\ jshape n = Whole z /\ 1 <= z <= 100.

End JsonSchemas.

(** Sample documents. *)
Module Documents.

(** [{ productId: "prod-1", quantity: 3 }] *)
Definition three_notebooks : Json Z :=
  JsObject [("productId", JsString "prod-1"); ("quantity", JsNumber 3)].

(** [{ productId: "prod-1", quantity: "3" }] *)
Definition quantity_as_text : Json Z :=
  JsObject [("productId", JsString "prod-1"); ("quantity", JsString "3")].

(** [{ quantity: 5 }] *)
Definition five : Json Z := JsObject [("quantity", JsNumber 5)].

(** [{ name: "Laptop", description: "Thin", price: 15, sku: "A1" }] *)
Definition laptop : Json Z :=
  JsObject [("name", JsString "Laptop"); ("description", JsString "Thin");
            ("price", JsNumber 15); ("sku", JsString "A1")].

End Documents.

(** * Proofs *)

(** ** Lists *)

Section ListFacts.
Context {A B : Type}.

Lemma find_map_same (f : A -> bool) (g : A -> A) (l : list A) :
  (forall x, f (g x) = f x) -> find f (map g l) = option_map g (find f l).
Proof.
  intros Hfg. induction l as [|a l IH]; simpl.
  - reflexivity.
  - rewrite Hfg. destruct (f a); [reflexivity | exact IH].
Qed.

Lemma find_app_none (f : A -> bool) (l : list A) (a : A) :
  find f l = None -> f a = true -> find f (l ++ [a]) = Some a.
Proof.
  intros Hnone Ha. induction l as [|b l IH]; simpl in *.
  - now rewrite Ha.
  - destruct (f b); [discriminate | auto].
Qed.

Lemma find_none_iff (f : A -> bool) (l : list A) :
  find f l = None <-> forall x, In x l -> f x = false.
Proof.
  split.
  - apply find_none.
  - induction l as [|a l IH]; simpl; intros Hall.
    + reflexivity.
    + rewrite (Hall a (or_introl eq_refl)). apply IH. auto.
Qed.

Lemma filter_map_in (f : A -> option B) (l : list A) (b : B) :
  In b (filter_map f l) -> exists a, In a l /\ f a = Some b.
Proof.
  induction l as [|a l IH]; simpl.
  - contradiction.
  - destruct (f a) as [b'|] eqn:Hfa.
    + intros [Hb | Hin].
      * subst b'. exists a. auto.
      * destruct (IH Hin) as [a' [Ha' Hf]]. exists a'. auto.
    + intros Hin. destruct (IH Hin) as [a' [Ha' Hf]]. exists a'. auto.
Qed.

End ListFacts.

(** ** Adding to a cart *)

Section AddFacts.
Context {num : Type} {JN : JsNum num}.

Lemma increment_keeps_pair (q : Z) (now i cartId productId : string) (r : CartItemRow) :
  (ci_cart_id (increment_quantity q now i r) =? cartId)%string
  && (ci_product_id (increment_quantity q now i r) =? productId)%string
  = (ci_cart_id r =? cartId)%string && (ci_product_id r =? productId)%string.
Proof.
  unfold increment_quantity. destruct (ci_id r =? i)%string; reflexivity.
Qed.

Lemma increment_pair_of (q : Z) (now i : string) (r : CartItemRow) :
  pair_of (increment_quantity q now i r) = pair_of r.
Proof.
  unfold increment_quantity, pair_of. destruct (ci_id r =? i)%string; reflexivity.
Qed.

Lemma set_quantity_pair_of (q : Z) (now i : string) (r : CartItemRow) :
  pair_of (set_quantity q now i r) = pair_of r.
Proof.
  unfold set_quantity, pair_of. destruct (ci_id r =? i)%string; reflexivity.
Qed.

(** The branch taken when the pair has a row: every row with the selected
    identifier is incremented and nothing is inserted. *)
Lemma addToCart_existing (db : Db num) (cartId productId : string) (q : Z)
  (id now : string) (r : CartItemRow) :
  select_cart_item db cartId productId = Some r ->
  exists db' item,
    addToCart db cartId productId q id now = Ok (db', item)
    /\ map pair_of (cart_items db') = map pair_of (cart_items db)
    /\ stored_quantity db' cartId productId = Some (ci_quantity r + q).
Proof.
  intros Hsel. unfold addToCart. rewrite Hsel.
  eexists. eexists. split; [reflexivity|]. split.
  - simpl. rewrite map_map. apply map_ext. intros a. apply increment_pair_of.
  - unfold stored_quantity, select_cart_item in *. simpl.
    rewrite find_map_same by (intros x; apply increment_keeps_pair).
    rewrite Hsel. simpl. unfold increment_quantity.
    rewrite String.eqb_refl. reflexivity.
Qed.

(** The branch taken when the pair has no row. *)
Lemma addToCart_new (db : Db num) (cartId productId : string) (q : Z) (id now : string) :
  select_cart_item db cartId productId = None ->
  insertable db cartId productId id ->
  exists db' item,
    addToCart db cartId productId q id now = Ok (db', item)
    /\ cart_items db' = (cart_items db ++ [mkCartItemRow id cartId productId q now now])%list
    /\ stored_quantity db' cartId productId = Some q.
Proof.
  intros Hsel [Hfresh Hfk]. unfold addToCart, insert_cart_item. rewrite Hsel. simpl.
  rewrite Hfresh.
  assert (Hguard : foreign_keys db
                   && negb (cart_exists db cartId && product_exists db productId) = false).
  { destruct Hfk as [Hoff | [Hc Hp]].
    - now rewrite Hoff.
    - rewrite Hc, Hp. now destruct (foreign_keys db). }
  rewrite Hguard. eexists. eexists. split; [reflexivity|]. split; [reflexivity|].
  unfold stored_quantity, select_cart_item in *. simpl.
  rewrite (find_app_none _ _ _ Hsel); [reflexivity|].
  simpl. now rewrite !String.eqb_refl.
Qed.

Lemma addToCart_all_existing (cartId productId : string)
  (calls : list (Z * string * string)) :
  forall (db : Db num) (q0 : Z),
    stored_quantity db cartId productId = Some q0 ->
    exists db',
      addToCart_all db cartId productId calls = Some db'
      /\ stored_quantity db' cartId productId = Some (q0 + sum_quantities calls).
Proof.
  induction calls as [|[[q id] now] calls IH]; intros db q0 Hq0; simpl.
  - exists db. split; [reflexivity|]. now rewrite Z.add_0_r.
  - unfold stored_quantity in Hq0.
    destruct (select_cart_item db cartId productId) as [r|] eqn:Hsel; [|discriminate].
    simpl in Hq0. injection Hq0 as Hq0.
    destruct (addToCart_existing db cartId productId q id now r Hsel)
      as [db1 [item [Hadd [_ Hstored]]]].
    rewrite Hadd. rewrite Hq0 in Hstored.
    destruct (IH db1 (q0 + q) Hstored) as [db' [Hall Hfinal]].
    exists db'. split; [exact Hall|]. rewrite Hfinal. f_equal. lia.
Qed.

(** C1.  Sequential add-to-cart calls on one (cart, product) pair that has no
    row yet: when the first insert is possible (the identifier drawn is
    unused and the foreign keys, if enforced, are met) every call returns, and
    the quantity stored for the pair afterwards is the sum q1 + ... + qn of
    the quantities given. *)
Theorem addToCart_sequence_stores_sum (db : Db num) (cartId productId : string)
  (q1 : Z) (id1 now1 : string) (calls : list (Z * string * string)) :
  select_cart_item db cartId productId = None ->
  insertable db cartId productId id1 ->
  exists db',
    addToCart_all db cartId productId ((q1, id1, now1) :: calls) = Some db'
    /\ stored_quantity db' cartId productId
       = Some (sum_quantities ((q1, id1, now1) :: calls)).
Proof.
  intros Hsel Hins. simpl.
  destruct (addToCart_new db cartId productId q1 id1 now1 Hsel Hins)
    as [db1 [item [Hadd [_ Hstored]]]].
  rewrite Hadd.
  destruct (addToCart_all_existing cartId productId calls db1 q1 Hstored)
    as [db' [Hall Hfinal]].
  exists db'. split; assumption.
Qed.

End AddFacts.

(** ** One row per (cart, product) pair *)

Section PairFacts.
Context {num : Type} {JN : JsNum num}.

Lemma NoDup_map_filter {A B : Type} (f : A -> B) (g : A -> bool) (l : list A) :
  NoDup (map f l) -> NoDup (map f (filter g l)).
Proof.
  induction l as [|a l IH]; simpl; intros Hnd.
  - constructor.
  - inversion Hnd as [|x xs Hnotin Hrest]; subst.
    destruct (g a); simpl; [constructor|]; auto.
    intros Hin. apply Hnotin. apply in_map_iff in Hin.
    destruct Hin as [x [Hfx Hx]]. apply filter_In in Hx.
    apply in_map_iff. exists x. tauto.
Qed.

Lemma NoDup_snoc {A : Type} (l : list A) (a : A) :
  NoDup l -> ~ In a l -> NoDup (l ++ [a]).
Proof.
  induction l as [|b l IH]; simpl; intros Hnd Hnotin.
  - constructor; [tauto | constructor].
  - inversion Hnd as [|x xs Hb Hrest]; subst. constructor.
    + rewrite in_app_iff. simpl. intros [Hin | [Heq | []]]; [tauto|].
      apply Hnotin. auto.
    + apply IH; tauto.
Qed.

Lemma select_none_pair_absent (db : Db num) (cartId productId : string) :
  select_cart_item db cartId productId = None ->
  ~ In (cartId, productId) (map pair_of (cart_items db)).
Proof.
  unfold select_cart_item. intros Hnone Hin.
  apply in_map_iff in Hin. destruct Hin as [r [Hpair Hr]].
  pose proof (find_none _ _ Hnone r Hr) as Hf. simpl in Hf.
  unfold pair_of in Hpair. injection Hpair as Hc Hp.
  rewrite Hc, Hp, !String.eqb_refl in Hf. discriminate.
Qed.

Lemma createCart_keeps_pairs (db db' : Db num) (sessionId id now : string)
  (cart : CartView num) :
  createCart db sessionId id now = Ok (db', cart) -> cart_items db' = cart_items db.
Proof.
  unfold createCart, insert_cart. destruct (cart_exists db _); simpl; [discriminate|].
  intros Heq. injection Heq as Hdb _. now subst db'.
Qed.

Lemma addToCart_keeps_pairs (db db' : Db num) (cartId productId : string) (q : Z)
  (id now : string) (item : AddedItem) :
  one_row_per_pair db ->
  addToCart db cartId productId q id now = Ok (db', item) ->
  one_row_per_pair db'.
Proof.
  unfold one_row_per_pair, addToCart. intros Hnd.
  destruct (select_cart_item db cartId productId) as [r|] eqn:Hsel.
  - intros Heq. injection Heq as Hdb _. subst db'. simpl.
    rewrite map_map.
    rewrite (map_ext _ pair_of) by (intros a; apply increment_pair_of). exact Hnd.
  - unfold insert_cart_item. simpl.
    destruct (cart_item_id_used db id); [discriminate|].
    destruct (foreign_keys db && _); [discriminate|].
    intros Heq. injection Heq as Hdb _. subst db'. simpl.
    rewrite map_app. simpl. apply NoDup_snoc; [exact Hnd|].
    now apply select_none_pair_absent.
Qed.

Lemma addToCart_present_same_rows (db db' : Db num) (cartId productId : string) (q : Z)
  (id now : string) (item : AddedItem) (r : CartItemRow) :
  select_cart_item db cartId productId = Some r ->
  addToCart db cartId productId q id now = Ok (db', item) ->
  map pair_of (cart_items db') = map pair_of (cart_items db).
Proof.
  intros Hsel Hadd.
  destruct (addToCart_existing db cartId productId q id now r Hsel)
    as [db1 [item1 [Hadd1 [Hpairs _]]]].
  rewrite Hadd in Hadd1. injection Hadd1 as Hdb _. now subst db1.
Qed.

Lemma updateCartItem_keeps_pairs (db : Db num) (itemId : string) (q : Z) (now : string) :
  map pair_of (cart_items (fst (updateCartItem db itemId q now)))
  = map pair_of (cart_items db).
Proof.
  simpl. rewrite map_map. apply map_ext. intros a. apply set_quantity_pair_of.
Qed.

(** C5.  Each cart-service operation keeps at most one cart-item row per
    (cart identifier, product identifier) pair.  Add-to-cart on a pair that
    has a row updates that row: the quantity stored for the pair grows by the
    quantity given, the list of pairs and the number of rows stay as they
    were, so no second row appears; on a pair without a row it appends the
    one row of the pair. *)
Theorem cart_service_keeps_one_row_per_pair (db : Db num) :
  one_row_per_pair db ->
  (forall sessionId id now db' cart,
      createCart db sessionId id now = Ok (db', cart) -> one_row_per_pair db')
  /\ (forall cartId productId q id now db' item,
         addToCart db cartId productId q id now = Ok (db', item) ->
         one_row_per_pair db'
         /\ (forall r, select_cart_item db cartId productId = Some r ->
                       stored_quantity db' cartId productId = Some (ci_quantity r + q)
                       /\ map pair_of (cart_items db') = map pair_of (cart_items db)
                       /\ List.length (cart_items db') = List.length (cart_items db))
         /\ (select_cart_item db cartId productId = None ->
             stored_quantity db' cartId productId = Some q
             /\ cart_items db'
                = (cart_items db ++ [mkCartItemRow id cartId productId q now now])%list))
  /\ (forall itemId q now, one_row_per_pair (fst (updateCartItem db itemId q now)))
  /\ (forall itemId, one_row_per_pair (fst (removeFromCart db itemId)))
  /\ (forall cartId, one_row_per_pair (fst (clearCart db cartId))).
Proof.
  intros Hinv. split; [|split; [|split; [|split]]].
  - intros sessionId id now db' cart Hcreate. unfold one_row_per_pair.
    now rewrite (createCart_keeps_pairs _ _ _ _ _ _ Hcreate).
  - intros cartId productId q id now db' item Hadd. split; [|split].
    + eapply addToCart_keeps_pairs; eassumption.
    + intros r Hsel.
      destruct (addToCart_existing db cartId productId q id now r Hsel)
        as [db1 [item1 [Hadd1 [Hpairs Hstored]]]].
      rewrite Hadd in Hadd1. injection Hadd1 as Hdb _. subst db1.
      split; [exact Hstored|]. split; [exact Hpairs|].
      rewrite <- (length_map pair_of (cart_items db')), Hpairs. apply length_map.
    + intros Hsel. unfold addToCart in Hadd. rewrite Hsel in Hadd.
      unfold insert_cart_item in Hadd. simpl in Hadd.
      destruct (cart_item_id_used db id); [discriminate|].
      destruct (foreign_keys db && _); [discriminate|].
      injection Hadd as Hdb _. subst db'. split; [|reflexivity].
      unfold stored_quantity, select_cart_item in *. simpl.
      rewrite (find_app_none _ _ _ Hsel); [reflexivity|].
      simpl. now rewrite !String.eqb_refl.
  - intros itemId q now. unfold one_row_per_pair.
    now rewrite updateCartItem_keeps_pairs.
  - intros itemId. apply NoDup_map_filter. exact Hinv.
  - intros cartId. apply NoDup_map_filter. exact Hinv.
Qed.

(** The routes inherit the invariant, so every database reached from an
    empty one by serving requests satisfies it. *)
Lemma serve_keeps_one_row_per_pair (db : Db num) (r : CartRequest) :
  one_row_per_pair db -> one_row_per_pair (fst (serve db r)).
Proof.
  intros Hinv. destruct r as [b id now | sessionId id now | cartId b id now
                              | itemId b now | itemId | cartId]; simpl.
  - unfold post_cart. destruct (createCartSchema b); [|exact Hinv].
    destruct (getCartWithItems db _); [exact Hinv|].
    destruct (createCart db _ id now) as [[db' cart]|e] eqn:Hcreate; [|exact Hinv].
    simpl. unfold one_row_per_pair.
    now rewrite (createCart_keeps_pairs _ _ _ _ _ _ Hcreate).
  - unfold get_cart. destruct (getCartWithItems db _); [exact Hinv|].
    destruct (createCart db _ id now) as [[db' cart]|e] eqn:Hcreate; [|exact Hinv].
    simpl. unfold one_row_per_pair.
    now rewrite (createCart_keeps_pairs _ _ _ _ _ _ Hcreate).
  - unfold post_cart_items. destruct (addToCartSchema b); [|exact Hinv].
    destruct (addToCart db cartId _ _ id now) as [[db' item]|e] eqn:Hadd; [|exact Hinv].
    simpl. eapply addToCart_keeps_pairs; eassumption.
  - unfold put_cart_item. destruct (updateCartItemSchema b); [|exact Hinv].
    pose proof (updateCartItem_keeps_pairs db itemId (ub_quantity b) now) as Hpairs.
    unfold one_row_per_pair.
    destruct (updateCartItem db itemId (ub_quantity b) now) as [db' [item|]];
      simpl in *; now rewrite Hpairs.
  - apply NoDup_map_filter. exact Hinv.
  - apply NoDup_map_filter. exact Hinv.
Qed.

Lemma serve_all_keeps_one_row_per_pair (rs : list CartRequest) :
  forall db : Db num, one_row_per_pair db -> one_row_per_pair (serve_all db rs).
Proof.
  induction rs as [|r rs IH]; intros db Hinv; [exact Hinv|].
  change (serve_all db (r :: rs)) with (serve_all (fst (serve db r)) rs).
  apply IH. now apply serve_keeps_one_row_per_pair.
Qed.

(** The add-item route has no not-found answer: whatever the product
    identifier, it answers 201, 400 (validation) or 500. *)
Lemma post_cart_items_statuses (db : Db num) (cartId : string) (b : AddToCartBody)
  (id now : string) :
  In (status (snd (post_cart_items db cartId b id now))) [201; 400; 500].
Proof.
  unfold post_cart_items. destruct (addToCartSchema b); simpl; [|tauto].
  destruct (addToCart db cartId _ _ id now) as [[db' item]|e]; simpl; tauto.
Qed.

End PairFacts.

(** ** Clearing a cart and updating an item *)

Section FrameFacts.
Context {num : Type} {JN : JsNum num}.

Lemma filter_filter_neg {A : Type} (f : A -> bool) (l : list A) :
  filter f (filter (fun x => negb (f x)) l) = [].
Proof.
  induction l as [|a l IH]; simpl; [reflexivity|].
  destruct (f a) eqn:Hfa; simpl; [exact IH|]. now rewrite Hfa.
Qed.

Lemma filter_idem {A : Type} (f : A -> bool) (l : list A) :
  filter f (filter f l) = filter f l.
Proof.
  induction l as [|a l IH]; simpl; [reflexivity|].
  destruct (f a) eqn:Hfa; simpl; [|exact IH]. rewrite Hfa. now f_equal.
Qed.

(** C9.  Clearing a cart answers 200 with the success marker for every cart
    identifier, whether or not a cart row has it; afterwards no cart item has
    that cart identifier, the items of the other carts are the ones stored
    before, in the same order, and the other tables are untouched. *)
Theorem delete_cart_always_succeeds (db : Db num) (cartId : string) :
  snd (delete_cart db cartId) = mkResponse 200 (JSuccess success_true)
  /\ filter (fun r => (ci_cart_id r =? cartId)%string)
            (cart_items (fst (delete_cart db cartId))) = []
  /\ filter (fun r => negb (ci_cart_id r =? cartId)%string)
            (cart_items (fst (delete_cart db cartId)))
     = filter (fun r => negb (ci_cart_id r =? cartId)%string) (cart_items db)
  /\ carts (fst (delete_cart db cartId)) = carts db
  /\ products (fst (delete_cart db cartId)) = products db
  /\ product_images (fst (delete_cart db cartId)) = product_images db.
Proof.
  unfold delete_cart, clearCart. simpl. repeat split.
  - apply (filter_filter_neg (fun r => (ci_cart_id r =? cartId)%string)).
  - apply filter_idem.
Qed.

Lemma set_quantity_update (itemId : string) (q : Z) (now : string) (r : CartItemRow) :
  quantity_update itemId q now r (set_quantity q now itemId r).
Proof.
  unfold quantity_update, set_quantity.
  destruct (String.eqb_spec (ci_id r) itemId) as [Heq | Hneq]; simpl;
    repeat split; auto; intros; congruence.
Qed.

(** C10.  Updating an item's quantity rewrites, row by row, only the quantity
    and update time of the rows that carry the item identifier: identifier,
    cart, product and creation time of every row stay, rows with another
    identifier stay whole, and so do the other tables.  The row returned is
    the stored row with the new quantity and time. *)
Theorem updateCartItem_frame (db : Db num) (itemId : string) (q : Z) (now : string) :
  Forall2 (quantity_update itemId q now)
          (cart_items db) (cart_items (fst (updateCartItem db itemId q now)))
  /\ carts (fst (updateCartItem db itemId q now)) = carts db
  /\ products (fst (updateCartItem db itemId q now)) = products db
  /\ product_images (fst (updateCartItem db itemId q now)) = product_images db
  /\ snd (updateCartItem db itemId q now)
     = option_map
         (fun r => mkCartItemRow (ci_id r) (ci_cart_id r) (ci_product_id r) q
                     (ci_created_at r) now)
         (select_cart_item_by_id db itemId).
Proof.
  unfold updateCartItem. simpl. repeat split.
  - induction (cart_items db) as [|r l IH]; simpl; constructor.
    + apply set_quantity_update.
    + exact IH.
  - unfold select_cart_item_by_id. simpl.
    rewrite find_map_same.
    + destruct (find _ (cart_items db)) as [r|] eqn:Hfind; simpl; [|reflexivity].
      apply find_some in Hfind. destruct Hfind as [_ Hid].
      unfold set_quantity. now rewrite Hid.
    + intros x. unfold set_quantity.
      destruct (ci_id x =? itemId)%string eqn:Hx; simpl; now rewrite Hx.
Qed.

End FrameFacts.

(** ** Range of the stored quantities *)

Section QuantityFacts.
Context {num : Type} {JN : JsNum num}.

Lemma quantity_issues_nil (q : Z) : quantity_issues q = [] -> 1 <= q <= 100.
Proof.
  unfold quantity_issues.
  destruct (Z.ltb_spec q 1); [discriminate|].
  destruct (Z.ltb_spec 100 q); [discriminate|]. lia.
Qed.

Lemma addToCartSchema_nil (b : AddToCartBody) :
  addToCartSchema b = [] -> 1 <= ab_quantity b <= 100.
Proof.
  unfold addToCartSchema. intros Hnil. apply app_eq_nil in Hnil.
  apply quantity_issues_nil. tauto.
Qed.

Lemma quantities_within_weaken (lo hi hi' : Z) (db : Db num) :
  hi <= hi' -> quantities_within lo hi db -> quantities_within lo hi' db.
Proof.
  unfold quantities_within. intros Hle Hq.
  eapply Forall_impl; [|exact Hq]. simpl. intros r Hr. lia.
Qed.

Lemma addToCart_bounds (db db' : Db num) (cartId productId : string) (q : Z)
  (id now : string) (item : AddedItem) (hi : Z) :
  1 <= q <= 100 -> 100 <= hi ->
  quantities_within 1 hi db ->
  addToCart db cartId productId q id now = Ok (db', item) ->
  quantities_within 1 (hi + 100) db'.
Proof.
  unfold quantities_within, addToCart. intros Hq Hhi Hin.
  destruct (select_cart_item db cartId productId) as [r|].
  - intros Heq. injection Heq as Hdb _. subst db'. simpl.
    apply Forall_map. eapply Forall_impl; [|exact Hin]. simpl.
    intros a Ha. unfold increment_quantity.
    destruct (ci_id a =? ci_id r)%string; simpl; lia.
  - unfold insert_cart_item. simpl.
    destruct (cart_item_id_used db id); [discriminate|].
    destruct (foreign_keys db && _); [discriminate|].
    intros Heq. injection Heq as Hdb _. subst db'. simpl.
    apply Forall_app. split.
    + eapply Forall_impl; [|exact Hin]. simpl. intros a Ha. lia.
    + constructor; [simpl; lia | constructor].
Qed.

Lemma updateCartItem_bounds (db : Db num) (itemId : string) (q : Z) (now : string)
  (hi : Z) :
  1 <= q <= 100 -> 100 <= hi ->
  quantities_within 1 hi db ->
  quantities_within 1 hi (fst (updateCartItem db itemId q now)).
Proof.
  unfold quantities_within. simpl. intros Hq Hhi Hin.
  apply Forall_map. eapply Forall_impl; [|exact Hin]. simpl.
  intros a Ha. unfold set_quantity.
  destruct (ci_id a =? itemId)%string; simpl; lia.
Qed.

Lemma filter_bounds (f : CartItemRow -> bool) (db : Db num) (lo hi : Z) :
  quantities_within lo hi db ->
  quantities_within lo hi (with_cart_items db (filter f (cart_items db))).
Proof.
  unfold quantities_within. simpl. intros Hin.
  apply Forall_forall. intros r Hr. apply filter_In in Hr.
  rewrite Forall_forall in Hin. apply Hin. tauto.
Qed.

Lemma createCart_bounds (db db' : Db num) (sessionId id now : string)
  (cart : CartView num) (lo hi : Z) :
  quantities_within lo hi db ->
  createCart db sessionId id now = Ok (db', cart) ->
  quantities_within lo hi db'.
Proof.
  unfold quantities_within. intros Hin Hcreate.
  now rewrite (createCart_keeps_pairs _ _ _ _ _ _ Hcreate).
Qed.

Lemma serve_bounds (db : Db num) (r : CartRequest) (hi : Z) :
  100 <= hi ->
  quantities_within 1 hi db ->
  quantities_within 1 (hi + (if is_add r then 100 else 0)) (fst (serve db r)).
Proof.
  intros Hhi Hin. destruct r as [b id now | sessionId id now | cartId b id now
                                 | itemId b now | itemId | cartId]; simpl;
    try rewrite Z.add_0_r.
  - unfold post_cart. destruct (createCartSchema b); [|exact Hin].
    destruct (getCartWithItems db _); [exact Hin|].
    destruct (createCart db _ id now) as [[db' cart]|e] eqn:Hcreate; [|exact Hin].
    simpl. eapply createCart_bounds; eassumption.
  - unfold get_cart. destruct (getCartWithItems db _); [exact Hin|].
    destruct (createCart db _ id now) as [[db' cart]|e] eqn:Hcreate; [|exact Hin].
    simpl. eapply createCart_bounds; eassumption.
  - unfold post_cart_items.
    destruct (addToCartSchema b) eqn:Hschema;
      [|simpl; apply quantities_within_weaken with (hi := hi); [lia | exact Hin]].
    destruct (addToCart db cartId _ _ id now) as [[db' item]|e] eqn:Hadd; simpl.
    + eapply addToCart_bounds; [apply addToCartSchema_nil| | |]; eassumption.
    + apply quantities_within_weaken with (hi := hi); [lia | exact Hin].
  - unfold put_cart_item.
    destruct (updateCartItemSchema b) eqn:Hschema; [|exact Hin].
    pose proof (updateCartItem_bounds db itemId (ub_quantity b) now hi
                  (quantity_issues_nil _ Hschema) Hhi Hin) as Hupd.
    destruct (updateCartItem db itemId (ub_quantity b) now) as [db' [item|]];
      exact Hupd.
  - apply filter_bounds. exact Hin.
  - apply filter_bounds. exact Hin.
Qed.

Lemma count_adds_cons (r : CartRequest) (rs : list CartRequest) :
  count_adds (r :: rs) = (if is_add r then 1 else 0) + count_adds rs.
Proof.
  unfold count_adds. simpl. destruct (is_add r); simpl List.length; lia.
Qed.

(** C3, as amended.  Whatever cart requests are served one after the other,
    the stored quantities stay integers of at least 1; a request that fails
    validation changes nothing, an update sets a quantity within 1..100, and
    every add-item request raises the upper bound by at most 100.  So from
    quantities within 1..hi (hi at least 100) the quantities end within
    1..hi + 100 * (number of add-item requests). *)
Theorem stored_quantities_bounded (rs : list CartRequest) :
  forall (db : Db num) (hi : Z),
    100 <= hi ->
    quantities_within 1 hi db ->
    quantities_within 1 (hi + 100 * count_adds rs) (serve_all db rs).
Proof.
  induction rs as [|r rs IH]; intros db hi Hhi Hin.
  - simpl. unfold count_adds. simpl. now rewrite Z.add_0_r.
  - change (serve_all db (r :: rs)) with (serve_all (fst (serve db r)) rs).
    rewrite count_adds_cons.
    pose proof (serve_bounds db r hi Hhi Hin) as Hstep.
    assert (Hhi' : 100 <= hi + (if is_add r then 100 else 0))
      by (destruct (is_add r); lia).
    specialize (IH _ _ Hhi' Hstep).
    replace (hi + 100 * ((if is_add r then 1 else 0) + count_adds rs))
      with (hi + (if is_add r then 100 else 0) + 100 * count_adds rs)
      by (destruct (is_add r); lia).
    exact IH.
Qed.

End QuantityFacts.

(** ** Reading a cart with its items *)

Section ReadFacts.
Context {num : Type} {JN : JsNum num}.

Lemma insert_row_in (r x : @JoinRow num) (l : list JoinRow) :
  In x (insert_row r l) <-> x = r \/ In x l.
Proof.
  induction l as [|r' l IH]; simpl.
  - intuition.
  - destruct (row_before r r'); simpl; [intuition|].
    rewrite IH. intuition.
Qed.

Lemma order_rows_in (x : @JoinRow num) (l : list JoinRow) :
  In x (order_rows l) <-> In x l.
Proof.
  induction l as [|r l IH]; simpl; [tauto|].
  rewrite insert_row_in, IH. intuition.
Qed.

Lemma order_rows_nil (l : list (@JoinRow num)) : order_rows l = [] -> l = [].
Proof.
  destruct l as [|r l]; [reflexivity|]. intros Hnil. exfalso.
  assert (Hin : In r (order_rows (r :: l))) by (apply order_rows_in; simpl; auto).
  rewrite Hnil in Hin. exact Hin.
Qed.

Lemma join_products_sound (db : Db num) (c : CartRow) (ci : CartItemRow) (r : JoinRow) :
  In ci (cart_items db) -> In r (join_products db c ci) -> row_sound db r.
Proof.
  intros Hci. unfold join_products.
  destruct (filter _ (products db)) as [|p ps] eqn:Hfilter.
  - intros [Hr | []]. subst r. unfold row_sound. simpl. split; [exact Hci|].
    intros p Hp Hid.
    assert (Hin : In p (filter (fun p => (ci_product_id ci =? p_id p)%string) (products db))).
    { apply filter_In. split; [exact Hp|]. rewrite Hid. apply String.eqb_refl. }
    rewrite Hfilter in Hin. exact Hin.
  - rewrite <- Hfilter. intros Hin. apply in_map_iff in Hin.
    destruct Hin as [p' [Hr Hp']]. subst r. apply filter_In in Hp'.
    destruct Hp' as [Hp' Hid]. apply String.eqb_eq in Hid.
    unfold row_sound. simpl. auto.
Qed.

Lemma join_items_sound (db : Db num) (c : CartRow) (r : JoinRow) :
  In r (join_items db c) -> row_sound db r.
Proof.
  unfold join_items.
  destruct (filter _ (cart_items db)) as [|ci its] eqn:Hfilter.
  - intros [Hr | []]. subst r. exact I.
  - rewrite <- Hfilter. intros Hin. apply in_flat_map in Hin.
    destruct Hin as [ci' [Hci' Hr]]. apply filter_In in Hci'.
    eapply join_products_sound; [|exact Hr]. tauto.
Qed.

Lemma join_products_some (db : Db num) (c : CartRow) (ci : CartItemRow) :
  join_products db c ci <> [].
Proof.
  unfold join_products. destruct (filter _ (products db)); simpl; discriminate.
Qed.

Lemma join_items_some (db : Db num) (c : CartRow) : join_items db c <> [].
Proof.
  unfold join_items. destruct (filter _ (cart_items db)) as [|ci its]; [discriminate|].
  simpl. pose proof (join_products_some db c ci) as Hsome.
  destruct (join_products db c ci); [congruence | discriminate].
Qed.

Lemma join_rows_sound (db : Db num) (sessionId : string) (r : JoinRow) :
  In r (join_rows db sessionId) -> row_sound db r.
Proof.
  unfold join_rows. intros Hin. apply in_flat_map in Hin.
  destruct Hin as [c [_ Hr]]. eapply join_items_sound. exact Hr.
Qed.

Lemma join_rows_some (db : Db num) (sessionId : string) (c : CartRow) :
  In c (carts db) -> c_session_id c = sessionId -> join_rows db sessionId <> [].
Proof.
  intros Hc Hsession Hnil. unfold join_rows in Hnil.
  pose proof (join_items_some db c) as Hsome.
  destruct (join_items db c) as [|r l] eqn:Hjoin; [congruence|].
  assert (Hin : In r (flat_map (join_items db)
                        (filter (fun c => (c_session_id c =? sessionId)%string) (carts db)))).
  { apply in_flat_map. exists c. split.
    - apply filter_In. split; [exact Hc|]. now apply String.eqb_eq.
    - rewrite Hjoin. simpl. auto. }
  rewrite Hnil in Hin. exact Hin.
Qed.

Lemma item_of_row_sound (db : Db num) (r : JoinRow) (it : CartItemView num) :
  row_sound db r -> item_of_row db r = Some it -> reflects_store db it.
Proof.
  unfold row_sound, item_of_row, reflects_store.
  destruct (jr_item r) as [ci|]; [|discriminate].
  intros [Hci Hprod]. destruct (truthy_string _); [|discriminate].
  intros Heq. injection Heq as Hit. subst it. simpl.
  exists ci. repeat split; [exact Hci|].
  destruct (jr_product r) as [p|]; simpl.
  - left. exists p. tauto.
  - right. auto.
Qed.

Lemma totalItems_sum (items : list (CartItemView num)) :
  totalItems items = fold_right Z.add 0 (map iv_quantity items).
Proof.
  unfold totalItems.
  assert (Hgen : forall a, fold_left (fun sum it => sum + iv_quantity it) items a
                           = a + fold_right Z.add 0 (map iv_quantity items)).
  { induction items as [|it items IH]; intros a; simpl.
    - lia.
    - rewrite IH. lia. }
  apply Hgen.
Qed.

Lemma totalPrice_sum (items : list (CartItemView num)) :
  totalPrice items = fold_left jadd (map line_total items) jzero.
Proof.
  unfold totalPrice. generalize (@jzero num JN).
  induction items as [|it items IH]; intros a; simpl; [reflexivity|].
  apply IH.
Qed.

(** C4.  For a session that has a stored cart the read-with-items operation
    returns a cart whose totalItems is the sum of the returned items'
    quantities and whose totalPrice is the sum, taken in the order returned,
    of quantity times price over the returned items, where every returned
    item carries the quantity of a stored cart-item row and the price its
    product has in the store at the time of the read (an item whose product
    is not stored has no price and counts as zero).  No price is remembered
    from the time the item was added. *)
Theorem getCartWithItems_totals (db : Db num) (sessionId : string) :
  (exists c, In c (carts db) /\ c_session_id c = sessionId) ->
  exists cart,
    getCartWithItems db sessionId = Some cart
    /\ cv_totalItems cart = fold_right Z.add 0 (map iv_quantity (cv_items cart))
    /\ cv_totalPrice cart = fold_left jadd (map line_total (cv_items cart)) jzero
    /\ Forall (reflects_store db) (cv_items cart).
Proof.
  intros [c [Hc Hsession]]. unfold getCartWithItems.
  destruct (select_cart_rows db sessionId) as [|base rows] eqn:Hrows.
  - exfalso. apply order_rows_nil in Hrows.
    exact (join_rows_some db sessionId c Hc Hsession Hrows).
  - eexists. split; [reflexivity|]. cbn [cv_totalItems cv_totalPrice cv_items].
    split; [apply totalItems_sum|]. split; [apply totalPrice_sum|].
    apply Forall_forall. intros it Hit.
    apply filter_map_in in Hit. destruct Hit as [r [Hr Hitem]].
    eapply item_of_row_sound; [|exact Hitem].
    apply (join_rows_sound db sessionId). apply order_rows_in.
    fold (select_cart_rows db sessionId). rewrite Hrows. exact Hr.
Qed.

End ReadFacts.

(** ** Updating a product *)

Section ProductFacts.
Context {num : Type} {JN : JsNum num}.

Lemma NoDup_map_same_key {A B : Type} (f : A -> B) (l : list A) (a b : A) :
  NoDup (map f l) -> In a l -> In b l -> f a = f b -> a = b.
Proof.
  induction l as [|x l IH]; simpl; intros Hnd Ha Hb Hf; [contradiction|].
  inversion Hnd as [|y ys Hnotin Hrest]; subst.
  destruct Ha as [Ha | Ha], Hb as [Hb | Hb]; subst.
  - reflexivity.
  - exfalso. apply Hnotin. rewrite Hf. now apply in_map.
  - exfalso. apply Hnotin. rewrite <- Hf. now apply in_map.
  - now apply IH.
Qed.

Lemma replace_product_id (id name description : string) (price : num) (sku : string)
  (p : Product num) :
  p_id (replace_product id name description price sku p) = p_id p.
Proof.
  unfold replace_product. destruct (p_id p =? id)%string; reflexivity.
Qed.

Lemma getProductById_some (db : Db num) (id : string) (p : Product num) :
  getProductById db id = Some p -> In p (products db) /\ p_id p = id.
Proof.
  unfold getProductById. intros Hfind. apply find_some in Hfind.
  destruct Hfind as [Hin Hid]. apply String.eqb_eq in Hid. auto.
Qed.

(** With unique SKUs no other product has the SKU of [existing], so writing
    that SKU back does not trip the [UNIQUE] constraint. *)
Lemma own_sku_not_taken (db : Db num) (id : string) (existing : Product num) :
  unique_skus db ->
  getProductById db id = Some existing ->
  existsb (fun p => negb (p_id p =? id)%string && (p_sku p =? p_sku existing)%string)
          (products db) = false.
Proof.
  intros Huniq Hget. apply getProductById_some in Hget. destruct Hget as [Hin Hid].
  apply not_true_is_false. intros Hex. apply existsb_exists in Hex.
  destruct Hex as [p [Hp Hcond]]. apply andb_prop in Hcond.
  destruct Hcond as [Hother Hsku]. apply String.eqb_eq in Hsku.
  assert (p = existing) by (eapply NoDup_map_same_key; eassumption).
  subst p. rewrite Hid, String.eqb_refl in Hother. discriminate.
Qed.

Lemma getProductById_replaced (db : Db num) (id name description : string)
  (price : num) (sku : string) (existing : Product num) :
  getProductById db id = Some existing ->
  getProductById
    (with_products db (map (replace_product id name description price sku) (products db)))
    id
  = Some (mkProduct id name description price sku (p_createdAt existing)).
Proof.
  intros Hget. pose proof (getProductById_some _ _ _ Hget) as [_ Hid].
  unfold getProductById in *. simpl.
  rewrite find_map_same by (intros x; now rewrite replace_product_id).
  rewrite Hget. simpl. unfold replace_product.
  rewrite Hid, String.eqb_refl. reflexivity.
Qed.

(** After a successful update every product with the identifier carries the
    new price, which is the one a later cart read joins in. *)
Lemma updateProduct_sets_price (db db' : Db num) (id name description : string)
  (price : num) (sku : string) (p : Product num) :
  updateProduct db id name description price sku = Ok db' ->
  In p (products db') -> p_id p = id -> p_price p = price.
Proof.
  unfold updateProduct. destruct (product_exists db id && _); [discriminate|].
  intros Heq. injection Heq as Hdb. subst db'. simpl.
  intros Hin Hid. apply in_map_iff in Hin. destruct Hin as [p0 [Hp Hp0]].
  subst p. rewrite replace_product_id in Hid. unfold replace_product.
  rewrite Hid, String.eqb_refl. reflexivity.
Qed.

(** C7.  A product update whose SKU is the product's own current SKU is never
    answered with the duplicate-SKU conflict, whatever the other fields are;
    when the fields pass validation (and the SKU column is unique, as the
    schema has it) the update is stored and answered 200 with the product
    carrying the new fields, its identifier and its creation time. *)
Theorem put_product_own_sku (db : Db num) (id : string) (b : ProductInput num)
  (existing : Product num) :
  getProductById db id = Some existing ->
  in_sku b = p_sku existing ->
  body (snd (put_product db id b)) <> JError "SKU already exists"
  /\ (updateProductSchema b = [] ->
      unique_skus db ->
      put_product db id b
      = (with_products db
           (map (replace_product id (in_name b) (in_description b) (in_price b) (in_sku b))
                (products db)),
         mkResponse 200
           (JProduct (mkProduct id (in_name b) (in_description b) (in_price b)
                        (in_sku b) (p_createdAt existing))))).
Proof.
  intros Hget Hsku. split.
  - unfold put_product. destruct (updateProductSchema b); [|simpl; discriminate].
    rewrite Hget, Hsku, String.eqb_refl. simpl.
    destruct (updateProduct db id _ _ _ _) as [db'|e]; simpl.
    + destruct (getProductById db' id); discriminate.
    + discriminate.
  - intros Hvalid Huniq. unfold put_product.
    rewrite Hvalid, Hget, Hsku, String.eqb_refl. simpl.
    unfold updateProduct. rewrite (own_sku_not_taken db id existing Huniq Hget).
    rewrite andb_false_r.
    now rewrite (getProductById_replaced db id _ _ _ _ existing Hget).
Qed.

End ProductFacts.

(** ** Which cart and which items a read returns *)

Section OrderFacts.

Lemma ascii_compare_refl (a : ascii) : Ascii.compare a a = Eq.
Proof.
  unfold Ascii.compare. apply N.compare_refl.
Qed.

Lemma string_compare_refl (s : string) : String.compare s s = Eq.
Proof.
  induction s as [|a s IH]; simpl; [reflexivity|].
  now rewrite ascii_compare_refl.
Qed.

Lemma ascii_compare_trans (a b c : ascii) (o : comparison) :
  Ascii.compare a b = o -> Ascii.compare b c = o -> Ascii.compare a c = o.
Proof.
  unfold Ascii.compare. destruct o; intros Hab Hbc.
  - apply N.compare_eq_iff in Hab. apply N.compare_eq_iff in Hbc.
    apply N.compare_eq_iff. congruence.
  - apply N.compare_lt_iff in Hab. apply N.compare_lt_iff in Hbc.
    apply N.compare_lt_iff. eapply N.lt_trans; eassumption.
  - apply N.compare_gt_iff in Hab. apply N.compare_gt_iff in Hbc.
    apply N.compare_gt_iff. eapply N.lt_trans; eassumption.
Qed.

(** Lexicographic comparison is transitive, so [<=?] orders the ISO
    timestamps. *)
Lemma string_leb_trans (s1 : string) :
  forall s2 s3, (s1 <=? s2)%string = true -> (s2 <=? s3)%string = true ->
                (s1 <=? s3)%string = true.
Proof.
  unfold String.leb.
  induction s1 as [|a s1 IH]; intros [|b s2] [|c s3]; simpl; try congruence.
  destruct (Ascii.compare a b) eqn:Hab; try congruence;
    destruct (Ascii.compare b c) eqn:Hbc; try congruence.
  - rewrite (ascii_compare_trans a b c Eq Hab Hbc). apply IH.
  - apply Ascii.compare_eq_iff in Hab. subst b. now rewrite Hbc.
  - apply Ascii.compare_eq_iff in Hbc. subst c. now rewrite Hab.
  - now rewrite (ascii_compare_trans a b c Lt Hab Hbc).
Qed.

End OrderFacts.

Section WhichCart.
Context {num : Type} {JN : JsNum num}.

Lemma row_before_newer (r1 r2 : @JoinRow num) :
  row_before r1 r2 = true -> newer_or_same r1 r2.
Proof.
  unfold row_before, newer_or_same, String.leb.
  rewrite (String.compare_antisym (c_created_at (jr_cart r2))).
  destruct (String.compare (c_created_at (jr_cart r1)) (c_created_at (jr_cart r2)));
    simpl; congruence.
Qed.

Lemma row_after_newer (r1 r2 : @JoinRow num) :
  row_before r1 r2 = false -> newer_or_same r2 r1.
Proof.
  unfold row_before, newer_or_same, String.leb.
  destruct (String.compare (c_created_at (jr_cart r1)) (c_created_at (jr_cart r2)));
    simpl; congruence.
Qed.

Lemma order_rows_head_newest (l : list (@JoinRow num)) :
  match order_rows l with
  | [] => True
  | base :: _ => Forall (newer_or_same base) (order_rows l)
  end.
Proof.
  induction l as [|r l IH]; simpl; [exact I|].
  destruct (order_rows l) as [|h s] eqn:Hs; simpl.
  - constructor; [|constructor]. unfold newer_or_same, String.leb.
    now rewrite string_compare_refl.
  - destruct (row_before r h) eqn:Hrh.
    + constructor.
      * unfold newer_or_same, String.leb. now rewrite string_compare_refl.
      * apply row_before_newer in Hrh.
        eapply Forall_impl; [|exact IH]. intros x Hx. unfold newer_or_same in *.
        eapply string_leb_trans; eassumption.
    + apply Forall_forall. intros x Hx.
      rewrite Forall_forall in IH.
      destruct Hx as [Hx | Hx]; [apply IH; now left|].
      apply insert_row_in in Hx. destruct Hx as [Hx | Hx].
      * subst x. now apply row_after_newer.
      * apply IH. now right.
Qed.

Lemma join_products_row (db : Db num) (c : CartRow) (ci : CartItemRow) (r : JoinRow) :
  In r (join_products db c ci) -> jr_cart r = c /\ jr_item r = Some ci.
Proof.
  unfold join_products. destruct (filter _ (products db)) as [|p ps].
  - intros [Hr | []]. now subst r.
  - intros Hin. apply in_map_iff in Hin. destruct Hin as [p' [Hr _]]. now subst r.
Qed.

Lemma join_items_cart (db : Db num) (c : CartRow) (r : JoinRow) :
  In r (join_items db c) -> jr_cart r = c.
Proof.
  unfold join_items. destruct (filter _ (cart_items db)) as [|ci its].
  - intros [Hr | []]. now subst r.
  - intros Hin. apply in_flat_map in Hin. destruct Hin as [ci' [_ Hr]].
    now apply join_products_row in Hr.
Qed.

Lemma join_rows_each_cart (db : Db num) (sessionId : string) (c : CartRow) :
  In c (carts db) -> c_session_id c = sessionId ->
  exists r, In r (join_rows db sessionId) /\ jr_cart r = c.
Proof.
  intros Hc Hsession. pose proof (join_items_some db c) as Hsome.
  destruct (join_items db c) as [|r l] eqn:Hjoin; [congruence|].
  exists r. split.
  - unfold join_rows. apply in_flat_map. exists c. split.
    + apply filter_In. split; [exact Hc|]. now apply String.eqb_eq.
    + rewrite Hjoin. now left.
  - apply (join_items_cart db c). rewrite Hjoin. now left.
Qed.

Lemma join_rows_each_item (db : Db num) (sessionId : string) (c : CartRow)
  (ci : CartItemRow) :
  In c (carts db) -> c_session_id c = sessionId ->
  In ci (cart_items db) -> ci_cart_id ci = c_id c ->
  exists r, In r (join_rows db sessionId) /\ jr_cart r = c /\ jr_item r = Some ci.
Proof.
  intros Hc Hsession Hci Hcart.
  pose proof (join_products_some db c ci) as Hsome.
  destruct (join_products db c ci) as [|r l] eqn:Hjoin; [congruence|].
  assert (Hr : In r (join_products db c ci)) by (rewrite Hjoin; now left).
  exists r. split; [|now apply join_products_row in Hr].
  unfold join_rows. apply in_flat_map. exists c. split.
  - apply filter_In. split; [exact Hc|]. now apply String.eqb_eq.
  - unfold join_items.
    assert (Hin : In ci (filter (fun ci => (c_id c =? ci_cart_id ci)%string) (cart_items db))).
    { apply filter_In. split; [exact Hci|]. rewrite Hcart. apply String.eqb_refl. }
    destruct (filter _ (cart_items db)) as [|ci0 its]; [contradiction|].
    apply in_flat_map. exists ci. auto.
Qed.

Lemma filter_map_intro {A B : Type} (f : A -> option B) (l : list A) (a : A) (b : B) :
  In a l -> f a = Some b -> In b (filter_map f l).
Proof.
  induction l as [|x l IH]; simpl; [contradiction|].
  intros [Hx | Hin] Hfa.
  - subst x. rewrite Hfa. now left.
  - destruct (f x); [right|]; now apply IH.
Qed.

(** The cart a read returns is a cart of the session that no other cart of
    the session is newer than. *)
Lemma getCartWithItems_newest (db : Db num) (sessionId : string) (cart : CartView num) :
  getCartWithItems db sessionId = Some cart ->
  (exists c, In c (carts db) /\ c_session_id c = sessionId
             /\ cv_id cart = c_id c /\ cv_createdAt cart = c_created_at c)
  /\ forall c, In c (carts db) -> c_session_id c = sessionId ->
               (c_created_at c <=? cv_createdAt cart)%string = true.
Proof.
  unfold getCartWithItems.
  pose proof (order_rows_head_newest (join_rows db sessionId)) as Hnewest.
  fold (select_cart_rows db sessionId) in Hnewest.
  destruct (select_cart_rows db sessionId) as [|base rows] eqn:Hrows; [discriminate|].
  intros Heq. injection Heq as Hcart. subst cart. cbn [cv_id cv_createdAt]. split.
  - assert (Hbase : In base (join_rows db sessionId)).
    { apply order_rows_in. fold (select_cart_rows db sessionId). rewrite Hrows. now left. }
    unfold join_rows in Hbase. apply in_flat_map in Hbase.
    destruct Hbase as [c [Hc Hr]]. apply filter_In in Hc. destruct Hc as [Hc Hs].
    apply String.eqb_eq in Hs. apply join_items_cart in Hr. rewrite Hr.
    exists c. auto.
  - intros c Hc Hsession.
    destruct (join_rows_each_cart db sessionId c Hc Hsession) as [r [Hr Hrc]].
    rewrite Forall_forall in Hnewest.
    assert (Hin : In r (base :: rows)).
    { rewrite <- Hrows. apply order_rows_in. exact Hr. }
    specialize (Hnewest r Hin). unfold newer_or_same in Hnewest. now rewrite Hrc in Hnewest.
Qed.

(** The items a read returns are those of every cart of the session: each
    stored item of any of them is listed, under its own cart identifier. *)
Lemma getCartWithItems_lists_all_carts (db : Db num) (sessionId : string)
  (c : CartRow) (ci : CartItemRow) :
  In c (carts db) -> c_session_id c = sessionId ->
  In ci (cart_items db) -> ci_cart_id ci = c_id c -> ci_id ci <> "" ->
  exists cart it,
    getCartWithItems db sessionId = Some cart
    /\ In it (cv_items cart)
    /\ iv_id it = ci_id ci /\ iv_cartId it = c_id c.
Proof.
  intros Hc Hsession Hci Hcart Hid.
  destruct (join_rows_each_item db sessionId c ci Hc Hsession Hci Hcart)
    as [r [Hr [Hrc Hri]]].
  unfold getCartWithItems.
  destruct (select_cart_rows db sessionId) as [|base rows] eqn:Hrows.
  - apply order_rows_nil in Hrows. rewrite Hrows in Hr. contradiction.
  - assert (Hitem : exists it, item_of_row db r = Some it
                               /\ iv_id it = ci_id ci /\ iv_cartId it = c_id c).
    { unfold item_of_row, item_id. rewrite Hri. simpl.
      apply String.eqb_neq in Hid. rewrite Hid. simpl.
      eexists. split; [reflexivity|]. simpl. now rewrite Hrc. }
    destruct Hitem as [it [Hit [Hitid Hitcart]]].
    eexists. exists it. split; [reflexivity|]. cbn [cv_items].
    split; [|auto]. apply (filter_map_intro _ _ r); [|exact Hit].
    rewrite <- Hrows. apply order_rows_in. exact Hr.
Qed.

End WhichCart.

(** ** The model at concrete inputs *)

Section Concrete.
Import Sample.

(** The scenario of the specification: a product at 10.00, two units added
    to the cart, the price raised to 15.00; the cart then reads two items and
    a total of 30.00. *)
Example price_change_scenario :
  exists db1 item db2 product,
    addToCart shop "cart-c" "prod-1" 2 "item-1" "2025-01-02T09:05:00.000Z" = Ok (db1, item)
    /\ put_product db1 "prod-1" (mkProductInput "Notebook" "Ultrabook" 15 "A1")
       = (db2, mkResponse 200 (JProduct product))
    /\ option_map cv_totalItems (getCartWithItems db2 "session-1") = Some 2
    /\ option_map cv_totalPrice (getCartWithItems db2 "session-1") = Some 30.
Proof.
  do 4 eexists. repeat split; vm_compute; reflexivity.
Qed.

(** C1 at a concrete input: 2, 3 and 4 units added to an empty cart. *)
Lemma addToCart_sequence_stores_sum_witness :
  select_cart_item shop "cart-c" "prod-1" = None
  /\ insertable shop "cart-c" "prod-1" "item-1"
  /\ exists db',
       addToCart_all shop "cart-c" "prod-1"
         [(2, "item-1", "t1"); (3, "item-2", "t2"); (4, "item-3", "t3")] = Some db'
       /\ stored_quantity db' "cart-c" "prod-1" = Some 9.
Proof.
  assert (Hsel : select_cart_item shop "cart-c" "prod-1" = None) by reflexivity.
  assert (Hins : insertable shop "cart-c" "prod-1" "item-1").
  { split; [reflexivity | right; split; reflexivity]. }
  split; [exact Hsel|]. split; [exact Hins|].
  exact (addToCart_sequence_stores_sum shop "cart-c" "prod-1" 2 "item-1" "t1"
           [(3, "item-2", "t2"); (4, "item-3", "t3")] Hsel Hins).
Defined.

(** C2 at the failing input: an add-item request naming a product that is
    not stored.  The handler goes straight to [addToCart] without looking the
    product up.  Where foreign keys are not enforced the request is answered
    201 and a cart item naming the product is stored; where they are, the
    insert throws and the answer is the generic 500. *)
Theorem post_cart_items_unknown_product :
  product_exists no_products "ghost" = false
  /\ post_cart_items no_products "cart-c" (mkAddToCartBody "ghost" 1)
       "item-1" "2025-01-02T09:05:00.000Z"
     = (with_cart_items no_products
          [mkCartItemRow "item-1" "cart-c" "ghost" 1
             "2025-01-02T09:05:00.000Z" "2025-01-02T09:05:00.000Z"],
        mkResponse 201
          (JItem (NewItem (mkCartItemRow "item-1" "cart-c" "ghost" 1
                             "2025-01-02T09:05:00.000Z" "2025-01-02T09:05:00.000Z"))))
  /\ product_exists shop "ghost" = false
  /\ post_cart_items shop "cart-c" (mkAddToCartBody "ghost" 1)
       "item-1" "2025-01-02T09:05:00.000Z"
     = (shop, mkResponse 500 (JError "Erro interno do servidor")).
Proof.
  repeat split; reflexivity.
Qed.

(** C3 as stated fails: both requests pass validation, the quantities start
    within 1..100, and the pair ends with 120 units. *)
Lemma repeated_adds_exceed_100 :
  quantities_within 1 100 shop
  /\ forallb passes_validation two_adds = true
  /\ stored_quantity (serve_all shop two_adds) "cart-c" "prod-1" = Some 120
  /\ ~ quantities_within 1 100 (serve_all shop two_adds).
Proof.
  split; [constructor|]. split; [reflexivity|]. split; [reflexivity|].
  intros Hin. inversion Hin as [|r l Hr Hl]; subst. simpl in Hr. lia.
Qed.

(** C3 as amended, at a concrete input. *)
Lemma stored_quantities_bounded_witness :
  100 <= 100
  /\ quantities_within 1 100 shop
  /\ quantities_within 1 300 (serve_all shop two_adds).
Proof.
  assert (Hhi : 100 <= 100) by lia.
  assert (Hin : quantities_within 1 100 shop) by constructor.
  split; [exact Hhi|]. split; [exact Hin|].
  exact (stored_quantities_bounded two_adds shop 100 Hhi Hin).
Defined.

(** C4 at a concrete input. *)
Lemma getCartWithItems_totals_witness :
  (exists c, In c (carts shop_with_item) /\ c_session_id c = "session-1")
  /\ exists cart,
       getCartWithItems shop_with_item "session-1" = Some cart
       /\ cv_totalItems cart = fold_right Z.add 0 (map iv_quantity (cv_items cart))
       /\ cv_totalPrice cart = fold_left jadd (map line_total (cv_items cart)) jzero
       /\ Forall (reflects_store shop_with_item) (cv_items cart).
Proof.
  assert (Hcart : exists c, In c (carts shop_with_item) /\ c_session_id c = "session-1").
  { exists cart_c. split; [left; reflexivity | reflexivity]. }
  split; [exact Hcart|].
  exact (getCartWithItems_totals shop_with_item "session-1" Hcart).
Defined.

(** C5 at a concrete input: three more notebooks go into a cart that holds
    two. *)
Lemma cart_service_keeps_one_row_per_pair_witness :
  one_row_per_pair shop_with_item
  /\ exists db' item,
       addToCart shop_with_item "cart-c" "prod-1" 3 "item-2" "2025-01-02T09:09:00.000Z"
       = Ok (db', item)
       /\ one_row_per_pair db'
       /\ stored_quantity db' "cart-c" "prod-1" = Some 5
       /\ List.length (cart_items db') = 1%nat
       /\ one_row_per_pair (fst (clearCart shop_with_item "cart-c")).
Proof.
  assert (Hinv : one_row_per_pair shop_with_item).
  { unfold one_row_per_pair. simpl. constructor; [simpl; tauto | constructor]. }
  split; [exact Hinv|].
  destruct (cart_service_keeps_one_row_per_pair shop_with_item Hinv)
    as [_ [Hadd [_ [_ Hclear]]]].
  eexists. eexists. split; [reflexivity|].
  destruct (Hadd "cart-c" "prod-1" 3 "item-2" "2025-01-02T09:09:00.000Z" _ _ eq_refl)
    as [Hone [Hpresent _]].
  destruct (Hpresent _ eq_refl) as [Hstored [_ Hlen]].
  split; [exact Hone|]. split; [exact Hstored|]. split; [exact Hlen|]. apply Hclear.
Defined.

(** The read at a session with two carts: the session owns an older cart
    holding an item and a newer, empty cart.  The cart read is the newer one, as
    [findCartBySessionId] selects it, yet it lists the item of the older
    cart and counts it in the totals. *)
Theorem getCartWithItems_mixes_carts :
  findCartBySessionId two_carts "session-2" = Some cart_new
  /\ select_cart_item_by_id two_carts "item-9"
     = Some (mkCartItemRow "item-9" "cart-old" "prod-1" 3
               "2025-01-01T08:30:00.000Z" "2025-01-01T08:30:00.000Z")
  /\ option_map cv_id (getCartWithItems two_carts "session-2") = Some "cart-new"
  /\ option_map (fun cart => map iv_id (cv_items cart))
                (getCartWithItems two_carts "session-2") = Some ["item-9"]
  /\ option_map (fun cart => map iv_cartId (cv_items cart))
                (getCartWithItems two_carts "session-2") = Some ["cart-old"]
  /\ option_map cv_totalItems (getCartWithItems two_carts "session-2") = Some 3.
Proof.
  repeat split; reflexivity.
Qed.

(** C7 at a concrete input: name, description and price change, the SKU
    stays. *)
Lemma put_product_own_sku_witness :
  getProductById shop "prod-1" = Some notebook
  /\ in_sku (mkProductInput "Laptop" "Thin" 15 "A1") = p_sku notebook
  /\ updateProductSchema (mkProductInput "Laptop" "Thin" 15 "A1") = []
  /\ unique_skus shop
  /\ snd (put_product shop "prod-1" (mkProductInput "Laptop" "Thin" 15 "A1"))
     = mkResponse 200
         (JProduct (mkProduct "prod-1" "Laptop" "Thin" 15 "A1" "2025-01-01T10:00:00.000Z")).
Proof.
  assert (Hget : getProductById shop "prod-1" = Some notebook) by reflexivity.
  assert (Hsku : in_sku (mkProductInput "Laptop" "Thin" 15 "A1") = p_sku notebook)
    by reflexivity.
  assert (Hvalid : updateProductSchema (mkProductInput "Laptop" "Thin" 15 "A1") = [])
    by reflexivity.
  assert (Huniq : unique_skus shop).
  { unfold unique_skus. simpl. constructor.
    - simpl. intros [Heq | []]. discriminate.
    - constructor; [simpl; tauto | constructor]. }
  split; [exact Hget|]. split; [exact Hsku|]. split; [exact Hvalid|].
  split; [exact Huniq|].
  destruct (put_product_own_sku shop "prod-1" (mkProductInput "Laptop" "Thin" 15 "A1")
              notebook Hget Hsku) as [_ Hstored].
  rewrite (Hstored Hvalid Huniq). reflexivity.
Defined.

(** C8 at the failing input: a multipart request for a stored product whose
    only [images] entry is a text field.  The entry list is not empty, the
    loop skips the entry, and the answer is 201 with an empty list; no image
    row is stored. *)
Theorem post_product_images_text_field_only :
  getProductById (with_products empty [notebook]) "prod-1" = Some notebook
  /\ post_product_images http_url (with_products empty [notebook]) no_disk "prod-1"
       text_only_upload "2025-01-05T10:00:00.000Z" "image-x" draws
     = (with_products empty [notebook],
        mkDisk ["uploads/products/prod-1"] [],
        mkResponse 201 (JImages [])).
Proof.
  split; reflexivity.
Qed.

(** An empty form is what the guard does reject. *)
Example post_product_images_no_entries :
  post_product_images http_url (with_products empty [notebook]) no_disk "prod-1"
    (mkImageRequest "multipart/form-data; boundary=x" (FormPayload []))
    "2025-01-05T10:00:00.000Z" "image-x" draws
  = (with_products empty [notebook], no_disk,
     mkResponse 400 (JError no_files_provided)).
Proof.
  reflexivity.
Qed.

End Concrete.

(** * Further results *)

(** ** Carts and sessions *)

Section SessionFacts.
Context {num : Type} {JN : JsNum num}.

Lemma filter_nil {A : Type} (f : A -> bool) (l : list A) :
  (forall x, In x l -> f x = false) -> filter f l = [].
Proof.
  induction l as [|a l IH]; simpl; intros Hall; [reflexivity|].
  rewrite (Hall a (or_introl eq_refl)). apply IH. auto.
Qed.

Lemma with_cart_items_same (db : Db num) : with_cart_items db (cart_items db) = db.
Proof.
  destruct db. reflexivity.
Qed.

Lemma no_cart_no_rows (db : Db num) (sessionId : string) :
  (forall c, In c (carts db) -> c_session_id c <> sessionId) ->
  join_rows db sessionId = [].
Proof.
  intros Hnone. unfold join_rows. rewrite filter_nil; [reflexivity|].
  intros c Hc. apply String.eqb_neq. auto.
Qed.

Lemma read_none_no_cart (db : Db num) (sessionId : string) (c : CartRow) :
  getCartWithItems db sessionId = None ->
  In c (carts db) -> c_session_id c <> sessionId.
Proof.
  intros Hnone Hc Hsession. unfold getCartWithItems in Hnone.
  destruct (select_cart_rows db sessionId) as [|base rows] eqn:Hrows; [|discriminate].
  apply order_rows_nil in Hrows.
  exact (join_rows_some db sessionId c Hc Hsession Hrows).
Qed.

(** X1.  The read returns null exactly when no cart row has the session
    identifier. *)
Theorem getCartWithItems_none_iff (db : Db num) (sessionId : string) :
  getCartWithItems db sessionId = None
  <-> forall c, In c (carts db) -> c_session_id c <> sessionId.
Proof.
  split.
  - intros Hnone c. now apply read_none_no_cart.
  - intros Hall. unfold getCartWithItems, select_cart_rows.
    now rewrite (no_cart_no_rows db sessionId Hall).
Qed.

Lemma read_none_session_absent (db : Db num) (sessionId : string) :
  getCartWithItems db sessionId = None ->
  ~ In sessionId (map c_session_id (carts db)).
Proof.
  intros Hnone Hin. apply in_map_iff in Hin. destruct Hin as [c [Hs Hc]].
  exact (read_none_no_cart db sessionId c Hnone Hc Hs).
Qed.

Lemma createCart_carts (db db' : Db num) (sessionId id now : string) (cart : CartView num) :
  createCart db sessionId id now = Ok (db', cart) ->
  carts db' = (carts db ++ [mkCartRow id sessionId now now])%list.
Proof.
  unfold createCart, insert_cart. destruct (cart_exists db _); simpl; [discriminate|].
  intros Heq. injection Heq as Hdb _. now subst db'.
Qed.

Lemma addToCart_carts (db db' : Db num) (cartId productId : string) (q : Z)
  (id now : string) (item : AddedItem) :
  addToCart db cartId productId q id now = Ok (db', item) -> carts db' = carts db.
Proof.
  unfold addToCart. destruct (select_cart_item db cartId productId).
  - intros Heq. injection Heq as Hdb _. now subst db'.
  - unfold insert_cart_item. simpl.
    destruct (cart_item_id_used db id); [discriminate|].
    destruct (foreign_keys db && _); [discriminate|].
    intros Heq. injection Heq as Hdb _. now subst db'.
Qed.

Lemma get_or_create_keeps_sessions (db db' : Db num) (sessionId id now : string)
  (cart : CartView num) :
  one_cart_per_session db ->
  getCartWithItems db sessionId = None ->
  createCart db sessionId id now = Ok (db', cart) ->
  one_cart_per_session db'.
Proof.
  unfold one_cart_per_session. intros Hinv Hnone Hcreate.
  rewrite (createCart_carts _ _ _ _ _ _ Hcreate), map_app. simpl.
  apply NoDup_snoc; [exact Hinv|]. now apply read_none_session_absent.
Qed.

Lemma serve_keeps_one_cart_per_session (db : Db num) (r : CartRequest) :
  one_cart_per_session db -> one_cart_per_session (fst (serve db r)).
Proof.
  intros Hinv. destruct r as [b id now | sessionId id now | cartId b id now
                              | itemId b now | itemId | cartId]; simpl.
  - unfold post_cart. destruct (createCartSchema b); [|exact Hinv].
    destruct (getCartWithItems db _) eqn:Hread; [exact Hinv|].
    destruct (createCart db _ id now) as [[db' cart]|e] eqn:Hcreate; [|exact Hinv].
    simpl. eapply get_or_create_keeps_sessions; eassumption.
  - unfold get_cart. destruct (getCartWithItems db _) eqn:Hread; [exact Hinv|].
    destruct (createCart db _ id now) as [[db' cart]|e] eqn:Hcreate; [|exact Hinv].
    simpl. eapply get_or_create_keeps_sessions; eassumption.
  - unfold post_cart_items. destruct (addToCartSchema b); [|exact Hinv].
    destruct (addToCart db cartId _ _ id now) as [[db' item]|e] eqn:Hadd; [|exact Hinv].
    simpl. unfold one_cart_per_session. now rewrite (addToCart_carts _ _ _ _ _ _ _ _ Hadd).
  - unfold put_cart_item. destruct (updateCartItemSchema b); [|exact Hinv].
    unfold updateCartItem.
    destruct (select_cart_item_by_id _ itemId); exact Hinv.
  - exact Hinv.
  - exact Hinv.
Qed.

(** X2.  Served one after the other, the cart routes never give a session a
    second cart: a database in which no two carts share a session stays so,
    because a cart is created only after the read found none. *)
Theorem serve_all_keeps_one_cart_per_session (rs : list CartRequest) :
  forall db : Db num,
    one_cart_per_session db -> one_cart_per_session (serve_all db rs).
Proof.
  induction rs as [|r rs IH]; intros db Hinv; [exact Hinv|].
  change (serve_all db (r :: rs)) with (serve_all (fst (serve db r)) rs).
  apply IH. now apply serve_keeps_one_cart_per_session.
Qed.

End SessionFacts.

(** ** The items a read lists *)

Section ItemsFacts.
Context {num : Type} {JN : JsNum num}.

Lemma join_items_item (db : Db num) (c : CartRow) (r : JoinRow) (ci : CartItemRow) :
  In r (join_items db c) -> jr_item r = Some ci ->
  In ci (cart_items db) /\ ci_cart_id ci = c_id c.
Proof.
  unfold join_items.
  destruct (filter _ (cart_items db)) as [|ci0 its] eqn:Hfilter.
  - intros [Hr | []]. subst r. discriminate.
  - rewrite <- Hfilter. intros Hin Hitem. apply in_flat_map in Hin.
    destruct Hin as [ci' [Hci' Hr]]. apply join_products_row in Hr.
    destruct Hr as [_ Hr]. rewrite Hr in Hitem. injection Hitem as Heq. subst ci'.
    apply filter_In in Hci'. destruct Hci' as [Hin Hid].
    apply String.eqb_eq in Hid. auto.
Qed.

Lemma join_rows_of_session (db : Db num) (sessionId : string) (r : JoinRow) :
  In r (join_rows db sessionId) -> row_of_session db sessionId r.
Proof.
  unfold join_rows. intros Hin. apply in_flat_map in Hin.
  destruct Hin as [c [Hc Hr]]. apply filter_In in Hc. destruct Hc as [Hc Hs].
  apply String.eqb_eq in Hs. pose proof (join_items_cart db c r Hr) as Hcart.
  unfold row_of_session. rewrite Hcart. repeat split; try assumption.
  destruct (jr_item r) as [ci|] eqn:Hitem; [|exact I].
  now apply (join_items_item db c r ci).
Qed.

Lemma item_of_row_shows (db : Db num) (r : JoinRow) (it : CartItemView num) :
  item_of_row db r = Some it ->
  exists ci, jr_item r = Some ci
             /\ iv_id it = ci_id ci /\ iv_cartId it = c_id (jr_cart r)
             /\ iv_quantity it = ci_quantity ci.
Proof.
  unfold item_of_row. destruct (jr_item r) as [ci|]; [|discriminate].
  destruct (truthy_string _); [|discriminate].
  intros Heq. injection Heq as Hit. subst it. exists ci. simpl. auto.
Qed.

Lemma item_of_row_listed (db : Db num) (r : JoinRow) (ci : CartItemRow) :
  jr_item r = Some ci -> ci_id ci <> "" ->
  exists it, item_of_row db r = Some it
             /\ iv_id it = ci_id ci /\ iv_cartId it = c_id (jr_cart r)
             /\ iv_quantity it = ci_quantity ci.
Proof.
  intros Hitem Hid. unfold item_of_row, item_id. rewrite Hitem. simpl.
  apply String.eqb_neq in Hid. rewrite Hid. simpl.
  eexists. split; [reflexivity|]. simpl. auto.
Qed.

Lemma read_items_rows (db : Db num) (sessionId : string) (cart : CartView num) :
  getCartWithItems db sessionId = Some cart ->
  cv_items cart = filter_map (item_of_row db) (select_cart_rows db sessionId)
  /\ exists base, In base (select_cart_rows db sessionId)
                  /\ cv_id cart = c_id (jr_cart base).
Proof.
  unfold getCartWithItems.
  destruct (select_cart_rows db sessionId) as [|base rows]; [discriminate|].
  intros Heq. injection Heq as Hcart. subst cart. cbn [cv_items cv_id].
  split; [reflexivity|]. exists base. split; [now left | reflexivity].
Qed.

Lemma read_cart_stored (db : Db num) (sessionId : string) (cart : CartView num) :
  getCartWithItems db sessionId = Some cart ->
  exists c, In c (carts db) /\ c_session_id c = sessionId /\ cv_id cart = c_id c.
Proof.
  intros Hread. destruct (read_items_rows db sessionId cart Hread) as [_ [base [Hbase Hid]]].
  unfold select_cart_rows in Hbase. rewrite order_rows_in in Hbase.
  apply join_rows_of_session in Hbase.
  destruct Hbase as [Hc [Hs _]]. exists (jr_cart base). auto.
Qed.

Lemma read_item_shown (db : Db num) (sessionId : string) (cart : CartView num)
  (it : CartItemView num) :
  getCartWithItems db sessionId = Some cart -> In it (cv_items cart) ->
  exists c ci, shows_item sessionId db it c ci.
Proof.
  intros Hread Hit. destruct (read_items_rows db sessionId cart Hread) as [Hitems _].
  rewrite Hitems in Hit. apply filter_map_in in Hit. destruct Hit as [r [Hr Hitem]].
  unfold select_cart_rows in Hr. rewrite order_rows_in in Hr.
  apply join_rows_of_session in Hr.
  destruct Hr as [Hc [Hs Hlink]].
  destruct (item_of_row_shows db r it Hitem) as [ci [Hri [Hid [Hcart Hq]]]].
  rewrite Hri in Hlink. destruct Hlink as [Hci Hcid].
  exists (jr_cart r), ci. unfold shows_item. auto 10.
Qed.

Lemma stored_item_read (db : Db num) (sessionId : string) (cart : CartView num)
  (c : CartRow) (ci : CartItemRow) :
  getCartWithItems db sessionId = Some cart ->
  In c (carts db) -> c_session_id c = sessionId ->
  In ci (cart_items db) -> ci_cart_id ci = c_id c -> ci_id ci <> "" ->
  exists it, In it (cv_items cart) /\ shows_item sessionId db it c ci.
Proof.
  intros Hread Hc Hs Hci Hcid Hid.
  destruct (read_items_rows db sessionId cart Hread) as [Hitems _].
  destruct (join_rows_each_item db sessionId c ci Hc Hs Hci Hcid) as [r [Hr [Hrc Hri]]].
  destruct (item_of_row_listed db r ci Hri Hid) as [it [Hit [Hitid [Hitc Hitq]]]].
  exists it. split.
  - rewrite Hitems. apply (filter_map_intro _ _ r); [|exact Hit].
    unfold select_cart_rows. rewrite order_rows_in. exact Hr.
  - unfold shows_item. rewrite Hrc in Hitc. auto 10.
Qed.

(** X4.  The items of a read are exactly the stored items of the carts of the
    session: every returned item shows a stored item of one of them, under
    that cart's identifier and with the stored quantity, and every stored item
    of any of them (with a non-empty identifier) is returned. *)
Theorem getCartWithItems_items_exact (db : Db num) (sessionId : string)
  (cart : CartView num) :
  getCartWithItems db sessionId = Some cart ->
  (forall it, In it (cv_items cart) -> exists c ci, shows_item sessionId db it c ci)
  /\ (forall c ci,
         In c (carts db) -> c_session_id c = sessionId ->
         In ci (cart_items db) -> ci_cart_id ci = c_id c -> ci_id ci <> "" ->
         exists it, In it (cv_items cart) /\ shows_item sessionId db it c ci).
Proof.
  intros Hread. split.
  - intros it. now apply read_item_shown.
  - intros c ci. now apply stored_item_read.
Qed.

Lemma single_cart_items (db : Db num) (sessionId : string) (cart : CartView num)
  (it : CartItemView num) :
  one_cart_per_session db ->
  getCartWithItems db sessionId = Some cart ->
  In it (cv_items cart) -> iv_cartId it = cv_id cart.
Proof.
  intros Hone Hread Hit.
  destruct (read_cart_stored db sessionId cart Hread) as [c0 [Hc0 [Hs0 Hid0]]].
  destruct (read_item_shown db sessionId cart it Hread Hit) as [c [ci Hshow]].
  destruct Hshow as [Hc [Hs [_ [_ [_ [Hcart _]]]]]].
  assert (c = c0).
  { apply (NoDup_map_same_key c_session_id (carts db)); try assumption. congruence. }
  subst c. congruence.
Qed.

(** X5.  In a database where no two carts share a session, as the routes keep
    it, every item a read returns belongs to the cart returned. *)
Theorem getCartWithItems_own_items (db : Db num) (sessionId : string)
  (cart : CartView num) :
  one_cart_per_session db ->
  getCartWithItems db sessionId = Some cart ->
  Forall (fun it => iv_cartId it = cv_id cart) (cv_items cart).
Proof.
  intros Hone Hread. apply Forall_forall. intros it Hit.
  eapply single_cart_items; eassumption.
Qed.

End ItemsFacts.

(** ** Round trips through the cart service *)

Section RoundTrips.
Context {num : Type} {JN : JsNum num}.

Lemma session_cart_read (db : Db num) (sessionId : string) (c : CartRow) :
  In c (carts db) -> c_session_id c = sessionId ->
  exists cart, getCartWithItems db sessionId = Some cart.
Proof.
  intros Hc Hs. destruct (getCartWithItems db sessionId) as [cart|] eqn:Hread.
  - now exists cart.
  - exfalso. exact (read_none_no_cart db sessionId c Hread Hc Hs).
Qed.

Lemma read_totals (db : Db num) (sessionId : string) (cart : CartView num) :
  getCartWithItems db sessionId = Some cart ->
  cv_totalItems cart = totalItems (cv_items cart)
  /\ cv_totalPrice cart = totalPrice (cv_items cart)
  /\ cv_sessionId cart = sessionId.
Proof.
  intros Hread. unfold getCartWithItems in Hread.
  destruct (select_cart_rows db sessionId) as [|base rows] eqn:Hrows; [discriminate|].
  injection Hread as Hcart. subst cart. cbn [cv_totalItems cv_totalPrice cv_items cv_sessionId].
  repeat split.
  assert (Hbase : In base (select_cart_rows db sessionId)) by (rewrite Hrows; now left).
  unfold select_cart_rows in Hbase. rewrite order_rows_in in Hbase.
  apply join_rows_of_session in Hbase. unfold row_of_session in Hbase. tauto.
Qed.

(** X6.  A cart created for a session that had none is what the next read of
    that session returns: the same identifier and times, no items, zero
    totals.  The identifier drawn must be unused, by carts and by the
    [cart_id] of stored items. *)
Theorem createCart_then_read (db : Db num) (sessionId id now : string) :
  (forall c, In c (carts db) -> c_session_id c <> sessionId) ->
  cart_exists db id = false ->
  (forall ci, In ci (cart_items db) -> ci_cart_id ci <> id) ->
  exists db' cart,
    createCart db sessionId id now = Ok (db', cart)
    /\ getCartWithItems db' sessionId = Some cart.
Proof.
  intros Hnone Hfresh Hnoitems. unfold createCart, insert_cart. simpl.
  rewrite Hfresh. eexists. eexists. split; [reflexivity|].
  set (new := mkCartRow id sessionId now now).
  assert (Hrows : join_rows (with_carts db (carts db ++ [new])) sessionId
                  = [mkJoinRow new None None]).
  { unfold join_rows. simpl carts. rewrite filter_app.
    rewrite (filter_nil _ (carts db))
      by (intros c Hc; apply String.eqb_neq; auto).
    simpl. rewrite String.eqb_refl. simpl. rewrite app_nil_r.
    unfold join_items. simpl cart_items.
    rewrite filter_nil; [reflexivity|].
    intros ci Hci. simpl. apply String.eqb_neq. intros Heq.
    apply (Hnoitems ci Hci). now symmetry. }
  unfold getCartWithItems, select_cart_rows. rewrite Hrows. reflexivity.
Qed.

Lemma clear_removes_cart_items (db : Db num) (cartId : string) (ci : CartItemRow) :
  In ci (cart_items (fst (clearCart db cartId))) -> ci_cart_id ci <> cartId.
Proof.
  simpl. intros Hin Heq. apply filter_In in Hin. destruct Hin as [_ Hneq].
  rewrite Heq, String.eqb_refl in Hneq. discriminate.
Qed.

(** X7.  Clearing the cart a read returned empties it: where no two carts
    share a session, the next read of the session returns the same cart with
    no items and zero totals. *)
Theorem clear_then_read_empty (db : Db num) (sessionId : string) (cart : CartView num) :
  one_cart_per_session db ->
  getCartWithItems db sessionId = Some cart ->
  exists cart',
    getCartWithItems (fst (delete_cart db (cv_id cart))) sessionId = Some cart'
    /\ cv_id cart' = cv_id cart
    /\ cv_items cart' = []
    /\ cv_totalItems cart' = 0
    /\ cv_totalPrice cart' = jzero.
Proof.
  intros Hone Hread.
  destruct (read_cart_stored db sessionId cart Hread) as [c0 [Hc0 [Hs0 Hid0]]].
  set (db' := fst (delete_cart db (cv_id cart))).
  assert (Hcarts : carts db' = carts db) by reflexivity.
  assert (Hc0' : In c0 (carts db')) by (rewrite Hcarts; exact Hc0).
  destruct (session_cart_read db' sessionId c0 Hc0' Hs0) as [cart' Hread'].
  exists cart'. split; [exact Hread'|].
  assert (Hone' : one_cart_per_session db') by exact Hone.
  destruct (read_cart_stored db' sessionId cart' Hread') as [c1 [Hc1 [Hs1 Hid1]]].
  rewrite Hcarts in Hc1.
  assert (c1 = c0).
  { apply (NoDup_map_same_key c_session_id (carts db)); try assumption. congruence. }
  subst c1.
  assert (Hid : cv_id cart' = cv_id cart) by congruence.
  assert (Hitems : cv_items cart' = []).
  { destruct (cv_items cart') as [|it items] eqn:Hits; [reflexivity|]. exfalso.
    assert (Hit : In it (cv_items cart')) by (rewrite Hits; now left).
    pose proof (single_cart_items db' sessionId cart' it Hone' Hread' Hit) as Hown.
    destruct (read_item_shown db' sessionId cart' it Hread' Hit) as [c [ci Hshow]].
    destruct Hshow as [_ [_ [Hci [Hcid [_ [Hcart _]]]]]].
    apply (clear_removes_cart_items db (cv_id cart) ci Hci). congruence. }
  destruct (read_totals db' sessionId cart' Hread') as [Hti [Htp _]].
  rewrite Hitems in Hti, Htp. auto.
Qed.

Lemma addToCart_stored_row (db db' : Db num) (cartId productId : string) (q : Z)
  (id now : string) (item : AddedItem) :
  addToCart db cartId productId q id now = Ok (db', item) ->
  exists r, select_cart_item db' cartId productId = Some r
            /\ ci_id r = ci_id (added_row item)
            /\ ci_quantity r = ci_quantity (added_row item).
Proof.
  unfold addToCart.
  destruct (select_cart_item db cartId productId) as [r|] eqn:Hsel.
  - intros Heq. injection Heq as Hdb Hitem. subst db' item.
    unfold select_cart_item in *. simpl.
    rewrite find_map_same by (intros x; apply increment_keeps_pair).
    rewrite Hsel. simpl. eexists. split; [reflexivity|].
    unfold increment_quantity. rewrite String.eqb_refl. simpl. auto.
  - unfold insert_cart_item. simpl.
    destruct (cart_item_id_used db id); [discriminate|].
    destruct (foreign_keys db && _); [discriminate|].
    intros Heq. injection Heq as Hdb Hitem. subst db' item.
    unfold select_cart_item in *. simpl.
    rewrite (find_app_none _ _ _ Hsel) by (simpl; now rewrite !String.eqb_refl).
    eexists. split; [reflexivity|]. simpl. auto.
Qed.

(** X8.  What [addToCart] returns is what it stored: the row then selected
    for the pair has the identifier and the quantity of the returned item. *)
Theorem addToCart_returns_stored (db db' : Db num) (cartId productId : string) (q : Z)
  (id now : string) (item : AddedItem) :
  addToCart db cartId productId q id now = Ok (db', item) ->
  option_map ci_id (select_cart_item db' cartId productId)
  = Some (ci_id (added_row item))
  /\ stored_quantity db' cartId productId = Some (ci_quantity (added_row item)).
Proof.
  intros Hadd. unfold stored_quantity.
  destruct (addToCart_stored_row _ _ _ _ _ _ _ _ Hadd) as [r [Hsel [Hid Hq]]].
  rewrite Hsel. simpl. now rewrite Hid, Hq.
Qed.

(** X9.  An item added to a cart of a session shows in the next read of the
    session, under the identifier and with the quantity [addToCart]
    returned (the identifier being a non-empty string, as every UUID is). *)
Theorem addToCart_then_read (db db' : Db num) (sessionId : string) (c : CartRow)
  (productId : string) (q : Z) (id now : string) (item : AddedItem) :
  In c (carts db) -> c_session_id c = sessionId ->
  addToCart db (c_id c) productId q id now = Ok (db', item) ->
  ci_id (added_row item) <> "" ->
  exists cart it,
    getCartWithItems db' sessionId = Some cart
    /\ In it (cv_items cart)
    /\ iv_id it = ci_id (added_row item)
    /\ iv_cartId it = c_id c
    /\ iv_quantity it = ci_quantity (added_row item).
Proof.
  intros Hc Hs Hadd Hid.
  destruct (addToCart_stored_row _ _ _ _ _ _ _ _ Hadd) as [r [Hsel [Hrid Hrq]]].
  unfold select_cart_item in Hsel. apply find_some in Hsel.
  destruct Hsel as [Hr Hpair]. apply andb_prop in Hpair. destruct Hpair as [Hrc _].
  apply String.eqb_eq in Hrc.
  assert (Hc' : In c (carts db')) by (rewrite (addToCart_carts _ _ _ _ _ _ _ _ Hadd); exact Hc).
  destruct (session_cart_read db' sessionId c Hc' Hs) as [cart Hread].
  rewrite <- Hrid in Hid.
  destruct (stored_item_read db' sessionId cart c r Hread Hc' Hs Hr Hrc Hid)
    as [it [Hit Hshow]].
  destruct Hshow as [_ [_ [_ [_ [Hitid [Hitc Hitq]]]]]].
  exists cart, it. repeat split; try assumption; congruence.
Qed.

End RoundTrips.

(** ** The newest cart of a session *)

Section NewestFacts.
Context {num : Type} {JN : JsNum num}.

Lemma string_leb_refl (s : string) : (s <=? s)%string = true.
Proof.
  unfold String.leb. now rewrite string_compare_refl.
Qed.

Lemma string_ltb_leb (a b : string) : (a <? b)%string = true -> (a <=? b)%string = true.
Proof.
  unfold String.ltb, String.leb.
  destruct (String.compare a b); simpl; intros Hlt; congruence.
Qed.

Lemma string_not_ltb_leb (a b : string) :
  (a <? b)%string = false -> (b <=? a)%string = true.
Proof.
  unfold String.ltb, String.leb. rewrite (String.compare_antisym b a).
  destruct (String.compare a b); simpl; intros Hlt; congruence.
Qed.

Lemma latest_cart_newest (l : list CartRow) :
  forall best,
    In (latest_cart best l) (best :: l)
    /\ forall x, In x (best :: l) ->
                 (c_created_at x <=? c_created_at (latest_cart best l))%string = true.
Proof.
  induction l as [|c l IH]; intros best; simpl.
  - split; [now left|]. intros x [Hx | []]. subst x. apply string_leb_refl.
  - destruct (IH (if (c_created_at best <? c_created_at c)%string then c else best))
      as [Hin Hmax].
    split.
    + destruct Hin as [Hin | Hin]; [|auto].
      rewrite <- Hin. destruct (c_created_at best <? c_created_at c)%string; auto.
    + assert (Hnext : forall y, y = best \/ y = c ->
                (c_created_at y
                 <=? c_created_at (if (c_created_at best <? c_created_at c)%string
                                   then c else best))%string = true).
      { intros y Hy.
        destruct (c_created_at best <? c_created_at c)%string eqn:Hlt;
          destruct Hy as [Hy | Hy]; subst y.
        - now apply string_ltb_leb.
        - apply string_leb_refl.
        - apply string_leb_refl.
        - now apply string_not_ltb_leb. }
      intros x [Hx | [Hx | Hx]].
      * eapply string_leb_trans; [apply Hnext; now left | apply Hmax; now left].
      * eapply string_leb_trans; [apply Hnext; now right | apply Hmax; now left].
      * apply Hmax. now right.
Qed.

Lemma find_cart_newest (db : Db num) (sessionId : string) (c : CartRow) :
  findCartBySessionId db sessionId = Some c ->
  In c (carts db) /\ c_session_id c = sessionId
  /\ forall c', In c' (carts db) -> c_session_id c' = sessionId ->
                (c_created_at c' <=? c_created_at c)%string = true.
Proof.
  unfold findCartBySessionId.
  destruct (filter _ (carts db)) as [|c0 l] eqn:Hfilter; [discriminate|].
  intros Heq. injection Heq as Hc. subst c.
  destruct (latest_cart_newest l c0) as [Hin Hmax].
  rewrite <- Hfilter in Hin, Hmax.
  apply filter_In in Hin. destruct Hin as [Hin Hs]. apply String.eqb_eq in Hs.
  repeat split; try assumption.
  intros c' Hc' Hs'. apply Hmax. apply filter_In. split; [exact Hc'|].
  now apply String.eqb_eq.
Qed.

(** X3.  The cart a read returns is a stored cart of the session, and no cart
    of the session has a later creation time. *)
Theorem getCartWithItems_returns_newest (db : Db num) (sessionId : string)
  (cart : CartView num) :
  getCartWithItems db sessionId = Some cart ->
  (exists c, In c (carts db) /\ c_session_id c = sessionId
             /\ cv_id cart = c_id c /\ cv_createdAt cart = c_created_at c)
  /\ forall c, In c (carts db) -> c_session_id c = sessionId ->
               (c_created_at c <=? cv_createdAt cart)%string = true.
Proof.
  apply getCartWithItems_newest.
Qed.

(** X10.  [findCartBySessionId] returns undefined exactly when the session
    has no cart, and otherwise a cart of the session that none of its carts is
    newer than. *)
Theorem findCartBySessionId_newest (db : Db num) (sessionId : string) :
  match findCartBySessionId db sessionId with
  | None => forall c, In c (carts db) -> c_session_id c <> sessionId
  | Some c =>
      In c (carts db) /\ c_session_id c = sessionId
      /\ forall c', In c' (carts db) -> c_session_id c' = sessionId ->
                    (c_created_at c' <=? c_created_at c)%string = true
  end.
Proof.
  destruct (findCartBySessionId db sessionId) as [c|] eqn:Hfind.
  - now apply find_cart_newest.
  - unfold findCartBySessionId in Hfind.
    destruct (filter _ (carts db)) as [|c0 l] eqn:Hfilter; [|discriminate].
    intros c Hc Hs.
    assert (Hin : In c (filter (fun c => (c_session_id c =? sessionId)%string) (carts db))).
    { apply filter_In. split; [exact Hc|]. now apply String.eqb_eq. }
    rewrite Hfilter in Hin. exact Hin.
Qed.

(** X11.  The two lookups agree: when the read returns a cart,
    [findCartBySessionId] returns a cart of the same creation time, and the
    same cart where no two carts share a session. *)
Theorem read_and_find_agree (db : Db num) (sessionId : string) (cart : CartView num) :
  getCartWithItems db sessionId = Some cart ->
  exists c,
    findCartBySessionId db sessionId = Some c
    /\ c_created_at c = cv_createdAt cart
    /\ (one_cart_per_session db -> c_id c = cv_id cart).
Proof.
  intros Hread.
  destruct (getCartWithItems_newest db sessionId cart Hread)
    as [[c0 [Hc0 [Hs0 [Hid0 Ht0]]]] Hmax].
  destruct (findCartBySessionId db sessionId) as [c|] eqn:Hfind.
  - destruct (find_cart_newest db sessionId c Hfind) as [Hc [Hs Hmax']].
    exists c. split; [reflexivity|]. split.
    + apply String.leb_antisym; [now apply Hmax|].
      rewrite Ht0. now apply Hmax'.
    + intros Hone.
      assert (c = c0).
      { apply (NoDup_map_same_key c_session_id (carts db)); try assumption. congruence. }
      congruence.
  - exfalso. unfold findCartBySessionId in Hfind.
    destruct (filter _ (carts db)) as [|c1 l] eqn:Hfilter; [|discriminate].
    assert (Hin : In c0 (filter (fun c => (c_session_id c =? sessionId)%string) (carts db))).
    { apply filter_In. split; [exact Hc0|]. now apply String.eqb_eq. }
    rewrite Hfilter in Hin. exact Hin.
Qed.

End NewestFacts.

(** ** Removing, updating and validating *)

Section RouteFacts.
Context {num : Type} {JN : JsNum num}.

Lemma find_app_skip {A : Type} (f : A -> bool) (l : list A) (a : A) :
  f a = false -> find f (l ++ [a]) = find f l.
Proof.
  intros Ha. induction l as [|b l IH]; simpl.
  - now rewrite Ha.
  - destruct (f b); [reflexivity | exact IH].
Qed.

Lemma map_unchanged {A : Type} (g : A -> A) (l : list A) :
  (forall x, In x l -> g x = x) -> map g l = l.
Proof.
  induction l as [|a l IH]; simpl; intros Hall; [reflexivity|].
  rewrite (Hall a (or_introl eq_refl)). f_equal. apply IH. auto.
Qed.

Lemma filter_unchanged {A : Type} (f : A -> bool) (l : list A) :
  (forall x, In x l -> f x = true) -> filter f l = l.
Proof.
  induction l as [|a l IH]; simpl; intros Hall; [reflexivity|].
  rewrite (Hall a (or_introl eq_refl)). f_equal. apply IH. auto.
Qed.

(** X12.  Removing an item answers 200 with the success marker whether or
    not the item exists; afterwards no row has the identifier, the rows with
    other identifiers are the ones stored before, in order, and a second
    removal changes nothing. *)
Theorem delete_cart_item_effect (db : Db num) (itemId : string) :
  snd (delete_cart_item db itemId) = mkResponse 200 (JSuccess success_true)
  /\ select_cart_item_by_id (fst (delete_cart_item db itemId)) itemId = None
  /\ filter (fun r => negb (ci_id r =? itemId)%string)
            (cart_items (fst (delete_cart_item db itemId)))
     = filter (fun r => negb (ci_id r =? itemId)%string) (cart_items db)
  /\ fst (delete_cart_item (fst (delete_cart_item db itemId)) itemId)
     = fst (delete_cart_item db itemId)
  /\ carts (fst (delete_cart_item db itemId)) = carts db.
Proof.
  unfold delete_cart_item, removeFromCart, select_cart_item_by_id. simpl.
  repeat split.
  - apply find_none_iff. intros r Hr. apply filter_In in Hr.
    destruct Hr as [_ Hneq]. now destruct (ci_id r =? itemId)%string.
  - apply filter_idem.
  - unfold with_cart_items. simpl. f_equal. apply filter_idem.
Qed.

(** X13.  Removing an item that is not stored leaves the database as it was
    and is still answered 200 with the success marker. *)
Theorem delete_cart_item_absent (db : Db num) (itemId : string) :
  select_cart_item_by_id db itemId = None ->
  delete_cart_item db itemId = (db, mkResponse 200 (JSuccess success_true)).
Proof.
  intros Hnone. unfold delete_cart_item, removeFromCart.
  rewrite filter_unchanged.
  - now rewrite with_cart_items_same.
  - intros r Hr. unfold select_cart_item_by_id in Hnone.
    now rewrite (find_none _ _ Hnone r Hr).
Qed.

(** X14.  A quantity update that passes validation, for an item that is not
    stored, is answered 404 and leaves the database as it was. *)
Theorem put_cart_item_missing (db : Db num) (itemId : string) (b : UpdateCartItemBody)
  (now : string) :
  1 <= ub_quantity b <= 100 ->
  select_cart_item_by_id db itemId = None ->
  put_cart_item db itemId b now = (db, mkResponse 404 (JError "Item não encontrado")).
Proof.
  unfold put_cart_item, updateCartItemSchema, quantity_issues.
  intros Hq Hnone.
  destruct (Z.ltb_spec (ub_quantity b) 1); [lia|].
  destruct (Z.ltb_spec 100 (ub_quantity b)); [lia|]. simpl.
  unfold updateCartItem.
  assert (Hsame : map (set_quantity (ub_quantity b) now itemId) (cart_items db)
                  = cart_items db).
  { apply map_unchanged. intros r Hr. unfold set_quantity.
    unfold select_cart_item_by_id in Hnone.
    now rewrite (find_none _ _ Hnone r Hr). }
  rewrite Hsame, with_cart_items_same, Hnone. reflexivity.
Qed.

(** On bodies that have the types the schemas demand: the add-item route
    answers 400 exactly when the product identifier is empty or the quantity
    lies outside 1..100, the update-item route exactly when the quantity lies
    outside 1..100; a request answered 400 leaves the database as it was. *)
Lemma post_cart_items_typed_400_iff (db : Db num) (cartId itemId : string) (b : AddToCartBody)
  (u : UpdateCartItemBody) (id now : string) :
  (status (snd (post_cart_items db cartId b id now)) = 400
   <-> ab_productId b = "" \/ ab_quantity b < 1 \/ 100 < ab_quantity b)
  /\ (status (snd (post_cart_items db cartId b id now)) = 400 ->
      fst (post_cart_items db cartId b id now) = db)
  /\ (status (snd (put_cart_item db itemId u now)) = 400
      <-> ub_quantity u < 1 \/ 100 < ub_quantity u)
  /\ (status (snd (put_cart_item db itemId u now)) = 400 ->
      fst (put_cart_item db itemId u now) = db).
Proof.
  split; [|split; [|split]].
  - unfold post_cart_items, addToCartSchema, min_length_1, quantity_issues.
    destruct (String.eqb_spec (ab_productId b) "") as [Hp | Hp];
      destruct (Z.ltb_spec (ab_quantity b) 1);
      destruct (Z.ltb_spec 100 (ab_quantity b)); simpl;
      try (split; [intros _; auto | reflexivity]).
    destruct (addToCart db cartId _ _ id now) as [[db' item]|e]; simpl;
      (split; [discriminate | intros [? | [? | ?]]; [congruence | lia | lia]]).
  - unfold post_cart_items. destruct (addToCartSchema b); [|reflexivity].
    destruct (addToCart db cartId _ _ id now) as [[db' item]|e]; simpl; discriminate.
  - unfold put_cart_item, updateCartItemSchema, quantity_issues.
    destruct (Z.ltb_spec (ub_quantity u) 1);
      destruct (Z.ltb_spec 100 (ub_quantity u)); simpl;
      try (split; [intros _; auto | reflexivity]).
    destruct (select_cart_item_by_id _ itemId);
      (split; [intros H400; simpl in H400; discriminate | intros [? | ?]; lia]).
  - unfold put_cart_item, updateCartItem.
    destruct (updateCartItemSchema u); [|reflexivity].
    destruct (select_cart_item_by_id _ itemId);
      intros H400; simpl in H400; discriminate.
Qed.

(** X16.  With unique item identifiers, adding to one (cart, product) pair
    leaves the row selected for every other pair untouched. *)
Theorem addToCart_other_pairs_untouched (db db' : Db num) (cartId productId : string)
  (q : Z) (id now : string) (item : AddedItem) (cartId' productId' : string) :
  unique_item_ids db ->
  addToCart db cartId productId q id now = Ok (db', item) ->
  (cartId', productId') <> (cartId, productId) ->
  select_cart_item db' cartId' productId' = select_cart_item db cartId' productId'.
Proof.
  unfold unique_item_ids, addToCart. intros Huniq Hadd Hother.
  destruct (select_cart_item db cartId productId) as [r|] eqn:Hsel.
  - injection Hadd as Hdb _. subst db'.
    change (find (fun r0 => (ci_cart_id r0 =? cartId')%string
                            && (ci_product_id r0 =? productId')%string)
                 (map (increment_quantity q now (ci_id r)) (cart_items db))
            = select_cart_item db cartId' productId').
    rewrite find_map_same by (intros x; apply increment_keeps_pair).
    fold (select_cart_item db cartId' productId').
    destruct (select_cart_item db cartId' productId') as [x|] eqn:Hx; [|reflexivity].
    simpl. f_equal. unfold increment_quantity. unfold select_cart_item in Hsel, Hx.
    destruct (String.eqb_spec (ci_id x) (ci_id r)) as [Hid | Hid]; [|reflexivity].
    exfalso. apply find_some in Hsel. apply find_some in Hx.
    destruct Hsel as [Hr Hrp]. destruct Hx as [Hxin Hxp].
    assert (x = r) by (eapply NoDup_map_same_key; eassumption).
    subst x. apply andb_prop in Hrp. apply andb_prop in Hxp.
    destruct Hrp as [H1 H2]. destruct Hxp as [H3 H4].
    apply String.eqb_eq in H1, H2, H3, H4. apply Hother. congruence.
  - unfold insert_cart_item in Hadd. simpl in Hadd.
    destruct (cart_item_id_used db id); [discriminate|].
    destruct (foreign_keys db && _); [discriminate|].
    injection Hadd as Hdb _. subst db'. unfold select_cart_item. simpl.
    apply find_app_skip. simpl.
    destruct (String.eqb_spec cartId cartId') as [Hc | Hc]; [|reflexivity].
    destruct (String.eqb_spec productId productId') as [Hp | Hp]; [|reflexivity].
    exfalso. apply Hother. congruence.
Qed.

End RouteFacts.

(** ** Creating, replacing and deleting products *)

Section MoreProductFacts.
Context {num : Type} {JN : JsNum num}.

Lemma find_exists {A : Type} (f : A -> bool) (l : list A) (a : A) :
  In a l -> f a = true -> exists b, find f l = Some b.
Proof.
  intros Hin Hf. destruct (find f l) as [b|] eqn:Hfind.
  - now exists b.
  - rewrite (find_none _ _ Hfind a Hin) in Hf. discriminate.
Qed.

Lemma sku_taken (db : Db num) (sku : string) (p : Product num) :
  In p (products db) -> p_sku p = sku -> exists p', getProductBySku db sku = Some p'.
Proof.
  intros Hin Hsku. apply (find_exists _ _ p Hin). now apply String.eqb_eq.
Qed.

Lemma sku_free (db : Db num) (sku : string) :
  (forall p, In p (products db) -> p_sku p <> sku) ->
  getProductBySku db sku = None
  /\ existsb (fun p => (p_sku p =? sku)%string) (products db) = false.
Proof.
  intros Hfree. split.
  - apply find_none_iff. intros p Hp. apply String.eqb_neq. auto.
  - apply not_true_is_false. intros Hex. apply existsb_exists in Hex.
    destruct Hex as [p [Hp Hsku]]. apply String.eqb_eq in Hsku. exact (Hfree p Hp Hsku).
Qed.

Lemma product_absent (db : Db num) (id : string) :
  product_exists db id = false -> getProductById db id = None.
Proof.
  unfold product_exists, getProductById. intros Hnone.
  apply find_none_iff. intros p Hp. apply not_true_is_false. intros Hid.
  assert (Hex : existsb (fun p => (p_id p =? id)%string) (products db) = true).
  { apply existsb_exists. exists p. auto. }
  congruence.
Qed.

(** X17.  A create request with valid fields whose SKU some stored product
    already has is answered 400 [SKU already exists], whatever the other
    fields are, and stores nothing. *)
Theorem post_product_duplicate_sku (db : Db num) (b : ProductInput num) (id now : string)
  (p : Product num) :
  createProductSchema b = [] ->
  In p (products db) -> p_sku p = in_sku b ->
  post_product db b id now = (db, mkResponse 400 (JError "SKU already exists")).
Proof.
  intros Hvalid Hin Hsku. unfold post_product. rewrite Hvalid.
  destruct (sku_taken db (in_sku b) p Hin Hsku) as [p' Hfound].
  now rewrite Hfound.
Qed.

(** X18.  A create request with valid fields, a SKU no stored product has and
    an unused identifier is answered 201 with the new product, which is
    appended to the table, and a get by that identifier then returns the same
    product. *)
Theorem post_product_then_get (db : Db num) (b : ProductInput num) (id now : string) :
  createProductSchema b = [] ->
  (forall p, In p (products db) -> p_sku p <> in_sku b) ->
  product_exists db id = false ->
  let newProduct :=
    mkProduct id (in_name b) (in_description b) (in_price b) (in_sku b) now in
  post_product db b id now
  = (with_products db (products db ++ [newProduct]), mkResponse 201 (JProduct newProduct))
  /\ get_product (fst (post_product db b id now)) id = mkResponse 200 (JProduct newProduct).
Proof.
  intros Hvalid Hfree Hfresh newProduct.
  destruct (sku_free db (in_sku b) Hfree) as [Hnone Hunused].
  assert (Hpost : post_product db b id now
                  = (with_products db (products db ++ [newProduct]),
                     mkResponse 201 (JProduct newProduct))).
  { unfold post_product, insertProduct. rewrite Hvalid, Hnone. simpl.
    rewrite Hfresh, Hunused. reflexivity. }
  split; [exact Hpost|]. rewrite Hpost. simpl fst.
  unfold get_product, getProductById. simpl products.
  rewrite (find_app_none _ _ newProduct).
  - reflexivity.
  - apply (product_absent db id Hfresh).
  - simpl. apply String.eqb_refl.
Qed.

(** X19.  An update with valid fields that moves a product to a SKU another
    stored product has is answered 400 [SKU already exists] and changes
    nothing. *)
Theorem put_product_taken_sku (db : Db num) (id : string) (b : ProductInput num)
  (existing other : Product num) :
  updateProductSchema b = [] ->
  getProductById db id = Some existing ->
  in_sku b <> p_sku existing ->
  In other (products db) -> p_sku other = in_sku b ->
  put_product db id b = (db, mkResponse 400 (JError "SKU already exists")).
Proof.
  intros Hvalid Hget Hdiff Hin Hsku. unfold put_product. rewrite Hvalid, Hget.
  apply String.eqb_neq in Hdiff. rewrite Hdiff.
  destruct (sku_taken db (in_sku b) other Hin Hsku) as [p' Hfound].
  now rewrite Hfound.
Qed.

(** On a body that was read and has the types the schema demands: with
    unique SKUs the checks of the handler rule out every violation of the
    [UNIQUE] constraint, so the answer is 200 with the stored product, 400
    or 404. *)
Theorem put_product_never_500 (db : Db num) (id : string) (b : ProductInput num) :
  unique_skus db ->
  In (status (snd (put_product db id b))) [200; 400; 404]
  /\ body (snd (put_product db id b)) <> JUndefined.
Proof.
  intros Huniq. unfold put_product.
  destruct (updateProductSchema b); [|simpl; split; [tauto | discriminate]].
  destruct (getProductById db id) as [existing|] eqn:Hget;
    [|simpl; split; [tauto | discriminate]].
  destruct (String.eqb_spec (in_sku b) (p_sku existing)) as [Hsame | Hdiff]; simpl.
  - unfold updateProduct. rewrite Hsame.
    rewrite (own_sku_not_taken db id existing Huniq Hget), andb_false_r.
    rewrite (getProductById_replaced db id _ _ _ _ existing Hget). simpl.
    split; [tauto | discriminate].
  - destruct (getProductBySku db (in_sku b)) as [p|] eqn:Hsku; simpl;
      [split; [tauto | discriminate]|].
    unfold updateProduct.
    assert (Hfree : existsb (fun p => negb (p_id p =? id)%string
                                      && (p_sku p =? in_sku b)%string) (products db)
                    = false).
    { apply not_true_is_false. intros Hex. apply existsb_exists in Hex.
      destruct Hex as [p [Hp Hcond]]. apply andb_prop in Hcond.
      unfold getProductBySku in Hsku.
      rewrite (find_none _ _ Hsku p Hp) in Hcond. destruct Hcond. discriminate. }
    rewrite Hfree, andb_false_r.
    rewrite (getProductById_replaced db id _ _ _ _ existing Hget). simpl.
    split; [tauto | discriminate].
Qed.

(** X21.  Deleting a stored product is answered 204; a get by its identifier
    then answers 404, the other products are the ones stored before, in
    order, and where foreign keys are enforced no image and no cart item
    refers to the product any more. *)
Theorem delete_product_effect (db : Db num) (id : string) (p : Product num) :
  getProductById db id = Some p ->
  snd (delete_product db id) = mkResponse 204 NoContent
  /\ get_product (fst (delete_product db id)) id
     = mkResponse 404 (JError "Product not found")
  /\ filter (fun p => negb (p_id p =? id)%string) (products (fst (delete_product db id)))
     = filter (fun p => negb (p_id p =? id)%string) (products db)
  /\ (foreign_keys db = true ->
      Forall (fun im => pi_productId im <> id)
             (product_images (fst (delete_product db id)))
      /\ Forall (fun ci => ci_product_id ci <> id)
                (cart_items (fst (delete_product db id)))).
Proof.
  intros Hget. unfold delete_product. rewrite Hget. simpl fst. simpl snd.
  assert (Hexists : product_exists db id = true).
  { apply getProductById_some in Hget. destruct Hget as [Hin Hid].
    apply existsb_exists. exists p. split; [exact Hin|]. now apply String.eqb_eq. }
  assert (Hproducts : products (deleteProduct db id)
                      = filter (fun p => negb (p_id p =? id)%string) (products db)).
  { unfold deleteProduct. destruct (foreign_keys db && product_exists db id); reflexivity. }
  split; [reflexivity|]. split; [|split].
  - unfold get_product, getProductById. rewrite Hproducts.
    rewrite (proj2 (find_none_iff _ _)); [reflexivity|].
    intros x Hx. apply filter_In in Hx. destruct Hx as [_ Hneq].
    now destruct (p_id x =? id)%string.
  - rewrite Hproducts. apply filter_idem.
  - intros Hfk. unfold deleteProduct. rewrite Hfk, Hexists. simpl.
    split; apply Forall_forall; intros x Hx; apply filter_In in Hx;
      destruct Hx as [_ Hneq]; intros Heq; rewrite Heq, String.eqb_refl in Hneq;
      discriminate.
Qed.

End MoreProductFacts.

(** ** Product images *)

Section ImageFacts.
Context {num : Type} {JN : JsNum num}.
Variable is_url : string -> bool.
Variable backend_path : string -> string.

Lemma insert_image_in (im x : ProductImage) (l : list ProductImage) :
  In x (insert_image im l) <-> x = im \/ In x l.
Proof.
  induction l as [|im' l IH]; simpl.
  - intuition.
  - destruct (image_before im im'); simpl; [intuition|].
    rewrite IH. intuition.
Qed.

Lemma order_images_in (x : ProductImage) (l : list ProductImage) :
  In x (order_images l) <-> In x l.
Proof.
  induction l as [|im l IH]; simpl; [tauto|].
  rewrite insert_image_in, IH. intuition.
Qed.

Lemma product_found_exists (db : Db num) (id : string) (p : Product num) :
  getProductById db id = Some p -> product_exists db id = true.
Proof.
  intros Hget. apply getProductById_some in Hget. destruct Hget as [Hin Hid].
  apply existsb_exists. exists p. split; [exact Hin|]. now apply String.eqb_eq.
Qed.

(** X22.  An image that belongs to another product is not deleted through
    this product's route: the answer is 404 [Image not found] and neither
    the database nor the files change. *)
Theorem delete_product_image_foreign (db : Db num) (disk : Disk) (id imageId : string)
  (unlink_ok : bool) (p : Product num) (image : ProductImage) :
  getProductById db id = Some p ->
  getImageById db imageId = Some image ->
  pi_productId image <> id ->
  delete_product_image backend_path db disk id imageId unlink_ok
  = (db, disk, mkResponse 404 (JError "Image not found")).
Proof.
  intros Hget Himage Hother. unfold delete_product_image.
  rewrite Hget, Himage. apply String.eqb_neq in Hother. now rewrite Hother.
Qed.

(** X23.  Deleting an image of the product is answered 204 whether or not
    its file could be removed; the image can no longer be looked up or
    listed, and the images with other identifiers, the products and the carts
    are as before. *)
Theorem delete_product_image_effect (db : Db num) (disk : Disk) (id imageId : string)
  (unlink_ok : bool) (p : Product num) (image : ProductImage) :
  getProductById db id = Some p ->
  getImageById db imageId = Some image ->
  pi_productId image = id ->
  exists db' disk',
    delete_product_image backend_path db disk id imageId unlink_ok
    = (db', disk', mkResponse 204 NoContent)
    /\ getImageById db' imageId = None
    /\ ~ In imageId (map pi_id (getImagesByProductId db' id))
    /\ filter (fun im => negb (pi_id im =? imageId)%string) (product_images db')
       = filter (fun im => negb (pi_id im =? imageId)%string) (product_images db)
    /\ products db' = products db
    /\ cart_items db' = cart_items db.
Proof.
  intros Hget Himage Hown. unfold delete_product_image.
  rewrite Hget, Himage, Hown, String.eqb_refl. simpl negb. cbv iota.
  eexists. eexists. split; [reflexivity|].
  assert (Hgone : forall x, In x (product_images (deleteImageById db imageId)) ->
                            (pi_id x =? imageId)%string = false).
  { simpl. intros x Hx. apply filter_In in Hx. destruct Hx as [_ Hneq].
    now destruct (pi_id x =? imageId)%string. }
  split; [|split; [|split; [|split]]].
  - apply find_none_iff. exact Hgone.
  - intros Hin. apply in_map_iff in Hin. destruct Hin as [x [Hid Hx]].
    unfold getImagesByProductId in Hx. rewrite order_images_in in Hx.
    apply filter_In in Hx. destruct Hx as [Hx _].
    specialize (Hgone x Hx). rewrite Hid, String.eqb_refl in Hgone. discriminate.
  - simpl. apply filter_idem.
  - reflexivity.
  - reflexivity.
Qed.

Lemma safe_char_underscore : safe_char "_"%char = true.
Proof.
  reflexivity.
Qed.

(** X24.  The sanitised file name keeps the length of the original, consists
    of letters, digits, [_], [.] and [-] only, and sanitising it again
    changes nothing. *)
Theorem safe_name_safe (s : string) :
  forallb safe_char (list_ascii_of_string (safe_name s)) = true
  /\ String.length (safe_name s) = String.length s
  /\ safe_name (safe_name s) = safe_name s.
Proof.
  induction s as [|c s [IHsafe [IHlen IHidem]]]; simpl.
  - auto.
  - destruct (safe_char c) eqn:Hc; simpl.
    + rewrite Hc, IHsafe, IHlen, IHidem. auto.
    + rewrite IHsafe, IHlen, IHidem. auto.
Qed.

Lemma prefix_append (a b c : string) :
  String.prefix (a ++ b) (a ++ c) = String.prefix b c.
Proof.
  induction a as [|x a IH]; simpl; [reflexivity|].
  destruct (ascii_dec x x) as [_ | Hneq]; [exact IH | congruence].
Qed.

Lemma prefix_self_append (a b : string) : String.prefix a (a ++ b) = true.
Proof.
  induction a as [|x a IH]; simpl; [now destruct b|].
  destruct (ascii_dec x x) as [_ | Hneq]; [exact IH | congruence].
Qed.

Lemma upload_url_prefix (id name : string) :
  String.prefix ("/uploads/products/" ++ id ++ "/")
                ("/uploads/products/" ++ id ++ "/" ++ name) = true.
Proof.
  rewrite (prefix_append "/uploads/products/"), (prefix_append id).
  apply prefix_self_append.
Qed.

Lemma save_files_saved (id createdAt : string) (draws : nat -> string * string)
  (entries : list FormEntry) :
  forall (db : Db num) (disk : Disk) (k : nat) (saved : list ProductImage)
         (db' : Db num) (disk' : Disk) (out : list ProductImage),
    save_files db disk id createdAt draws k entries saved = (db', disk', Some out) ->
    exists new,
      out = (saved ++ new)%list
      /\ product_images db' = (product_images db ++ new)%list
      /\ List.length new = count_files entries
      /\ List.length (files disk') = (List.length (files disk) + count_files entries)%nat
      /\ Forall (uploaded_image id createdAt) new
      /\ products db' = products db.
Proof.
  induction entries as [|e entries IH]; intros db disk k saved db' disk' out; simpl.
  - intros Heq. injection Heq as Hdb Hdisk Hout. subst db' disk' out.
    exists []. rewrite !app_nil_r. unfold count_files. simpl.
    repeat split; auto.
  - destruct e as [name content | value].
    + unfold insertImage, insertProductImage.
      destruct (existsb _ (product_images db)); [discriminate|].
      destruct (foreign_keys db && _); [discriminate|].
      intros Hrest. apply IH in Hrest.
      destruct Hrest as [new [Hout [Himages [Hlen [Hfiles [Hall Hproducts]]]]]].
      eexists (_ :: new). rewrite Hout, Himages. simpl in *.
      rewrite <- !app_assoc. simpl. unfold count_files in *. simpl.
      rewrite Hlen. rewrite Hfiles, length_app. simpl.
      repeat split; auto; [lia|]. constructor; [|exact Hall].
      unfold uploaded_image. simpl. repeat split. apply upload_url_prefix.
    + intros Hrest. apply IH in Hrest. unfold count_files in *. simpl. exact Hrest.
Qed.

(** X25.  A multipart upload answered 201 has stored one image row per
    [File] entry of the form, in order, appended to the table and returned as
    the list: each row belongs to the product, has position 0 and the request
    time, and a URL under the product's public upload path; one file was
    written per row. *)
Theorem upload_saves_one_image_per_file (db db' : Db num) (disk disk' : Disk)
  (id ctype : string) (entries : list FormEntry) (createdAt uuid : string)
  (draws : nat -> string * string) (answer : Body num) :
  includes ctype "application/json" = false ->
  includes ctype "multipart/form-data" = true ->
  post_product_images is_url db disk id (mkImageRequest ctype (FormPayload entries))
    createdAt uuid draws = (db', disk', mkResponse 201 answer) ->
  exists saved,
    answer = JImages saved
    /\ product_images db' = (product_images db ++ saved)%list
    /\ List.length saved = count_files entries
    /\ List.length (files disk') = (List.length (files disk) + count_files entries)%nat
    /\ Forall (uploaded_image id createdAt) saved.
Proof.
  intros Hjson Hform. unfold post_product_images.
  destruct (getProductById db id); [|discriminate]. simpl.
  rewrite Hjson, Hform.
  destruct entries as [|e entries]; [discriminate|].
  destruct (save_files db _ id createdAt draws 0 (e :: entries) [])
    as [[db1 disk1] [saved|]] eqn:Hsave; [|discriminate].
  intros Heq. injection Heq as Hdb Hdisk Hanswer. subst db1 disk1 answer.
  apply save_files_saved in Hsave.
  destruct Hsave as [new [Hout [Himages [Hlen [Hfiles [Hall _]]]]]].
  simpl in Hout. subst saved. exists new. repeat split; try assumption.
  rewrite Hfiles. f_equal.
  destruct (existsb _ (dirs disk)); reflexivity.
Qed.

(** X26.  Adding an image by URL to a stored product, with a URL that
    validates, a position that is absent or not negative and an unused
    identifier, is answered 201 with the new row (position 0 when none was
    given), and the product's image list then contains it. *)
Theorem add_image_by_url_then_list (db : Db num) (disk : Disk) (id ctype url : string)
  (position : option Z) (createdAt uuid : string) (draws : nat -> string * string)
  (p : Product num) :
  getProductById db id = Some p ->
  includes ctype "application/json" = true ->
  is_url url = true ->
  match position with Some pos => 0 <= pos | None => True end ->
  getImageById db uuid = None ->
  let image :=
    mkProductImage uuid id url match position with Some pos => pos | None => 0 end
                   createdAt in
  exists db',
    post_product_images is_url db disk id (mkImageRequest ctype (JsonPayload url position))
      createdAt uuid draws = (db', disk, mkResponse 201 (JImage image))
    /\ exists listed,
         get_product_images db' id = mkResponse 200 (JImages listed)
         /\ In image listed.
Proof.
  intros Hget Hjson Hurl Hpos Hfresh image.
  assert (Hunused : existsb (fun im => (pi_id im =? uuid)%string) (product_images db) = false).
  { apply not_true_is_false. intros Hex. apply existsb_exists in Hex.
    destruct Hex as [x [Hx Hid]]. unfold getImageById in Hfresh.
    rewrite (find_none _ _ Hfresh x Hx) in Hid. discriminate. }
  assert (Hvalid : addImageByUrlSchema is_url url position = []).
  { unfold addImageByUrlSchema. rewrite Hurl. simpl.
    destruct position as [pos|]; [|reflexivity].
    destruct (Z.ltb_spec pos 0); [lia | reflexivity]. }
  exists (with_product_images db (product_images db ++ [image])). split.
  - unfold post_product_images. rewrite Hget. simpl. rewrite Hjson, Hvalid.
    unfold insertImage, insertProductImage. simpl.
    rewrite Hunused, (product_found_exists db id p Hget), andb_false_r. reflexivity.
  - eexists. split.
    + unfold get_product_images, getProductById. simpl products.
      fold (getProductById db id). rewrite Hget. reflexivity.
    + unfold getImagesByProductId. rewrite order_images_in. apply filter_In. split.
      * simpl. apply in_or_app. right. now left.
      * simpl. apply String.eqb_refl.
Qed.

End ImageFacts.

(** ** The optimistic update of the client against the server *)

Section ClientFacts.
Context {num : Type} {JN : JsNum num}.

Section Update.
Variables (itemId : string) (q : Z) (now : string).

Let f : CartItemRow -> CartItemRow := set_quantity q now itemId.














End Update.



(** A failed mutation rolls the query cache back to what it held before the
    optimistic update. *)
Theorem onError_restores_cache (cache : option (CartView num)) (itemId : string) (q : Z) :
  onError (fst (onMutate cache itemId q)) (snd (onMutate cache itemId q)) = cache.
Proof.
  destruct cache as [previousCart|]; reflexivity.
Qed.

End ClientFacts.

(** ** The session identifier *)

Section SessionIdFacts.

Lemma getItem_setItem (key value : string) (storage : list (string * string)) :
  getItem key (setItem key value storage) = Some value.
Proof.
  unfold getItem, setItem. simpl. now rewrite String.eqb_refl.
Qed.

Lemma getItem_removeItem (key : string) (storage : list (string * string)) :
  getItem key (removeItem key storage) = None.
Proof.
  unfold getItem, removeItem.
  rewrite (proj2 (find_none_iff _ _)); [reflexivity|].
  intros kv Hkv. apply filter_In in Hkv. destruct Hkv as [_ Hneq].
  now destruct (fst kv =? key)%string.
Qed.

(** X28.  In the browser the session identifier is stable: once
    [getSessionId] has returned, every later call returns the same non-empty
    identifier and leaves the storage alone, whatever UUID it would draw;
    after [clearSession] the next call returns a newly drawn one. *)
Theorem getSessionId_stable (storage : list (string * string)) (uuid1 uuid2 : string) :
  uuid1 <> "" ->
  snd (getSessionId true storage uuid1) <> ""
  /\ getSessionId true (fst (getSessionId true storage uuid1)) uuid2
     = getSessionId true storage uuid1
  /\ snd (getSessionId true (clearSession true storage) uuid2) = uuid2.
Proof.
  intros Huuid. unfold getSessionId, clearSession. simpl negb. cbv iota.
  split; [|split].
  - destruct (getItem SESSION_KEY storage) as [s|] eqn:Hget; simpl.
    + destruct (String.eqb_spec s "") as [He | Hne]; simpl; assumption.
    + exact Huuid.
  - destruct (truthy_string (getItem SESSION_KEY storage)) eqn:Htruthy; simpl fst.
    + rewrite Htruthy. reflexivity.
    + rewrite getItem_setItem. simpl. apply String.eqb_neq in Huuid.
      now rewrite Huuid.
  - rewrite getItem_removeItem. reflexivity.
Qed.

End SessionIdFacts.

(** ** The image a cart item shows *)

Section FirstImageFacts.
Context {num : Type} {JN : JsNum num}.

Lemma image_before_trans (a b c : ProductImage) :
  image_before a b = true -> image_before b c = true -> image_before a c = true.
Proof.
  unfold image_before. intros Hab Hbc.
  apply orb_prop in Hab. apply orb_prop in Hbc. apply orb_true_iff.
  destruct Hab as [Hab | Hab], Hbc as [Hbc | Hbc];
    try apply andb_prop in Hab; try apply andb_prop in Hbc;
    repeat match goal with
           | H : _ /\ _ |- _ => destruct H
           | H : (_ <? _) = true |- _ => apply Z.ltb_lt in H
           | H : (_ =? _) = true |- _ => apply Z.eqb_eq in H
           end.
  - left. apply Z.ltb_lt. lia.
  - left. apply Z.ltb_lt. lia.
  - left. apply Z.ltb_lt. lia.
  - right. apply andb_true_intro. split; [apply Z.eqb_eq; lia|].
    eapply string_leb_trans; eassumption.
Qed.

Lemma image_before_total (a b : ProductImage) :
  image_before a b = false -> image_before b a = true.
Proof.
  unfold image_before. intros Hab. apply orb_false_elim in Hab.
  destruct Hab as [Hlt Hrest]. apply Z.ltb_ge in Hlt. apply orb_true_iff.
  destruct (Z.eqb_spec (pi_position a) (pi_position b)) as [Heq | Hneq].
  - right. simpl in Hrest. apply andb_true_intro. split; [apply Z.eqb_eq; lia|].
    destruct (String.leb_total (pi_createdAt a) (pi_createdAt b)); congruence.
  - left. apply Z.ltb_lt. lia.
Qed.

Lemma pick_assoc (a x z : ProductImage) :
  (if image_before (if image_before a x then a else x) z
   then (if image_before a x then a else x) else z)
  = (if image_before a (if image_before x z then x else z)
     then a else (if image_before x z then x else z)).
Proof.
  destruct (image_before a x) eqn:Hax; destruct (image_before x z) eqn:Hxz;
    try rewrite Hax; try rewrite Hxz; try reflexivity.
  - now rewrite (image_before_trans a x z Hax Hxz).
  - destruct (image_before a z) eqn:Haz; [|reflexivity]. exfalso.
    apply image_before_total in Hxz.
    rewrite (image_before_trans a z x Haz Hxz) in Hax. discriminate.
Qed.

Lemma first_image_pick (l : list ProductImage) :
  forall a x,
    first_image (if image_before a x then a else x) l
    = (if image_before a (first_image x l) then a else first_image x l).
Proof.
  induction l as [|y l IH]; intros a x; simpl; [reflexivity|].
  rewrite pick_assoc. apply IH.
Qed.

Lemma order_images_head (l : list ProductImage) (a : ProductImage) :
  hd_error (order_images (a :: l)) = Some (first_image a l).
Proof.
  revert a. induction l as [|x l IH]; intros a; [reflexivity|].
  change (order_images (a :: x :: l)) with (insert_image a (order_images (x :: l))).
  specialize (IH x).
  destruct (order_images (x :: l)) as [|h t] eqn:Hsorted; [discriminate|].
  simpl in IH. injection IH as Hh. subst h.
  change (first_image a (x :: l))
    with (first_image (if image_before a x then a else x) l).
  rewrite first_image_pick. simpl.
  destruct (image_before a (first_image x l)); reflexivity.
Qed.

(** X29.  The image a cart item carries is the first image of the product's
    image list: the subquery of the cart read and the image-list route pick
    the same row, and a product without images gives null. *)
Theorem cart_image_is_first_listed (db : Db num) (r : JoinRow) (p : Product num) :
  jr_product r = Some p ->
  image_url db r = option_map pi_url (hd_error (getImagesByProductId db (p_id p))).
Proof.
  intros Hp. unfold image_url, getImagesByProductId. rewrite Hp.
  destruct (filter _ (product_images db)) as [|im l]; [reflexivity|].
  now rewrite order_images_head.
Qed.

End FirstImageFacts.

(** ** The further results at concrete inputs *)

Section MoreConcrete.
Import Sample Fixtures.

Ltac distinct_keys := simpl; repeat constructor; simpl; intuition discriminate.

Lemma serve_all_keeps_one_cart_per_session_witness :
  one_cart_per_session shop /\ one_cart_per_session (serve_all shop browse).
Proof.
  assert (Hinv : one_cart_per_session shop) by (unfold one_cart_per_session; distinct_keys).
  split; [exact Hinv|].
  exact (serve_all_keeps_one_cart_per_session browse shop Hinv).
Defined.

Lemma getCartWithItems_returns_newest_witness :
  exists cart,
    getCartWithItems two_carts "session-2" = Some cart
    /\ cv_id cart = "cart-new"
    /\ forall c, In c (carts two_carts) -> c_session_id c = "session-2" ->
                 (c_created_at c <=? cv_createdAt cart)%string = true.
Proof.
  eexists. split; [reflexivity|]. split; [reflexivity|].
  apply (getCartWithItems_returns_newest two_carts "session-2"). reflexivity.
Defined.

Lemma getCartWithItems_items_exact_witness :
  exists cart,
    getCartWithItems two_carts "session-2" = Some cart
    /\ forall it, In it (cv_items cart) ->
                  exists c ci, shows_item "session-2" two_carts it c ci.
Proof.
  eexists. split; [reflexivity|].
  apply (getCartWithItems_items_exact two_carts "session-2"). reflexivity.
Defined.

Lemma getCartWithItems_own_items_witness :
  one_cart_per_session shop_with_item
  /\ exists cart,
       getCartWithItems shop_with_item "session-1" = Some cart
       /\ Forall (fun it => iv_cartId it = cv_id cart) (cv_items cart).
Proof.
  assert (Hinv : one_cart_per_session shop_with_item)
    by (unfold one_cart_per_session; distinct_keys).
  split; [exact Hinv|]. eexists. split; [reflexivity|].
  apply (getCartWithItems_own_items shop_with_item "session-1" _ Hinv). reflexivity.
Defined.

Lemma createCart_then_read_witness :
  cart_exists shop "cart-9" = false
  /\ exists db' cart,
       createCart shop "session-9" "cart-9" "2025-01-04T08:00:00.000Z" = Ok (db', cart)
       /\ getCartWithItems db' "session-9" = Some cart.
Proof.
  split; [reflexivity|].
  apply (createCart_then_read shop "session-9" "cart-9" "2025-01-04T08:00:00.000Z").
  - intros c [Hc | []]. subst c. discriminate.
  - reflexivity.
  - intros ci [].
Defined.

Lemma clear_then_read_empty_witness :
  one_cart_per_session shop_with_item
  /\ exists cart cart',
       getCartWithItems shop_with_item "session-1" = Some cart
       /\ getCartWithItems (fst (delete_cart shop_with_item (cv_id cart))) "session-1"
          = Some cart'
       /\ cv_items cart' = [] /\ cv_totalItems cart' = 0.
Proof.
  assert (Hinv : one_cart_per_session shop_with_item)
    by (unfold one_cart_per_session; distinct_keys).
  split; [exact Hinv|]. eexists.
  destruct (clear_then_read_empty shop_with_item "session-1" _ Hinv eq_refl)
    as [cart' [Hread [_ [Hitems [Htotal _]]]]].
  exists cart'. split; [reflexivity|]. split; [exact Hread|]. split; assumption.
Defined.

Lemma addToCart_returns_stored_witness :
  exists db' item,
    addToCart shop_with_item "cart-c" "prod-1" 3 "item-2" "2025-01-02T09:09:00.000Z"
    = Ok (db', item)
    /\ stored_quantity db' "cart-c" "prod-1" = Some (ci_quantity (added_row item))
    /\ ci_quantity (added_row item) = 5.
Proof.
  eexists. eexists. split; [reflexivity|]. split; [|reflexivity].
  apply (addToCart_returns_stored shop_with_item _ "cart-c" "prod-1" 3 "item-2"
           "2025-01-02T09:09:00.000Z" _ eq_refl).
Defined.

Lemma addToCart_then_read_witness :
  exists db' item cart it,
    addToCart shop "cart-c" "prod-2" 4 "item-5" "2025-01-02T09:09:00.000Z" = Ok (db', item)
    /\ getCartWithItems db' "session-1" = Some cart
    /\ In it (cv_items cart)
    /\ iv_id it = "item-5" /\ iv_quantity it = 4.
Proof.
  destruct (addToCart_then_read shop _ "session-1" cart_c "prod-2" 4 "item-5"
              "2025-01-02T09:09:00.000Z" _ (or_introl eq_refl) eq_refl eq_refl)
    as [cart [it [Hread [Hin [Hid [_ Hq]]]]]].
  - simpl. discriminate.
  - eexists. eexists. exists cart, it. split; [reflexivity|]. auto.
Defined.

Lemma read_and_find_agree_witness :
  exists cart c,
    getCartWithItems two_carts "session-2" = Some cart
    /\ findCartBySessionId two_carts "session-2" = Some c
    /\ c_created_at c = cv_createdAt cart.
Proof.
  eexists.
  destruct (read_and_find_agree two_carts "session-2" _ eq_refl) as [c [Hfind [Htime _]]].
  exists c. split; [reflexivity|]. split; assumption.
Defined.

Lemma delete_cart_item_absent_witness :
  select_cart_item_by_id shop_with_item "item-404" = None
  /\ delete_cart_item shop_with_item "item-404"
     = (shop_with_item, mkResponse 200 (JSuccess success_true)).
Proof.
  split; [reflexivity|].
  apply (delete_cart_item_absent shop_with_item "item-404"). reflexivity.
Defined.

Lemma put_cart_item_missing_witness :
  1 <= 5 <= 100
  /\ select_cart_item_by_id shop_with_item "item-404" = None
  /\ put_cart_item shop_with_item "item-404" (mkUpdateCartItemBody 5) "t"
     = (shop_with_item, mkResponse 404 (JError "Item não encontrado")).
Proof.
  assert (Hq : 1 <= 5 <= 100) by lia.
  split; [exact Hq|]. split; [reflexivity|].
  apply (put_cart_item_missing shop_with_item "item-404" (mkUpdateCartItemBody 5) "t" Hq).
  reflexivity.
Defined.

Lemma addToCart_other_pairs_untouched_witness :
  unique_item_ids shop_with_item
  /\ exists db' item,
       addToCart shop_with_item "cart-c" "prod-2" 1 "item-2" "t" = Ok (db', item)
       /\ select_cart_item db' "cart-c" "prod-1"
          = select_cart_item shop_with_item "cart-c" "prod-1".
Proof.
  assert (Huniq : unique_item_ids shop_with_item)
    by (unfold unique_item_ids; distinct_keys).
  split; [exact Huniq|]. eexists. eexists. split; [reflexivity|].
  apply (addToCart_other_pairs_untouched shop_with_item _ "cart-c" "prod-2" 1 "item-2" "t"
           _ "cart-c" "prod-1" Huniq eq_refl).
  discriminate.
Defined.

Lemma post_product_duplicate_sku_witness :
  createProductSchema (mkProductInput "Tablet" "Ten inch" 20 "A1") = []
  /\ In notebook (products shop) /\ p_sku notebook = "A1"
  /\ post_product shop (mkProductInput "Tablet" "Ten inch" 20 "A1") "prod-3" "t"
     = (shop, mkResponse 400 (JError "SKU already exists")).
Proof.
  assert (Hin : In notebook (products shop)) by (left; reflexivity).
  split; [reflexivity|]. split; [exact Hin|]. split; [reflexivity|].
  exact (post_product_duplicate_sku shop (mkProductInput "Tablet" "Ten inch" 20 "A1")
           "prod-3" "t" notebook eq_refl Hin eq_refl).
Defined.

Lemma post_product_then_get_witness :
  product_exists shop "prod-3" = false
  /\ get_product (fst (post_product shop (mkProductInput "Tablet" "Ten inch" 20 "C3")
                         "prod-3" "2025-01-06T08:00:00.000Z")) "prod-3"
     = mkResponse 200
         (JProduct (mkProduct "prod-3" "Tablet" "Ten inch" 20 "C3"
                      "2025-01-06T08:00:00.000Z")).
Proof.
  split; [reflexivity|].
  apply (post_product_then_get shop (mkProductInput "Tablet" "Ten inch" 20 "C3")
           "prod-3" "2025-01-06T08:00:00.000Z").
  - reflexivity.
  - intros p [Hp | [Hp | []]]; subst p; discriminate.
  - reflexivity.
Defined.

Lemma put_product_taken_sku_witness :
  getProductById shop "prod-1" = Some notebook
  /\ In mouse (products shop)
  /\ put_product shop "prod-1" (mkProductInput "Notebook" "Ultrabook" 10 "B2")
     = (shop, mkResponse 400 (JError "SKU already exists")).
Proof.
  assert (Hin : In mouse (products shop)) by (right; left; reflexivity).
  split; [reflexivity|]. split; [exact Hin|].
  apply (put_product_taken_sku shop "prod-1" (mkProductInput "Notebook" "Ultrabook" 10 "B2")
           notebook mouse); [reflexivity | reflexivity | discriminate | exact Hin | reflexivity].
Defined.

Lemma put_product_never_500_witness :
  unique_skus shop
  /\ In (status (snd (put_product shop "prod-1" (mkProductInput "N" "D" 15 "A1"))))
        [200; 400; 404].
Proof.
  assert (Huniq : unique_skus shop) by (unfold unique_skus; distinct_keys).
  split; [exact Huniq|].
  apply (put_product_never_500 shop "prod-1" (mkProductInput "N" "D" 15 "A1") Huniq).
Defined.

Lemma delete_product_effect_witness :
  getProductById gallery "prod-1" = Some notebook
  /\ get_product (fst (delete_product gallery "prod-1")) "prod-1"
     = mkResponse 404 (JError "Product not found")
  /\ Forall (fun ci => ci_product_id ci <> "prod-1")
            (cart_items (fst (delete_product gallery "prod-1"))).
Proof.
  split; [reflexivity|].
  destruct (delete_product_effect gallery "prod-1" notebook eq_refl)
    as [_ [Hget [_ Hcascade]]].
  split; [exact Hget|]. apply (Hcascade eq_refl).
Defined.

Lemma delete_product_image_foreign_witness :
  getImageById gallery "img-3" = Some pad
  /\ pi_productId pad <> "prod-1"
  /\ delete_product_image backend gallery disk_with_cover "prod-1" "img-3" true
     = (gallery, disk_with_cover, mkResponse 404 (JError "Image not found")).
Proof.
  assert (Hother : pi_productId pad <> "prod-1") by (simpl; discriminate).
  split; [reflexivity|]. split; [exact Hother|].
  exact (delete_product_image_foreign backend gallery disk_with_cover "prod-1" "img-3" true
           notebook pad eq_refl eq_refl Hother).
Defined.

Lemma delete_product_image_effect_witness :
  getImageById gallery "img-2" = Some cover
  /\ exists db' disk',
       delete_product_image backend gallery disk_with_cover "prod-1" "img-2" true
       = (db', disk', mkResponse 204 NoContent)
       /\ getImageById db' "img-2" = None.
Proof.
  split; [reflexivity|].
  destruct (delete_product_image_effect backend gallery disk_with_cover "prod-1" "img-2"
              true notebook cover eq_refl eq_refl eq_refl)
    as [db' [disk' [Hdel [Hgone _]]]].
  exists db', disk'. split; assumption.
Defined.

Lemma upload_saves_one_image_per_file_witness :
  exists db' disk' answer saved,
    post_product_images http_url gallery no_disk "prod-1" two_files
      "2025-01-05T10:00:00.000Z" "image-x" draws = (db', disk', mkResponse 201 answer)
    /\ answer = JImages saved
    /\ List.length saved = 2%nat
    /\ Forall (uploaded_image "prod-1" "2025-01-05T10:00:00.000Z") saved.
Proof.
  eexists. eexists. eexists.
  destruct (upload_saves_one_image_per_file http_url gallery _ no_disk _ "prod-1"
              "multipart/form-data; boundary=x"
              [FormFile "a b.png" "xx"; FormString "note"; FormFile "" "yy"]
              "2025-01-05T10:00:00.000Z" "image-x" draws _ eq_refl eq_refl eq_refl)
    as [saved [Hanswer [_ [Hlen [_ Hall]]]]].
  exists saved. split; [reflexivity|]. split; [exact Hanswer|]. split; assumption.
Defined.

Lemma add_image_by_url_then_list_witness :
  getImageById gallery "img-9" = None
  /\ exists db' listed,
       post_product_images http_url gallery no_disk "prod-1"
         (mkImageRequest "application/json" (JsonPayload "https://example.com/side.jpg" None))
         "2025-01-05T10:00:00.000Z" "img-9" draws
       = (db', no_disk,
          mkResponse 201
            (JImage (mkProductImage "img-9" "prod-1" "https://example.com/side.jpg" 0
                       "2025-01-05T10:00:00.000Z")))
       /\ get_product_images db' "prod-1" = mkResponse 200 (JImages listed)
       /\ In (mkProductImage "img-9" "prod-1" "https://example.com/side.jpg" 0
                "2025-01-05T10:00:00.000Z") listed.
Proof.
  split; [reflexivity|].
  destruct (add_image_by_url_then_list http_url gallery no_disk "prod-1" "application/json"
              "https://example.com/side.jpg" None "2025-01-05T10:00:00.000Z" "img-9" draws
              notebook eq_refl eq_refl eq_refl I eq_refl)
    as [db' [Hpost [listed [Hlist Hin]]]].
  exists db', listed. split; [exact Hpost|]. split; assumption.
Defined.


Lemma getSessionId_stable_witness :
  "0b5c" <> ""
  /\ getSessionId true (fst (getSessionId true [] "0b5c")) "77aa"
     = getSessionId true [] "0b5c".
Proof.
  assert (Hne : "0b5c" <> "") by discriminate.
  split; [exact Hne|].
  apply (getSessionId_stable [] "0b5c" "77aa" Hne).
Defined.

Lemma cart_image_is_first_listed_witness :
  jr_product notebook_row = Some notebook
  /\ image_url gallery notebook_row
     = option_map pi_url (hd_error (getImagesByProductId gallery "prod-1")).
Proof.
  split; [reflexivity|].
  exact (cart_image_is_first_listed gallery notebook_row notebook eq_refl).
Defined.

End MoreConcrete.

(** ** The cart and the items of a session with several carts *)

Section SeveralCarts.
Context {num : Type} {JN : JsNum num}.

(** C6, as amended.  For a session with stored carts (one or more) the read
    returns a cart of the session with the most recent creation time, and
    the items it returns are the stored items of all carts of the session,
    each under the identifier of its own cart: every returned item is one of
    them and every one of them (with a non-empty identifier) is returned.
    They belong to the returned cart alone where no two carts share a
    session, which is the state the cart routes keep. *)
Theorem getCartWithItems_newest_cart_all_items (db : Db num) (sessionId : string) :
  (exists c, In c (carts db) /\ c_session_id c = sessionId) ->
  exists cart,
    getCartWithItems db sessionId = Some cart
    /\ (exists c, In c (carts db) /\ c_session_id c = sessionId
                  /\ cv_id cart = c_id c /\ cv_createdAt cart = c_created_at c)
    /\ (forall c, In c (carts db) -> c_session_id c = sessionId ->
                  (c_created_at c <=? cv_createdAt cart)%string = true)
    /\ (forall it, In it (cv_items cart) -> exists c ci, shows_item sessionId db it c ci)
    /\ (forall c ci,
           In c (carts db) -> c_session_id c = sessionId ->
           In ci (cart_items db) -> ci_cart_id ci = c_id c -> ci_id ci <> "" ->
           exists it, In it (cv_items cart) /\ shows_item sessionId db it c ci)
    /\ (one_cart_per_session db ->
        Forall (fun it => iv_cartId it = cv_id cart) (cv_items cart)).
Proof.
  intros [c0 [Hc0 Hs0]].
  destruct (getCartWithItems db sessionId) as [cart|] eqn:Hread;
    [|exfalso; exact (read_none_no_cart db sessionId c0 Hread Hc0 Hs0)].
  exists cart. split; [reflexivity|].
  destruct (getCartWithItems_newest db sessionId cart Hread) as [Hstored Hnewest].
  split; [exact Hstored|]. split; [exact Hnewest|]. split; [|split].
  - intros it. now apply read_item_shown.
  - intros c ci. now apply stored_item_read.
  - intros Hone. apply Forall_forall. intros it Hit.
    eapply single_cart_items; eassumption.
Qed.

End SeveralCarts.

Section SeveralCartsConcrete.
Import Sample.

(** C6 as stated fails.  The tables are those the service functions leave
    after [createCart], [addToCart] and a second [createCart] for the same
    session; the session has two stored carts, the cart read is the newer
    one, and the items returned are not all items of that cart (the item of
    the older cart is among them). *)
Lemma older_cart_items_returned :
  (exists db1 cart1 db2 item,
      createCart (mkDb [notebook] [] [] [] true) "session-2" "cart-old"
        "2025-01-01T08:00:00.000Z" = Ok (db1, cart1)
      /\ addToCart db1 "cart-old" "prod-1" 3 "item-9" "2025-01-01T08:30:00.000Z"
         = Ok (db2, item)
      /\ exists cart2,
           createCart db2 "session-2" "cart-new" "2025-01-03T08:00:00.000Z"
           = Ok (two_carts, cart2))
  /\ List.length (filter (fun c => (c_session_id c =? "session-2")%string) (carts two_carts))
     = 2%nat
  /\ exists cart,
       getCartWithItems two_carts "session-2" = Some cart
       /\ cv_id cart = "cart-new"
       /\ ~ Forall (fun it => iv_cartId it = cv_id cart) (cv_items cart).
Proof.
  split.
  { do 4 eexists. split; [reflexivity|]. split; [reflexivity|].
    eexists. reflexivity. }
  split; [reflexivity|]. eexists. split; [reflexivity|]. split; [reflexivity|].
  intros Hall. inversion Hall as [|it items Hit Hrest]; subst.
  simpl in Hit. discriminate.
Qed.

(** C6 as amended, at that input. *)
Lemma getCartWithItems_newest_cart_all_items_witness :
  (exists c, In c (carts two_carts) /\ c_session_id c = "session-2")
  /\ exists cart,
       getCartWithItems two_carts "session-2" = Some cart
       /\ (forall c, In c (carts two_carts) -> c_session_id c = "session-2" ->
                     (c_created_at c <=? cv_createdAt cart)%string = true)
       /\ (forall it, In it (cv_items cart) ->
                      exists c ci, shows_item "session-2" two_carts it c ci).
Proof.
  assert (Hsome : exists c, In c (carts two_carts) /\ c_session_id c = "session-2")
    by (exists cart_new; split; [right; left; reflexivity | reflexivity]).
  split; [exact Hsome|].
  destruct (getCartWithItems_newest_cart_all_items two_carts "session-2" Hsome)
    as [cart [Hread [_ [Hnewest [Hshown _]]]]].
  exists cart. split; [exact Hread|]. split; [exact Hnewest | exact Hshown].
Defined.

End SeveralCartsConcrete.

(** ** Requests with their JSON bodies *)

Section RequestFacts.
Context {num : Type} {JN : JsNum num} {JS : JsShape num}.

Lemma min_length_1_nil (msg s : string) : min_length_1 msg s = [] <-> s <> "".
Proof.
  unfold min_length_1. destruct (String.eqb_spec s "") as [He | Hne]; split;
    intros Hx; try reflexivity; try assumption; try discriminate. contradiction.
Qed.

Lemma z_string_min1_valid (msg : string) (v : option (Json num)) (s : string) :
  z_string_min1 msg v = Valid s <-> v = Some (JsString s) /\ s <> "".
Proof.
  unfold z_string_min1. split.
  - destruct v as [[| b | n | s' | items | fields]|]; try discriminate.
    destruct (min_length_1 msg s') eqn:Hmin; [|discriminate].
    intros Heq. injection Heq as Hs. subst s'. split; [reflexivity|].
    now apply (min_length_1_nil msg).
  - intros [Hv Hs]. subst v. apply (min_length_1_nil msg) in Hs. now rewrite Hs.
Qed.

Lemma z_string_min1_issues (msg s : string) :
  issues_of (z_string_min1 msg (Some (@JsString num s))) = min_length_1 msg s.
Proof.
  unfold z_string_min1. destruct (min_length_1 msg s); reflexivity.
Qed.

Lemma quantity_issues_range (z : Z) : quantity_issues z = [] <-> 1 <= z <= 100.
Proof.
  split; [apply quantity_issues_nil|]. intros Hz. unfold quantity_issues.
  destruct (Z.ltb_spec z 1); [lia|]. destruct (Z.ltb_spec 100 z); [lia|]. reflexivity.
Qed.

Lemma z_quantity_valid (v : option (Json num)) (z : Z) :
  z_quantity v = Valid z
  <-> exists n, v = Some (JsNumber n) /\ jshape n = Whole z /\ 1 <= z <= 100.
Proof.
  unfold z_quantity. split.
  - destruct v as [[| b | n | s | items | fields]|]; try discriminate.
    destruct (jshape n) as [z' | floor | [|]] eqn:Hshape; try discriminate.
    destruct (quantity_issues z') eqn:Hq; [|discriminate].
    intros Heq. injection Heq as Hz. subst z'. exists n.
    repeat split; try assumption; now apply quantity_issues_nil.
  - intros [n [Hv [Hshape Hz]]]. subst v. rewrite Hshape.
    now rewrite (proj2 (quantity_issues_range z) Hz).
Qed.

Lemma z_quantity_issues (n : num) (z : Z) :
  jshape n = Whole z ->
  issues_of (z_quantity (Some (JsNumber n))) = quantity_issues z.
Proof.
  intros Hshape. unfold z_quantity. rewrite Hshape.
  destruct (quantity_issues z); reflexivity.
Qed.

Lemma addToCartSchema_json_valid (v : Json num) :
  (exists b, addToCartSchema_json v = Valid b) <-> accepted_add v.
Proof.
  unfold addToCartSchema_json, accepted_add. split.
  - intros [b Hvalid]. destruct v as [| x | n | s | items | fields]; try discriminate.
    destruct (z_string_min1 _ (field "productId" fields)) as [s|i1] eqn:Hs;
      destruct (z_quantity (field "quantity" fields)) as [z|i2] eqn:Hz; try discriminate.
    apply z_string_min1_valid in Hs. apply z_quantity_valid in Hz.
    destruct Hs as [Hs Hne]. destruct Hz as [n [Hn [Hshape Hrange]]].
    exists fields, s, n, z. auto 10.
  - intros [fields [s [n [z [Hv [Hs [Hne [Hn [Hshape Hrange]]]]]]]]]. subst v.
    rewrite (proj2 (z_string_min1_valid _ _ s) (conj Hs Hne)).
    rewrite (proj2 (z_quantity_valid _ z)); [eexists; reflexivity|].
    exists n. auto.
Qed.

Lemma updateCartItemSchema_json_valid (v : Json num) :
  (exists b, updateCartItemSchema_json v = Valid b) <-> accepted_update v.
Proof.
  unfold updateCartItemSchema_json, accepted_update. split.
  - intros [b Hvalid]. destruct v as [| x | n | s | items | fields]; try discriminate.
    destruct (z_quantity (field "quantity" fields)) as [z|i2] eqn:Hz; [|discriminate].
    apply z_quantity_valid in Hz. destruct Hz as [n [Hn [Hshape Hrange]]].
    exists fields, n, z. auto.
  - intros [fields [n [z [Hv [Hn [Hshape Hrange]]]]]]. subst v.
    rewrite (proj2 (z_quantity_valid _ z)); [eexists; reflexivity|].
    exists n. auto.
Qed.

(** On a document with a string [productId] and a whole [quantity] the
    add-item route is the route on the typed body. *)
Lemma post_cart_items_request_typed (db : Db num) (cartId : string)
  (fields : list (string * Json num)) (s : string) (n : num) (z : Z) (id now : string) :
  field "productId" fields = Some (JsString s) ->
  field "quantity" fields = Some (JsNumber n) ->
  jshape n = Whole z ->
  post_cart_items_request db cartId (Document (JsObject fields)) id now
  = post_cart_items db cartId (mkAddToCartBody s z) id now.
Proof.
  intros Hs Hn Hshape.
  unfold post_cart_items_request, addToCartSchema_json, post_cart_items, addToCartSchema.
  rewrite Hs, Hn. simpl ab_productId. simpl ab_quantity.
  pose proof (z_string_min1_issues "Product ID é obrigatório" s) as H1.
  pose proof (z_quantity_issues n z Hshape) as H2.
  destruct (z_string_min1 "Product ID é obrigatório" (Some (JsString s))) as [s'|i1] eqn:Hr1;
    destruct (z_quantity (Some (JsNumber n))) as [z'|i2] eqn:Hr2;
    simpl in H1, H2; rewrite <- H1, <- H2; simpl.
  - apply z_string_min1_valid in Hr1. destruct Hr1 as [Heq _].
    injection Heq as Heq. subst s'.
    apply z_quantity_valid in Hr2. destruct Hr2 as [n' [Heq [Hshape' _]]].
    injection Heq as Heq. subst n'. rewrite Hshape in Hshape'.
    injection Hshape' as Hz. subst z'. reflexivity.
  - destruct i2 as [|x i2]; [|reflexivity].
    exfalso. symmetry in H2. apply quantity_issues_range in H2.
    assert (Hv : z_quantity (Some (JsNumber n)) = Valid z)
      by (apply z_quantity_valid; exists n; auto).
    rewrite Hv in Hr2. discriminate.
  - destruct i1 as [|x i1]; [|reflexivity].
    exfalso. symmetry in H1. apply min_length_1_nil in H1.
    assert (Hv : z_string_min1 "Product ID é obrigatório" (Some (@JsString num s)) = Valid s)
      by (apply z_string_min1_valid; auto).
    rewrite Hv in Hr1. discriminate.
  - destruct i1 as [|x i1]; [|reflexivity].
    exfalso. symmetry in H1. apply min_length_1_nil in H1.
    assert (Hv : z_string_min1 "Product ID é obrigatório" (Some (@JsString num s)) = Valid s)
      by (apply z_string_min1_valid; auto).
    rewrite Hv in Hr1. discriminate.
Qed.

(** X15.  The add-item route answers 400 exactly when the body is a JSON
    document that is not an object with a non-empty string [productId] and a
    whole-number [quantity] in 1..100 (a missing or wrongly typed field and a
    fractional quantity included); the update-item route exactly when the
    body is a JSON document that is not an object with such a [quantity].  A
    request answered 400 leaves the database as it was, and a body that is
    not JSON is answered 500. *)
Theorem cart_requests_400_iff (db : Db num) (cartId itemId : string)
  (body : RequestBody num) (id now : string) :
  (status (snd (post_cart_items_request db cartId body id now)) = 400
   <-> exists v, body = Document v /\ ~ accepted_add v)
  /\ (status (snd (post_cart_items_request db cartId body id now)) = 400 ->
      fst (post_cart_items_request db cartId body id now) = db)
  /\ (status (snd (put_cart_item_request db itemId body now)) = 400
      <-> exists v, body = Document v /\ ~ accepted_update v)
  /\ (status (snd (put_cart_item_request db itemId body now)) = 400 ->
      fst (put_cart_item_request db itemId body now) = db)
  /\ (body = NoJson ->
      post_cart_items_request db cartId body id now = (db, internal_error)
      /\ put_cart_item_request db itemId body now = (db, internal_error)).
Proof.
  split; [|split; [|split; [|split]]].
  - unfold post_cart_items_request. destruct body as [|v]; simpl.
    + split; [discriminate | intros [v [Hv _]]; discriminate].
    + destruct (addToCartSchema_json v) as [b|details] eqn:Hparse.
      * assert (Hacc : accepted_add v)
          by (apply addToCartSchema_json_valid; now exists b).
        destruct (addToCart db cartId _ _ id now) as [[db' item]|e]; simpl;
          (split; [discriminate | intros [v' [Hv Hno]]; injection Hv as Hv; subst v';
                                  contradiction]).
      * simpl. split; [|reflexivity]. intros _. exists v. split; [reflexivity|].
        intros Hacc. apply addToCartSchema_json_valid in Hacc.
        destruct Hacc as [b Hb]. congruence.
  - unfold post_cart_items_request. destruct body as [|v]; simpl; [discriminate|].
    destruct (addToCartSchema_json v) as [b|details]; [|reflexivity].
    destruct (addToCart db cartId _ _ id now) as [[db' item]|e]; simpl; discriminate.
  - unfold put_cart_item_request. destruct body as [|v]; simpl.
    + split; [discriminate | intros [v [Hv _]]; discriminate].
    + destruct (updateCartItemSchema_json v) as [b|details] eqn:Hparse.
      * assert (Hacc : accepted_update v)
          by (apply updateCartItemSchema_json_valid; now exists b).
        unfold updateCartItem. destruct (select_cart_item_by_id _ itemId); simpl;
          (split; [discriminate | intros [v' [Hv Hno]]; injection Hv as Hv; subst v';
                                  contradiction]).
      * simpl. split; [|reflexivity]. intros _. exists v. split; [reflexivity|].
        intros Hacc. apply updateCartItemSchema_json_valid in Hacc.
        destruct Hacc as [b Hb]. congruence.
  - unfold put_cart_item_request. destruct body as [|v]; simpl; [discriminate|].
    destruct (updateCartItemSchema_json v) as [b|details]; [|reflexivity].
    unfold updateCartItem. destruct (select_cart_item_by_id _ itemId); simpl; discriminate.
  - intros Hbody. subst body. split; reflexivity.
Qed.

(** A quantity that is a number but not a whole one, such as 1.5, is
    answered 400 by both routes. *)
Lemma fractional_quantity_400 (db : Db num) (cartId itemId : string)
  (fields : list (string * Json num)) (n : num) (floor : Z) (id now : string) :
  field "quantity" fields = Some (JsNumber n) ->
  jshape n = Between floor ->
  status (snd (post_cart_items_request db cartId (Document (JsObject fields)) id now)) = 400
  /\ status (snd (put_cart_item_request db itemId (Document (JsObject fields)) now)) = 400.
Proof.
  intros Hn Hshape.
  unfold post_cart_items_request, put_cart_item_request, addToCartSchema_json,
    updateCartItemSchema_json, z_quantity.
  rewrite Hn, Hshape. split.
  - destruct (z_string_min1 _ (field "productId" fields)); reflexivity.
  - reflexivity.
Qed.

Lemma z_positive_valid (msg : string) (v : option (Json num)) (p : num) :
  z_positive msg v = Valid p -> jpositive p = true.
Proof.
  unfold z_positive. destruct v as [[| b | n | s | items | fields]|]; try discriminate.
  destruct (jpositive n) eqn:Hpos; [|discriminate].
  intros Heq. injection Heq as Hp. now subst p.
Qed.

Lemma updateProductSchema_json_valid (v : Json num) (data : ProductInput num) :
  updateProductSchema_json v = Valid data -> updateProductSchema data = [].
Proof.
  unfold updateProductSchema_json, updateProductSchema.
  destruct v as [| x | n | s | items | fields]; try discriminate.
  destruct (z_string_min1 _ (field "name" fields)) as [name|i1] eqn:H1;
    destruct (z_string_min1 _ (field "description" fields)) as [description|i2] eqn:H2;
    destruct (z_positive _ (field "price" fields)) as [price|i3] eqn:H3;
    destruct (z_string_min1 _ (field "sku" fields)) as [sku|i4] eqn:H4;
    try discriminate.
  intros Heq. injection Heq as Hdata. subst data. simpl.
  apply z_string_min1_valid in H1, H2, H4. apply z_positive_valid in H3.
  destruct H1 as [_ H1]. destruct H2 as [_ H2]. destruct H4 as [_ H4].
  rewrite (proj2 (min_length_1_nil _ name) H1), (proj2 (min_length_1_nil _ description) H2),
    (proj2 (min_length_1_nil _ sku) H4), H3. reflexivity.
Qed.

(** On a document the schema accepts the update route is the route on the
    typed body. *)
Lemma put_product_request_valid (db : Db num) (id : string) (v : Json num)
  (data : ProductInput num) :
  updateProductSchema_json v = Valid data ->
  put_product_request db id (Document v) = put_product db id data.
Proof.
  intros Hvalid. unfold put_product_request, put_product.
  now rewrite Hvalid, (updateProductSchema_json_valid v data Hvalid).
Qed.

(** X20.  With unique SKUs stored, the update route ends in the 500 of its
    catch block exactly when the request body cannot be read as JSON: for a
    body that is read, the checks of the handler rule out every violation of
    the [UNIQUE] constraint by its UPDATE, and the answer is 200 with the
    stored product (never an undefined body), 400 or 404. *)
Theorem put_product_request_500_iff (db : Db num) (id : string) (sent : RequestBody num) :
  unique_skus db ->
  (status (snd (put_product_request db id sent)) = 500 <-> sent = NoJson)
  /\ In (status (snd (put_product_request db id sent))) [200; 400; 404; 500]
  /\ body (snd (put_product_request db id sent)) <> JUndefined.
Proof.
  intros Huniq. destruct sent as [|v].
  - simpl. split; [split; reflexivity|]. split; [tauto | discriminate].
  - destruct (updateProductSchema_json v) as [data|details] eqn:Hparse.
    + rewrite (put_product_request_valid db id v data Hparse).
      destruct (put_product_never_500 db id data Huniq) as [Hstatus Hbody].
      split; [|split; [|exact Hbody]].
      * split; [|discriminate]. intros H500. rewrite H500 in Hstatus.
        simpl in Hstatus. exfalso. intuition discriminate.
      * simpl in Hstatus. simpl. tauto.
    + unfold put_product_request. rewrite Hparse. simpl.
      split; [split; discriminate|]. split; [tauto | discriminate].
Qed.

End RequestFacts.

Section RequestsConcrete.
Import Sample Documents.

(** A quantity sent as text is answered 400 and stores nothing; the same
    request with the number 3 is answered 201. *)
Example quantity_as_text_rejected :
  post_cart_items_request shop "cart-c" (Document quantity_as_text) "item-1" "t"
  = (shop, mkResponse 400 (JInvalid "Dados inválidos" ["Expected number, received string"]))
  /\ status (snd (post_cart_items_request shop "cart-c" (Document three_notebooks)
                    "item-1" "t")) = 201
  /\ status (snd (put_cart_item_request shop_with_item "item-1" (Document five) "t")) = 200
  /\ status (snd (post_cart_items_request shop "cart-c" NoJson "item-1" "t")) = 500.
Proof.
  repeat split; reflexivity.
Qed.

(** X20 at a concrete input: a valid update that keeps the SKU. *)
Lemma put_product_request_500_iff_witness :
  unique_skus shop
  /\ (status (snd (put_product_request shop "prod-1" (Document laptop))) = 500
      <-> Document laptop = NoJson)
  /\ status (snd (put_product_request shop "prod-1" (Document laptop))) = 200
  /\ status (snd (put_product_request shop "prod-1" (@NoJson Z))) = 500.
Proof.
  assert (Huniq : unique_skus shop).
  { unfold unique_skus. simpl. repeat constructor; simpl; intuition discriminate. }
  split; [exact Huniq|].
  destruct (put_product_request_500_iff shop "prod-1" (Document laptop) Huniq)
    as [Hiff _].
  split; [exact Hiff|]. split; reflexivity.
Defined.

End RequestsConcrete.
